(** * PowerPilot.ai: forecasting, anomaly scoring and trend analysis

    A shallow embedding of the service layer of the PowerPilot backend
    ([backend/app/services/*.py] and the repositories they call) together
    with the properties of the forecasting loop, the z-score anomaly
    fallback, the trend classifier and the replace-on-run persistence.

    Numbers.  A Python float is the rational ([Q]) it denotes.
    Comparisons and decimal rounding are exact on doubles and are
    computed exactly.  Where the double an operation arrives at decides
    what a service returns - the flag and the score of the z-score
    fallback, the anomaly rate, the trend label, the notices of the
    recommendations - the operation is the IEEE 754 one ([Float]), and
    the reductions of numpy and pandas that feed it (mean, standard
    deviation, the sums and means of [groupby]) are parameters, their
    order of summation being the library's own.  Elsewhere - the
    forecasting loop, the training features, the usage figures - sums and
    means are computed exactly, and the numpy primitives that leave the
    rationals (square root, sine, the normal random generator) are
    parameters.  Every theorem holds whatever the parameters return.
    Timestamps are naive datetimes counted in microseconds since
    1970-01-01T00:00:00. *)

From Stdlib Require Import Ascii String DecimalString List Sorted Permutation
  ZArith QArith Qround Qabs Lia Lqa Bool.
Import ListNotations.

Local Open Scope Z_scope.
Local Open Scope Q_scope.

(** ** Python and numpy primitives over the rationals *)

Module Py.

(** [a < b] as a boolean. *)
Definition Qlt_bool (a b : Q) : bool := negb (Qle_bool b a).

(** [max(a, b)] on two arguments: the first one wins unless the second is
    strictly greater. *)
Definition max (a b : Q) : Q := if Qlt_bool a b then b else a.

(** [x or d]: [d] when [x] is falsy, which for a number means zero. *)
Definition or (x d : Q) : Q := if Qeq_bool x 0 then d else x.

(** Nearest integer, ties to the even one. *)
Definition round_half_even (q : Q) : Z :=
  let f := Qfloor q in
  match Qcompare (q - inject_Z f) (1 # 2) with
  | Lt => f
  | Gt => (f + 1)%Z
  | Eq => if Z.even f then f else (f + 1)%Z
  end.

(** [round(q, ndigits)]. *)
Definition round (q : Q) (ndigits : nat) : Q :=
  let p := inject_Z (10 ^ Z.of_nat ndigits) in
  inject_Z (round_half_even (q * p)) / p.

(** [l[-n:]] for [0 < n]: the last [n] elements, the whole list when it
    is shorter. *)
Definition lastn {A} (n : nat) (l : list A) : list A :=
  skipn (length l - n) l.

(** [range(start, stop, step)] for a positive step. *)
Fixpoint range_from (fuel : nat) (start stop step : Z) : list Z :=
  match fuel with
  | O => []
  | S k => if (start <? stop)%Z
           then start :: range_from k (start + step) stop step
           else []
  end.

Definition range (start stop step : Z) : list Z :=
  range_from (Z.to_nat (stop - start)) start stop step.

End Py.

Module Np.

Definition sum (l : list Q) : Q := fold_left Qplus l 0.

(** [np.mean]; the code never applies it to an empty array. *)
Definition mean (l : list Q) : Q :=
  sum l / inject_Z (Z.of_nat (length l)).

(** [np.pi], the double nearest to pi. *)
Definition pi : Q := 884279719003555 # 281474976710656.

Section Std.
Variable sqrt : Q -> Q.

(** [np.std] with its default [ddof = 0]: the root of the mean squared
    deviation from the mean. *)
Definition std (l : list Q) : Q :=
  let m := mean l in
  sqrt (mean (map (fun x => (x - m) * (x - m)) l)).
End Std.

End Np.

(** ** IEEE 754 double precision

    A finite double is the rational it denotes.  [round] takes a rational
    to the nearest double, a tie going to the one with an even
    significand: 53 bits of significand, least exponent -1074.  Values
    beyond the largest finite double, infinities and NaN are outside the
    model. *)

Module Float.

(** 2 to the power [e]. *)
Definition pow2 (e : Z) : Q :=
  if (0 <=? e)%Z then inject_Z (2 ^ e) else 1 # Pos.pow 2 (Z.to_pos (- e)).

(** The binary exponent of [q]: the [e] with [2^e <= |q| < 2^(e+1)]. *)
Definition magnitude (q : Q) : Z :=
  let e := (Z.log2 (Z.abs (Qnum q)) - Z.log2 (Zpos (Qden q)))%Z in
  if Qle_bool (pow2 e) (Qabs q) then e else (e - 1)%Z.

(** The distance between the doubles around [q]. *)
Definition ulp (q : Q) : Q := pow2 (Z.max (magnitude q - 52) (-1074)).

Definition round (q : Q) : Q :=
  Qred (inject_Z (Py.round_half_even (q / ulp q)) * ulp q).

(** The arithmetic operations: the exact result, rounded.  An operand that
    is not a double stands for the nearest one, as a decimal literal does
    in the source. *)
Definition add (a b : Q) : Q := round (round a + round b).
Definition sub (a b : Q) : Q := round (round a - round b).
Definition mul (a b : Q) : Q := round (round a * round b).
Definition div (a b : Q) : Q := round (round a / round b).

(** [a / b] on two Python integers: the quotient of the integers
    themselves, rounded once. *)
Definition truediv (a b : Z) : Q := round (inject_Z a / inject_Z b).

(** The square root, rounded; 0 below zero, where numpy answers NaN. *)
Definition sqrt (q : Q) : Q :=
  let x := round q in
  if Qle_bool x 0 then 0
  else
    let k := (Z.log2 (Zpos (Qden x)) + 64)%Z in
    let n := (Qnum x * 4 ^ k / Zpos (Qden x))%Z in
    let s := Z.sqrt n in
    let sticky := if (s * s =? n)%Z then 0%Z else 1%Z in
    round (inject_Z (2 * s + sticky) * pow2 (- (k + 1))).

End Float.

(** ** Naive datetimes *)

Module Datetime.

Definition t := Z.

Definition us_per_hour : Z := 3600000000.
Definition us_per_day : Z := 86400000000.

(** [timedelta(hours=i)] *)
Definition timedelta_hours (i : Z) : Z := (i * us_per_hour)%Z.

(** [ts + timedelta] *)
Definition add (ts : t) (delta : Z) : t := (ts + delta)%Z.

(** [max(a, b)] on datetimes. *)
Definition max (a b : t) : t := if (a <? b)%Z then b else a.

(** Days since 1970-01-01: identifies [ts.date()]. *)
Definition date (ts : t) : Z := (ts / us_per_day)%Z.

Definition hour (ts : t) : Z := ((ts / us_per_hour) mod 24)%Z.

(** Monday is 0; 1970-01-01 was a Thursday. *)
Definition weekday (ts : t) : Z := ((date ts + 3) mod 7)%Z.

(** Month of the proleptic Gregorian date, 1..12. *)
Definition month (ts : t) : Z :=
  (let z := date ts + 719468 in
   let era := z / 146097 in
   let doe := z - era * 146097 in
   let yoe := (doe - doe / 1460 + doe / 36524 - doe / 146096) / 365 in
   let doy := doe - (365 * yoe + yoe / 4 - yoe / 100) in
   let mp := (5 * doy + 2) / 153 in
   if mp <? 10 then mp + 3 else mp - 9)%Z.

End Datetime.

(** ** Rows and schemas *)

Module EnergyData.
Record t := mk {
  timestamp : Datetime.t;
  consumption_kwh : Q;
  hour : Z;
  day : Z;
  month : Z;
  is_weekend : bool
}.
End EnergyData.

Module PredictionPoint.
Record t := mk {
  timestamp : Datetime.t;
  predicted_value : Q
}.
End PredictionPoint.

Module PredictionDataCreate.
Record t := mk {
  timestamp : Datetime.t;
  predicted_value : Q;
  prediction_horizon : Z
}.
End PredictionDataCreate.

Module PredictionResponse.
Record t := mk {
  horizon : string;
  predictions : list PredictionPoint.t;
  model_accuracy : option Q
}.
End PredictionResponse.

Module AnomalyDataCreate.
Record t := mk {
  timestamp : Datetime.t;
  consumption : Q;
  is_anomaly : bool;
  anomaly_score : option Q
}.
End AnomalyDataCreate.

Module AnomalyDataResponse.
Record t := mk {
  id : Z;
  timestamp : Datetime.t;
  consumption : Q;
  is_anomaly : bool;
  anomaly_score : option Q
}.
End AnomalyDataResponse.

Module AnomalyListResponse.
Record t := mk {
  total_records : Z;
  total_anomalies : Z;
  anomaly_rate : Q;
  anomalies : list AnomalyDataResponse.t
}.
End AnomalyListResponse.

(** A row of the [anomaly_data] table as a query returns it: the stored
    columns with the primary key ([created_at] is left out). *)
Module AnomalyData.
Record t := mk {
  id : Z;
  timestamp : Datetime.t;
  consumption : Q;
  is_anomaly : bool;
  anomaly_score : option Q
}.
End AnomalyData.

Module AnalysisResponse.
Record t := mk {
  daily_usage : Q;
  weekly_usage : Q;
  monthly_usage : Q;
  yearly_usage : Q;
  peak_hours : list Z;
  low_usage_hours : list Z;
  trend : string;
  recommendations : list string
}.
End AnalysisResponse.

(** ** The database session

    One table per SQLAlchemy model.  A row is kept as the columns the
    services write; the surrogate [id] and [created_at] columns, which the
    database fills in, are left out. *)

Record Session := mkSession {
  energy_data : list EnergyData.t;
  prediction_data : list PredictionDataCreate.t;
  anomaly_data : list AnomalyDataCreate.t
}.

(** ** [ORDER BY] on an integer key

    The ordering the repositories ask the database for, as an insertion
    sort that keeps rows with equal keys in their table order. *)

Module Sql.
Section OrderBy.
Context {A : Type}.
Variable key : A -> Z.

Fixpoint insert (r : A) (l : list A) : list A :=
  match l with
  | [] => [r]
  | x :: rest => if (key r <=? key x)%Z then r :: l else x :: insert r rest
  end.

Definition order_by (l : list A) : list A := fold_right insert [] l.

End OrderBy.
End Sql.

Module EnergyRepository.

(** [ORDER BY timestamp]: an insertion sort on the timestamp that keeps
    rows with equal timestamps in their table order. *)
Fixpoint insert (r : EnergyData.t) (l : list EnergyData.t) : list EnergyData.t :=
  match l with
  | [] => [r]
  | x :: rest =>
      if (EnergyData.timestamp r <=? EnergyData.timestamp x)%Z
      then r :: l
      else x :: insert r rest
  end.

Definition order_by_timestamp (l : list EnergyData.t) : list EnergyData.t :=
  fold_right insert [] l.

Definition get_all (db : Session) (limit : Z) : list EnergyData.t :=
  firstn (Z.to_nat limit) (order_by_timestamp (energy_data db)).

(** [SELECT count(id)] *)
Definition get_count (db : Session) : Z := Z.of_nat (length (energy_data db)).

(** [get_all] with the [offset] the query also takes. *)
Definition get_all_from (db : Session) (limit offset : Z) : list EnergyData.t :=
  firstn (Z.to_nat limit)
         (skipn (Z.to_nat offset) (order_by_timestamp (energy_data db))).

Definition create_bulk (records : list EnergyData.t) (db : Session)
  : Z * Session :=
  (Z.of_nat (length records),
   mkSession (energy_data db ++ records) (prediction_data db) (anomaly_data db)).

End EnergyRepository.

Module PredictionRepository.

Definition create_bulk (records : list PredictionDataCreate.t) (db : Session)
  : Session :=
  mkSession (energy_data db) (prediction_data db ++ records) (anomaly_data db).

Definition delete_all (db : Session) : Session :=
  mkSession (energy_data db) [] (anomaly_data db).

Definition get_all (db : Session) (limit : Z) : list PredictionDataCreate.t :=
  firstn (Z.to_nat limit)
         (Sql.order_by PredictionDataCreate.timestamp (prediction_data db)).

Definition get_by_horizon (db : Session) (horizon limit : Z)
  : list PredictionDataCreate.t :=
  firstn (Z.to_nat limit)
         (Sql.order_by PredictionDataCreate.timestamp
            (filter (fun r => (PredictionDataCreate.prediction_horizon r =? horizon)%Z)
                    (prediction_data db))).

End PredictionRepository.

Module AnomalyRepository.

Definition create_bulk (records : list AnomalyDataCreate.t) (db : Session)
  : Session :=
  mkSession (energy_data db) (prediction_data db) (anomaly_data db ++ records).

Definition delete_all (db : Session) : Session :=
  mkSession (energy_data db) (prediction_data db) [].

(** The stored columns of a row, without its primary key. *)
Definition columns (r : AnomalyData.t) : AnomalyDataCreate.t :=
  AnomalyDataCreate.mk (AnomalyData.timestamp r) (AnomalyData.consumption r)
                       (AnomalyData.is_anomaly r) (AnomalyData.anomaly_score r).

Section Queries.

(** The primary key the database gave the row at each position of the
    table. *)
Variable primary_key : nat -> Z.

Fixpoint rows_from (pos : nat) (l : list AnomalyDataCreate.t)
  : list AnomalyData.t :=
  match l with
  | [] => []
  | r :: rest =>
      AnomalyData.mk (primary_key pos)
        (AnomalyDataCreate.timestamp r)
        (AnomalyDataCreate.consumption r)
        (AnomalyDataCreate.is_anomaly r)
        (AnomalyDataCreate.anomaly_score r)
      :: rows_from (S pos) rest
  end.

(** The rows of the table, in table order. *)
Definition table (db : Session) : list AnomalyData.t :=
  rows_from 0 (anomaly_data db).

Definition get_all (db : Session) (limit : Z) : list AnomalyData.t :=
  firstn (Z.to_nat limit) (Sql.order_by AnomalyData.timestamp (table db)).

Definition get_anomalies_only (db : Session) : list AnomalyData.t :=
  Sql.order_by AnomalyData.timestamp (filter AnomalyData.is_anomaly (table db)).

Definition get_counts (db : Session) : Z * Z :=
  let total := Z.of_nat (length (table db)) in
  let anomalies :=
    Z.of_nat (length (filter AnomalyData.is_anomaly (table db))) in
  (total, anomalies).

End Queries.

End AnomalyRepository.

(** ** The regressor handed to the prediction service

    [predict] is [model.predict(features)[0]] on a one-row feature matrix.
    [score] is [Some m] when the unpickled object has a [score] attribute
    ([hasattr(model, "score")]), [m] standing for the quality metric that
    attribute reports. *)

Module Predictor.
Record t := mk {
  predict : list Q -> Q;
  score : option Q
}.
End Predictor.

(** ** [backend/app/services/prediction_service.py] *)

Module PredictionService.

(** The variables the [for] loop of [predict] carries from one iteration
    to the next; [gen] is the state of numpy's global random generator. *)
Record Loop (rng : Type) := mkLoop {
  recent_values : list Q;
  lag_24_buffer : list Q;
  rolling_mean : Q;
  rolling_std : Q;
  predictions : list PredictionPoint.t;
  gen : rng
}.
Arguments mkLoop {rng}.
Arguments recent_values {rng}.
Arguments lag_24_buffer {rng}.
Arguments rolling_mean {rng}.
Arguments rolling_std {rng}.
Arguments predictions {rng}.
Arguments gen {rng}.

Definition _build_features (dt : Datetime.t)
    (rolling_mean rolling_std lag_1h lag_24h : Q) : list Q :=
  let hour := Datetime.hour dt in
  let day := Datetime.weekday dt in
  let month := Datetime.month dt in
  let is_weekend := if (5 <=? day)%Z then 1%Z else 0%Z in
  [inject_Z hour; inject_Z day; inject_Z month; inject_Z is_weekend;
   rolling_mean; rolling_std; lag_1h; lag_24h].

(** [buf.append(v)] followed by [if len(buf) > 24: buf.pop(0)]. *)
Definition append_pop (buf : list Q) (v : Q) : list Q :=
  let buf' := buf ++ [v] in
  if (24 <? length buf')%nat then tl buf' else buf'.

(** [steps], from the horizon and the base timestamp. *)
Definition steps (horizon : string) (base_ts : Datetime.t) : list Datetime.t :=
  if String.eqb horizon "next_hour" then
    [Datetime.add base_ts (Datetime.timedelta_hours 1)]
  else if String.eqb horizon "next_day" then
    map (fun i => Datetime.add base_ts (Datetime.timedelta_hours i))
        (Py.range 1 25 1)
  else
    map (fun i => Datetime.add base_ts (Datetime.timedelta_hours i))
        (Py.range 1 (24 * 7 + 1) 4).

(** [max(d.timestamp for d in all_data)] on a non-empty result set. *)
Definition last_ts (d : EnergyData.t) (rest : list EnergyData.t) : Datetime.t :=
  fold_left Datetime.max (map EnergyData.timestamp rest) (EnergyData.timestamp d).

Section WithNumpy.

Variable np_sqrt : Q -> Q.
Variable np_sin : Q -> Q.
Variable rng : Type.
(** [np.random.normal(loc, scale)] draws from, and advances, the
    generator. *)
Variable random_normal : Q -> Q -> rng -> Q * rng.

(** The state on entry to the loop, from the historical values. *)
Definition init (values : list Q) (g : rng) : Loop rng :=
  let rolling_window := Nat.min 24 (length values) in
  let tail := Py.lastn rolling_window values in
  let window :=
    if (24 <=? length values)%nat then Py.lastn 24 values else values in
  mkLoop window window
         (Np.mean tail)
         (Py.or (Np.std np_sqrt tail) 1)
         [] g.

Definition lag_1h (st : Loop rng) : Q :=
  match recent_values st with
  | [] => rolling_mean st
  | _ :: _ => last (recent_values st) 0
  end.

Definition lag_24h (st : Loop rng) : Q :=
  if (24 <=? length (lag_24_buffer st))%nat
  then hd 0 (lag_24_buffer st)
  else rolling_mean st.

(** [pred_val] of one iteration, after the clamp, with the generator
    state it leaves. *)
Definition pred_val (model : option Predictor.t) (st : Loop rng)
    (ts : Datetime.t) : Q * rng :=
  match model with
  | Some m =>
      let features :=
        _build_features ts (rolling_mean st) (rolling_std st)
                        (lag_1h st) (lag_24h st) in
      (Py.max 0 (Predictor.predict m features), gen st)
  | None =>
      let hour_factor :=
        1 + (3 # 10) * np_sin (inject_Z (Datetime.hour ts - 6) * Np.pi / 12) in
      let weekend_factor :=
        if (5 <=? Datetime.weekday ts)%Z then 85 # 100 else 1 in
      let (noise, g) :=
        random_normal 0 (rolling_std st * (1 # 10)) (gen st) in
      (Py.max 0 (rolling_mean st * hour_factor * weekend_factor + noise), g)
  end.

(** One iteration of the loop. *)
Definition loop_body (model : option Predictor.t) (st : Loop rng)
    (ts : Datetime.t) : Loop rng :=
  let (v, g) := pred_val model st ts in
  let predictions' :=
    predictions st ++ [PredictionPoint.mk ts (Py.round v 3)] in
  let recent_values' := append_pop (recent_values st) v in
  let lag_24_buffer' := append_pop (lag_24_buffer st) v in
  mkLoop recent_values' lag_24_buffer'
         (Np.mean recent_values')
         (Py.or (Np.std np_sqrt recent_values') 1)
         predictions' g.

(** The states the loop goes through: the state on entry to each
    iteration, then the state on exit from the loop. *)
Fixpoint loop_run (model : option Predictor.t) (ts : list Datetime.t)
    (st : Loop rng) : list (Loop rng) :=
  st :: match ts with
        | [] => []
        | t0 :: rest => loop_run model rest (loop_body model st t0)
        end.

Definition prediction_horizon (horizon : string) : Z :=
  if String.eqb horizon "next_hour" then 1%Z
  else if String.eqb horizon "next_day" then 24%Z else 168%Z.

Definition accuracy (model : option Predictor.t) : option Q :=
  match model with
  | Some m =>
      match Predictor.score m with
      | Some _ => Some (92 # 100)
      | None => None
      end
  | None => None
  end.

(** [PredictionService(db).predict(horizon)]: [model] is what
    [_load_model] found, [now] what [datetime.utcnow()] returns. *)
Definition predict (model : option Predictor.t) (now : Datetime.t)
    (g : rng) (horizon : string) (db : Session)
  : PredictionResponse.t * Session :=
  match EnergyRepository.get_all db 10000%Z with
  | [] => (PredictionResponse.mk horizon [] None, db)
  | d :: rest =>
      let values := map EnergyData.consumption_kwh (d :: rest) in
      let base_ts := Datetime.max (last_ts d rest) now in
      let st := fold_left (loop_body model) (steps horizon base_ts)
                          (init values g) in
      let db_records :=
        map (fun p => PredictionDataCreate.mk
                        (PredictionPoint.timestamp p)
                        (PredictionPoint.predicted_value p)
                        (prediction_horizon horizon))
            (predictions st) in
      let db1 := PredictionRepository.delete_all db in
      let db2 := PredictionRepository.create_bulk db_records db1 in
      (PredictionResponse.mk horizon (predictions st) (accuracy model), db2)
  end.

End WithNumpy.

Arguments init np_sqrt {rng}.
Arguments lag_1h {rng}.
Arguments lag_24h {rng}.
Arguments pred_val np_sin {rng}.
Arguments loop_body np_sqrt np_sin {rng}.
Arguments loop_run np_sqrt np_sin {rng}.
Arguments predict np_sqrt np_sin {rng}.

(** Both buffers are within their capacity. *)
Definition bounded {rng} (st : Loop rng) : Prop :=
  (length (recent_values st) <= 24)%nat
  /\ (length (lag_24_buffer st) <= 24)%nat.

(** The window and the lag buffer hold the same values, and the rolling
    mean is the mean of the window as it stands. *)
Definition in_step {rng} (st : Loop rng) : Prop :=
  lag_24_buffer st = recent_values st
  /\ rolling_mean st = Np.mean (recent_values st).

End PredictionService.

(** ** The outlier detector handed to the anomaly service

    Both methods are applied to the whole feature matrix in the source and
    answer row by row; they are kept here as functions of one row.
    [predict] answers [-1] for an anomaly and [1] for a normal row. *)

Module Classifier.
Record t := mk {
  decision_function : list Q -> Q;
  predict : list Q -> Z
}.
End Classifier.

(** ** [backend/app/services/anomaly_service.py] *)

Module AnomalyService.

(** A row of [df[["consumption_kwh", "hour", "day", "month"]].values]. *)
Definition features_row (d : EnergyData.t) : list Q :=
  [EnergyData.consumption_kwh d; inject_Z (EnergyData.hour d);
   inject_Z (EnergyData.day d); inject_Z (EnergyData.month d)].

(** [int(np.sum(is_anomaly))] *)
Definition count_true (l : list bool) : Z :=
  Z.of_nat (length (filter (fun b => b) l)).

(** [enumerate(anomaly_records, 1)] turned into responses. *)
Fixpoint responses_from (i : Z) (l : list AnomalyDataCreate.t)
  : list AnomalyDataResponse.t :=
  match l with
  | [] => []
  | r :: rest =>
      AnomalyDataResponse.mk i
        (AnomalyDataCreate.timestamp r)
        (AnomalyDataCreate.consumption r)
        (AnomalyDataCreate.is_anomaly r)
        (AnomalyDataCreate.anomaly_score r)
      :: responses_from (i + 1) rest
  end.

(** [round(anomalies_count / total * 100, 2) if total > 0 else 0.0]: the
    quotient of the two integers is a double, and so is its product by
    100, which [round] then takes to two decimals. *)
Definition rate (anomalies_count total : Z) : Q :=
  if (0 <? total)%Z
  then Py.round (Float.mul (Float.truediv anomalies_count total) 100) 2
  else 0.

Section WithNumpy.

(** [ndarray.mean()] and [ndarray.std()] of a column of doubles.  The
    order in which numpy adds the values up, and with it the double it
    arrives at, is numpy's own. *)
Variable np_mean : list Q -> Q.
Variable np_std : list Q -> Q.

(** [z_scores] of the statistical fallback: the subtraction and the
    division are those of doubles, element by element. *)
Definition z_scores (column : list Q) : list Q :=
  let mean := np_mean column in
  let std := Py.or (np_std column) 1 in
  map (fun x => Qabs (Float.div (Float.sub x mean) std)) column.

(** The pair [(is_anomaly, scores)], one entry per row. *)
Definition score_rows (model : option Classifier.t)
    (all_data : list EnergyData.t) : list bool * list Q :=
  let features := map features_row all_data in
  match model with
  | Some m =>
      let scores := map (Classifier.decision_function m) features in
      let predictions := map (Classifier.predict m) features in
      (map (fun p => (p =? -1)%Z) predictions, scores)
  | None =>
      let z := z_scores (map (fun f => hd 0 f) features) in
      (map (fun v => Py.Qlt_bool 3 v) z, map Qopp z)
  end.

(** The flag and the score of one row, given the whole result set: the
    row-wise reading of [score_rows]. *)
Definition verdict (model : option Classifier.t)
    (all_data : list EnergyData.t) (d : EnergyData.t) : bool * Q :=
  match model with
  | Some m =>
      ((Classifier.predict m (features_row d) =? -1)%Z,
       Classifier.decision_function m (features_row d))
  | None =>
      let column := map EnergyData.consumption_kwh all_data in
      let z :=
        Qabs (Float.div (Float.sub (EnergyData.consumption_kwh d)
                                   (np_mean column))
                        (Py.or (np_std column) 1)) in
      (Py.Qlt_bool 3 z, - z)
  end.

(** [records], one [AnomalyDataCreate] per row of the frame. *)
Definition records (model : option Classifier.t)
    (all_data : list EnergyData.t) : list AnomalyDataCreate.t :=
  let (is_anomaly, scores) := score_rows model all_data in
  map (fun x : EnergyData.t * (bool * Q) =>
         AnomalyDataCreate.mk
           (EnergyData.timestamp (fst x))
           (EnergyData.consumption_kwh (fst x))
           (fst (snd x))
           (Some (snd (snd x))))
      (combine all_data (combine is_anomaly scores)).

(** [AnomalyService(db).detect_and_store()]: [model] is what
    [_load_model] found. *)
Definition detect_and_store (model : option Classifier.t) (db : Session)
  : AnomalyListResponse.t * Session :=
  match EnergyRepository.get_all db 10000%Z with
  | [] => (AnomalyListResponse.mk 0 0 0 [], db)
  | d :: rest =>
      let all_data := d :: rest in
      let is_anomaly := fst (score_rows model all_data) in
      let records := records model all_data in
      let db1 := AnomalyRepository.delete_all db in
      let db2 := AnomalyRepository.create_bulk records db1 in
      let total := Z.of_nat (length records) in
      let anomalies_count := count_true is_anomaly in
      let anomaly_records :=
        filter AnomalyDataCreate.is_anomaly records in
      (AnomalyListResponse.mk total anomalies_count
         (rate anomalies_count total)
         (responses_from 1 anomaly_records),
       db2)
  end.

End WithNumpy.

(** [AnomalyService(db).get_stored_anomalies()] *)
Definition get_stored_anomalies (primary_key : nat -> Z) (db : Session)
  : AnomalyListResponse.t :=
  let (total, anomalies_count) := AnomalyRepository.get_counts primary_key db in
  let all_records := AnomalyRepository.get_all primary_key db 1000%Z in
  let responses :=
    map (fun r => AnomalyDataResponse.mk
                    (AnomalyData.id r)
                    (AnomalyData.timestamp r)
                    (AnomalyData.consumption r)
                    (AnomalyData.is_anomaly r)
                    (AnomalyData.anomaly_score r))
        (filter AnomalyData.is_anomaly all_records) in
  let rate := rate anomalies_count total in
  AnomalyListResponse.mk total anomalies_count rate responses.

End AnomalyService.

(** ** [backend/app/services/energy_service.py] *)

Module EnergyService.

(** Adds the reading [v] to the group kept for [key] in a frame ordered
    by key; within a group the readings stay in the order of the rows. *)
Fixpoint add_to_group (key : Z) (v : Q) (l : list (Z * list Q))
  : list (Z * list Q) :=
  match l with
  | [] => [(key, [v])]
  | (k, vs) :: rest =>
      if (key <? k)%Z then (key, [v]) :: l
      else if (key =? k)%Z then (k, vs ++ [v]) :: rest
      else (k, vs) :: add_to_group key v rest
  end.

(** [df.groupby(key)["consumption_kwh"]]: one group per value of the key,
    ordered by key, holding the consumption of its rows. *)
Definition groupby (key : EnergyData.t -> Z) (all_data : list EnergyData.t)
  : list (Z * list Q) :=
  fold_left
    (fun acc d => add_to_group (key d) (EnergyData.consumption_kwh d) acc)
    all_data [].

(** The readings kept for [key] in a grouped frame, none when absent. *)
Definition values_on (key : Z) (l : list (Z * list Q)) : list Q :=
  match find (fun p => (fst p =? key)%Z) l with
  | Some p => snd p
  | None => []
  end.

(** Insertion into an ordered series: [r] goes before the first row it
    may stand [before]. *)
Fixpoint insert_by (before : Z * Q -> Z * Q -> bool) (r : Z * Q)
    (l : list (Z * Q)) : list (Z * Q) :=
  match l with
  | [] => [r]
  | x :: rest =>
      if before r x then r :: l else x :: insert_by before r rest
  end.

(** By decreasing value, and by increasing value; among equal values the
    row that came first in the series stays first. *)
Definition largest_first (r x : Z * Q) : bool := Qle_bool (snd x) (snd r).
Definition smallest_first (r x : Z * Q) : bool := Qle_bool (snd r) (snd x).

(** [series.nlargest(n).index.tolist()] *)
Definition nlargest (n : nat) (series : list (Z * Q)) : list Z :=
  map fst (firstn n (fold_right (insert_by largest_first) [] series)).

(** [series.nsmallest(n).index.tolist()] *)
Definition nsmallest (n : nat) (series : list (Z * Q)) : list Z :=
  map fst (firstn n (fold_right (insert_by smallest_first) [] series)).

(** [series.max()] and [series.idxmax()]: the greatest value, and the
    first key that holds it. *)
Definition series_max (series : list (Z * Q)) : Z * Q :=
  match series with
  | [] => (0%Z, 0)
  | p :: rest =>
      fold_left (fun best x => if Py.Qlt_bool (snd best) (snd x) then x else best)
                rest p
  end.

(** [str(n)] on an integer. *)
Definition str (n : Z) : string := NilZero.string_of_int (Z.to_int n).

Section WithPandas.

(** The reductions pandas applies to the doubles of a group or of a
    column, as functions of the values in row order: the sum and the mean
    of [groupby(...)], and [Series.mean()].  How pandas adds the values
    up, and with it the double it arrives at, is pandas' own. *)
Variable groupby_sum : list Q -> Q.
Variable groupby_mean : list Q -> Q.
Variable series_mean : list Q -> Q.

(** [df.groupby(df["timestamp"].dt.date)["consumption_kwh"].sum()
      .reset_index()]: one row per calendar day, ordered by day. *)
Definition daily_sums (all_data : list EnergyData.t) : list (Z * Q) :=
  map (fun g => (fst g, groupby_sum (snd g)))
      (groupby (fun d => Datetime.date (EnergyData.timestamp d)) all_data).

(** The [trend] field of the response of [get_analysis], from the rows
    [repo.get_all(limit=10000)] returned.  The two thresholds are
    products of doubles. *)
Definition trend_of (all_data : list EnergyData.t) : string :=
  match all_data with
  | [] => "No data"
  | _ :: _ =>
      let sums := map snd (daily_sums all_data) in
      let n := length sums in
      if (3 <=? n)%nat then
        let first_half := series_mean (firstn (n / 2) sums) in
        let second_half := series_mean (skipn (n / 2) sums) in
        if Py.Qlt_bool (Float.mul first_half (105 # 100)) second_half then
          "Increasing ↑"
        else if Py.Qlt_bool second_half (Float.mul first_half (95 # 100)) then
          "Decreasing ↓"
        else "Stable →"
      else "Insufficient data"
  end.

(** [df.groupby(key)["consumption_kwh"].mean()]: one row per value of the
    key, ordered by key, holding the mean consumption of its readings. *)
Definition group_mean (key : EnergyData.t -> Z) (all_data : list EnergyData.t)
  : list (Z * Q) :=
  map (fun g => (fst g, groupby_mean (snd g))) (groupby key all_data).

(** The mean consumption of the readings whose [is_weekend] is [flag], 0
    when there is none. *)
Definition avg_where (flag : bool) (all_data : list EnergyData.t) : Q :=
  let part :=
    filter (fun d => Bool.eqb (EnergyData.is_weekend d) flag) all_data in
  match part with
  | [] => 0
  | _ :: _ => series_mean (map EnergyData.consumption_kwh part)
  end.

Definition _generate_recommendations (peak_hours : list Z)
    (hourly : list (Z * Q)) (df : list EnergyData.t) : list string :=
  let recs0 :=
    match peak_hours with
    | [] => []
    | _ :: _ =>
        let peak_str :=
          String.concat ", " (map (fun h => str h ++ ":00") peak_hours) in
        ["⚡ High usage detected at " ++ peak_str
         ++ ". Shift heavy loads to off-peak hours."]
    end%string in
  let avg_weekend := avg_where true df in
  let avg_weekday := avg_where false df in
  let recs1 :=
    if Py.Qlt_bool (Float.mul avg_weekday (11 # 10)) avg_weekend
    then recs0 ++ ["🏠 Weekend usage is significantly higher. Review home appliance usage on weekends."%string]
    else recs0 in
  let recs2 :=
    if Py.Qlt_bool (Float.mul (series_mean (map snd hourly)) 2)
                   (snd (series_max hourly))
    then recs1 ++ ["📊 Energy usage is uneven across hours. Consider spreading load more evenly."%string]
    else recs1 in
  let monthly_avg := group_mean EnergyData.month df in
  let recs3 :=
    match monthly_avg with
    | [] => recs2
    | _ :: _ =>
        let peak_month := fst (series_max monthly_avg) in
        recs2 ++ [("📅 Month " ++ str peak_month
                   ++ " has the highest consumption. Check heating/cooling systems.")%string]
    end in
  recs3
  ++ ["💡 Consider switching to LED lighting and smart power strips to reduce standby power."%string;
      "🔋 Installing a smart meter can help track real-time consumption and reduce waste."%string].

(** [EnergyService(db).get_analysis()].  The four usage figures are kept
    as exact rationals. *)
Definition get_analysis (db : Session) : AnalysisResponse.t :=
  match EnergyRepository.get_all db 10000%Z with
  | [] =>
      AnalysisResponse.mk 0 0 0 0 [] [] "No data"
        ["Upload energy data to get started"%string]
  | d :: rest =>
      let df := d :: rest in
      let hourly := group_mean EnergyData.hour df in
      let nunique :=
        length (nodup Z.eq_dec
                  (map (fun r => Datetime.date (EnergyData.timestamp r)) df)) in
      let daily_usage :=
        Np.sum (map EnergyData.consumption_kwh df)
        / inject_Z (Z.of_nat (Nat.max nunique 1)) in
      let weekly_usage := daily_usage * 7 in
      let monthly_usage := daily_usage * 30 in
      let yearly_usage := daily_usage * 365 in
      let peak_hours := nlargest 3 hourly in
      let low_usage_hours := nsmallest 3 hourly in
      let recommendations := _generate_recommendations peak_hours hourly df in
      AnalysisResponse.mk
        (Py.round daily_usage 2) (Py.round weekly_usage 2)
        (Py.round monthly_usage 2) (Py.round yearly_usage 2)
        peak_hours low_usage_hours (trend_of df) recommendations
  end.

End WithPandas.

(** *** [process_csv]

    The frame [pd.read_csv] returns is kept column by column: each column
    a label and its cells, all columns of one length.  Reading the file,
    normalising a label ([c.lower().strip().replace(" ", "_")]) and the
    two coercions of a column ([pd.to_datetime] and [pd.to_numeric] with
    [errors="coerce"], an unparsable cell giving no value) belong to
    Python and pandas and are parameters. *)

(** The [ValueError]s [process_csv] ends in: ["Cannot parse CSV: ..."],
    ["CSV must contain a 'timestamp' or 'datetime' column"], ["CSV must
    contain a consumption column ..."], and the length mismatch pandas
    raises on [df.columns = [...]] when a chosen label names more than one
    column. *)
Inductive ValueError :=
| CannotParse (e : string)
| NoTimestampColumn
| NoConsumptionColumn
| LengthMismatch.

Definition timestamp_candidates : list string :=
  ["timestamp"; "datetime"; "date"; "time"]%string.

Definition consumption_candidates : list string :=
  ["consumption_kwh"; "consumption"; "kwh"; "energy"; "usage"]%string.

(** [for candidate in candidates: if candidate in df.columns: ... break] *)
Definition find_column (candidates columns : list string) : option string :=
  find (fun candidate => existsb (String.eqb candidate) columns) candidates.

(** [df.drop_duplicates(subset=["timestamp"])]: the first row of each
    timestamp stays. *)
Fixpoint drop_duplicates {C} (seen : list Z) (l : list (Z * C)) : list (Z * C) :=
  match l with
  | [] => []
  | r :: rest =>
      if existsb (Z.eqb (fst r)) seen then drop_duplicates seen rest
      else r :: drop_duplicates (fst r :: seen) rest
  end.

Fixpoint insert_value (x : Q) (l : list Q) : list Q :=
  match l with
  | [] => [x]
  | y :: rest => if Qle_bool x y then x :: l else y :: insert_value x rest
  end.

(** [Series.median()]: of the values present; none when there is none. *)
Definition median (l : list (option Q)) : option Q :=
  let present := fold_right (fun o acc => match o with Some x => x :: acc | None => acc end) [] l in
  let s := fold_right insert_value [] present in
  let n := length s in
  match s with
  | [] => None
  | _ :: _ =>
      if Nat.even n
      then Some ((nth (n / 2 - 1) s 0 + nth (n / 2) s 0) / 2)
      else Some (nth (n / 2) s 0)
  end.

(** The record built from a cleaned row. *)
Definition record_of (r : Z * Q) : EnergyData.t :=
  let day := Datetime.weekday (fst r) in
  EnergyData.mk (fst r) (snd r)
    (Datetime.hour (fst r)) day (Datetime.month (fst r))
    ((day =? 5)%Z || (day =? 6)%Z).

Section ProcessCsv.

Variable cell : Type.
Variable read_csv : list Byte.byte -> list (string * list cell) + string.
Variable normalize : string -> string.
Variable to_datetime : list cell -> list (option Datetime.t).
Variable to_numeric : list cell -> list (option Q).

(** The rows left once timestamps are parsed, rows without one dropped
    and repeated timestamps removed. *)
Definition unique_rows (ts_cells kw_cells : list cell) : list (Z * cell) :=
  let parsed := combine (to_datetime ts_cells) kw_cells in
  let dated :=
    fold_right (fun r acc => match fst r with
                             | Some t => (t, snd r) :: acc
                             | None => acc
                             end) [] parsed in
  drop_duplicates [] dated.

(** The records [process_csv] builds from the two chosen columns. *)
Definition clean (ts_cells kw_cells : list cell) : list EnergyData.t :=
  let unique := unique_rows ts_cells kw_cells in
  let kwh := to_numeric (map snd unique) in
  let filled :=
    match median kwh with
    | Some m => map (fun o => match o with Some x => Some x | None => Some m end) kwh
    | None => kwh
    end in
  let valued :=
    fold_right (fun r acc => match snd r with
                             | Some x => if Qle_bool 0 x then (fst r, x) :: acc else acc
                             | None => acc
                             end) [] (combine (map fst unique) filled) in
  map record_of (Sql.order_by fst valued).

(** [EnergyService(db).process_csv(file_content)]: the pair
    [(records_saved, message)] or the [ValueError] raised, and the store
    afterwards. *)
Definition process_csv (file_content : list Byte.byte) (db : Session)
  : (Z * string + ValueError) * Session :=
  match read_csv file_content with
  | inr e => (inr (CannotParse e), db)
  | inl frame =>
      let columns := map (fun c => normalize (fst c)) frame in
      match find_column timestamp_candidates columns with
      | None => (inr NoTimestampColumn, db)
      | Some ts_col =>
          match find_column consumption_candidates columns with
          | None => (inr NoConsumptionColumn, db)
          | Some kw_col =>
              match
                filter (fun c => String.eqb (normalize (fst c)) ts_col) frame,
                filter (fun c => String.eqb (normalize (fst c)) kw_col) frame
              with
              | [ts_column], [kw_column] =>
                  let records := clean (snd ts_column) (snd kw_column) in
                  let (saved, db') := EnergyRepository.create_bulk records db in
                  (inl (saved,
                        ("Successfully processed and stored " ++ str saved
                         ++ " records")%string),
                   db')
              | _, _ => (inr LengthMismatch, db)
              end
          end
      end
  end.

End ProcessCsv.


(** [get_all_data(limit)]: [repo.get_all(limit=limit)], the offset left at
    its default 0. *)
Definition get_all_data (db : Session) (limit : Z) : list EnergyData.t :=
  EnergyRepository.get_all db limit.

Definition get_count (db : Session) : Z := EnergyRepository.get_count db.

End EnergyService.

(** ** Executable stand-ins for the numpy and pandas parameters

    The theorems below hold for every square root, sine, generator and
    reduction.  To run the services on concrete data these versions are
    used: a square root truncated to six decimals (exact on squares of
    such decimals), the Taylor polynomial of the sine of degree 23, a
    linear congruential generator whose draws stay within one [scale] of
    [loc], and reductions that add the doubles up from left to right. *)

Module Reference.

Definition sqrt (q : Q) : Q :=
  inject_Z (Z.sqrt (Qnum q * 1000000000000 / Zpos (Qden q))) / 1000000.

Fixpoint sin_terms (n : nat) (k : Z) (term x : Q) : Q :=
  match n with
  | O => 0
  | S n' =>
      term + sin_terms n' (k + 2)
               (- term * x * x / inject_Z ((k + 1) * (k + 2))) x
  end.

Definition sin (x : Q) : Q := sin_terms 12 1 x x.

(** The reductions of numpy and pandas, the doubles added up from left
    to right: the sum, the mean, and the standard deviation with
    [ddof = 0]. *)
Definition sum (l : list Q) : Q := fold_left Float.add l 0.

Definition mean (l : list Q) : Q :=
  Float.div (sum l) (inject_Z (Z.of_nat (length l))).

Definition std (l : list Q) : Q :=
  let m := mean l in
  Float.sqrt
    (mean (map (fun x => Float.mul (Float.sub x m) (Float.sub x m)) l)).

Definition rng := Z.

Definition random_normal (loc scale : Q) (g : rng) : Q * rng :=
  let g' := ((1103515245 * g + 12345) mod 2147483648)%Z in
  (loc + scale * (inject_Z (g' mod 2001 - 1000) / 1000), g').

(** A one-reading history, a regressor that always answers 3 and reports
    a quality metric of 0.75, and the same regressor without a [score]
    attribute. *)
Definition one_reading : Session :=
  mkSession [EnergyData.mk 0%Z 1 0%Z 3%Z 1%Z false] [] [].

(** Two readings an hour apart, of 0.0 and 1.0: their mean is 0.5 and
    their standard deviation 0.5. *)
Definition two_readings : Session :=
  mkSession [EnergyData.mk 0%Z 0 0%Z 3%Z 1%Z false;
             EnergyData.mk 3600000000%Z 1 1%Z 3%Z 1%Z false] [] [].

(** Three readings on three consecutive days, of 1.0, 1.0 and 2.0. *)
Definition three_days : Session :=
  mkSession [EnergyData.mk 0%Z 1 0%Z 3%Z 1%Z false;
             EnergyData.mk 86400000000%Z 1 0%Z 4%Z 1%Z false;
             EnergyData.mk 172800000000%Z 2 0%Z 5%Z 1%Z true] [] [].

(** No stored reading, and results left by earlier runs. *)
Definition stale_prediction : PredictionDataCreate.t :=
  PredictionDataCreate.mk 3600000000%Z (5 # 2) 1%Z.

Definition stale_anomaly : AnomalyDataCreate.t :=
  AnomalyDataCreate.mk 0%Z 9 true (Some (- (4))).

Definition stale_store : Session :=
  mkSession [] [stale_prediction] [stale_anomaly].

Definition scored_model : Predictor.t :=
  Predictor.mk (fun _ => 3) (Some (3 # 4)).

Definition plain_model : Predictor.t :=
  Predictor.mk (fun _ => 3) None.

End Reference.

(** ** Definitions that follow the wording of the specification *)

Module Spec.

(** "the z-score of consumption against the full sample's mean and
    standard deviation with the standard deviation floored at 1.0
    (never dividing by a value below 1.0)". *)
Definition z_scores_floored (np_mean np_std : list Q -> Q) (column : list Q)
  : list Q :=
  let mean := np_mean column in
  let std := np_std column in
  let floored := if Py.Qlt_bool std 1 then 1 else std in
  map (fun x => Qabs (Float.div (Float.sub x mean) floored)) column.

(** "the seed rolling mean (the rolling mean computed once from the
    historical tail at initialization)". *)
Definition seed_rolling_mean (values : list Q) : Q :=
  Np.mean (Py.lastn (Nat.min 24 (length values)) values).

(** "base+1h through base+24h in order". *)
Definition next_day_hours : list Z :=
  [1; 2; 3; 4; 5; 6; 7; 8; 9; 10; 11; 12;
   13; 14; 15; 16; 17; 18; 19; 20; 21; 22; 23; 24]%Z.

(** "base+1h stepping by 4 hours through 168 hours". *)
Definition next_7_days_hours : list Z :=
  [1; 5; 9; 13; 17; 21; 25; 29; 33; 37; 41; 45; 49; 53;
   57; 61; 65; 69; 73; 77; 81; 85; 89; 93; 97; 101; 105; 109;
   113; 117; 121; 125; 129; 133; 137; 141; 145; 149; 153; 157; 161; 165]%Z.

(** The number of distinct calendar days the readings span. *)
Definition distinct_days (all_data : list EnergyData.t) : nat :=
  length (nodup Z.eq_dec
            (map (fun d => Datetime.date (EnergyData.timestamp d)) all_data)).

End Spec.

(** ** [ml/pipeline.py]: the training features *)

Module Pipeline.

(** A row of the frame [build_features] receives: the [timestamp] and
    [consumption_kwh] columns, timestamps parsed. *)
Record Row := mkRow {
  timestamp : Datetime.t;
  consumption_kwh : Q
}.

(** [Series.shift(n)]: every value moves [n] places down, the first [n]
    places are left without a value. *)
Definition shift (n : nat) (l : list Q) : list (option Q) :=
  firstn (length l) (repeat None n ++ map Some l).

(** [Series.fillna(d)] *)
Definition fillna (d : Q) (l : list (option Q)) : list Q :=
  map (fun o => match o with Some x => x | None => d end) l.

(** The values [rolling(window=w, min_periods=1)] looks at in place [i]:
    the [w] most recent up to and including place [i], fewer at the start. *)
Definition rolling_window (w : nat) (l : list Q) (i : nat) : list Q :=
  skipn (S i - w) (firstn (S i) l).

Definition rolling_mean (w : nat) (l : list Q) : list Q :=
  map (fun i => Np.mean (rolling_window w l i)) (seq 0 (length l)).

Section WithNumpy.

Variable np_sqrt : Q -> Q.

(** The standard deviation pandas takes of a window: with [ddof = 1], and
    no value for a window of one. *)
Definition sample_std (win : list Q) : option Q :=
  if (length win <=? 1)%nat then None
  else
    let m := Np.mean win in
    Some (np_sqrt (Np.sum (map (fun x => (x - m) * (x - m)) win)
                   / inject_Z (Z.of_nat (length win - 1)))).

Definition rolling_std (w : nat) (l : list Q) : list (option Q) :=
  map (fun i => sample_std (rolling_window w l i)) (seq 0 (length l)).

(** The order quicksort leaves the rows of one timestamp in: a rank for
    every row of the frame, by the place the row has in it. *)
Variable tie : list Row -> nat -> Z.

(** [df.sort_values("timestamp")]: the rows in timestamp order.  pandas
    sorts with quicksort, which is not stable: rows of one timestamp come
    out in an order of its own, here the order of their ranks. *)
Definition sort_values (df : list Row) : list Row :=
  let ranked := combine (map (tie df) (seq 0 (length df))) df in
  map snd
      (Sql.order_by (fun p => timestamp (snd p)) (Sql.order_by fst ranked)).

(** [build_features(df)]: the feature matrix [X], one row per reading, and
    the target vector [y].  (The [week] column it also computes is in
    neither.) *)
Definition build_features (df : list Row) : list (list Q) * list Q :=
  let df := sort_values df in
  let ts := map timestamp df in
  let kwh := map consumption_kwh df in
  let hour := map Datetime.hour ts in
  let day := map Datetime.weekday ts in
  let month := map Datetime.month ts in
  let is_weekend := map (fun d => if (5 <=? d)%Z then 1%Z else 0%Z) day in
  let rolling_mean_24 := rolling_mean 24 kwh in
  let rolling_std_24 := fillna 0 (rolling_std 24 kwh) in
  let lag_1h := fillna (Np.mean kwh) (shift 1 kwh) in
  let lag_24h := fillna (Np.mean kwh) (shift 24 kwh) in
  let X :=
    map (fun i =>
           [inject_Z (nth i hour 0%Z); inject_Z (nth i day 0%Z);
            inject_Z (nth i month 0%Z); inject_Z (nth i is_weekend 0%Z);
            nth i rolling_mean_24 0; nth i rolling_std_24 0;
            nth i lag_1h 0; nth i lag_24h 0])
        (seq 0 (length df)) in
  (X, kwh).

End WithNumpy.

End Pipeline.

(** ** [ml/predict.py]: the command-line forecast *)

Module PredictScript.

(** What a run of the script ends in: the notice that no model was
    trained, the [IndexError] of [values[-1]] on an empty series, or the
    table it printed, one entry per step with the feature row handed to
    the model and the value printed beside the timestamp. *)
Inductive outcome :=
| NotTrained
| IndexError
| Printed (rows : list (Datetime.t * list Q * Q)).

(** The variables the loop carries. *)
Record Loop := mkLoop {
  rolling_mean : Q;
  rolling_std : Q;
  lag_1 : Q;
  lag_24 : Q;
  rows : list (Datetime.t * list Q * Q)
}.

(** The columns of a printed entry. *)
Definition ts_of (r : Datetime.t * list Q * Q) : Datetime.t := fst (fst r).
Definition features_of (r : Datetime.t * list Q * Q) : list Q := snd (fst r).
Definition pred_of (r : Datetime.t * list Q * Q) : Q := snd r.

(** [datetime.now().replace(minute=0, second=0, microsecond=0)] *)
Definition on_the_hour (now : Datetime.t) : Datetime.t :=
  (now - now mod Datetime.us_per_hour)%Z.

Definition steps (horizon : string) (base_ts : Datetime.t) : list Datetime.t :=
  if String.eqb horizon "next_hour" then
    [Datetime.add base_ts (Datetime.timedelta_hours 1)]
  else if String.eqb horizon "next_day" then
    map (fun i => Datetime.add base_ts (Datetime.timedelta_hours i))
        (Py.range 1 25 1)
  else
    map (fun i => Datetime.add base_ts (Datetime.timedelta_hours i))
        (Py.range 1 (24 * 7 + 1) 4).

Definition loop_body (model : Predictor.t) (st : Loop) (ts : Datetime.t) : Loop :=
  let X :=
    [inject_Z (Datetime.hour ts);
     inject_Z (Datetime.weekday ts);
     inject_Z (Datetime.month ts);
     inject_Z (if (5 <=? Datetime.weekday ts)%Z then 1%Z else 0%Z);
     rolling_mean st;
     rolling_std st;
     lag_1 st;
     lag_24 st] in
  let pred := Py.max 0 (Predictor.predict model X) in
  mkLoop (rolling_mean st * (97 # 100) + pred * (3 # 100))
         (rolling_std st)
         pred
         (lag_24 st)
         (rows st ++ [(ts, X, pred)]).

Section WithNumpy.

Variable np_sqrt : Q -> Q.

(** [predict(horizon)]: [model] is the model found at [PRED_MODEL_PATH],
    [data] the consumption column of the data file when there is one,
    [now] what [datetime.now()] returns. *)
Definition predict (model : option Predictor.t) (data : option (list Q))
    (now : Datetime.t) (horizon : string) : outcome :=
  match model with
  | None => NotTrained
  | Some m =>
      let values :=
        match data with
        | Some column => column
        | None => repeat (25 # 10) 48
        end in
      match values with
      | [] => IndexError
      | _ :: _ =>
          let window := Nat.min 24 (length values) in
          let rolling_mean := Np.mean (Py.lastn window values) in
          let rolling_std :=
            Py.or (Np.std np_sqrt (Py.lastn window values)) (5 # 10) in
          let lag_1 := last values 0 in
          let lag_24 :=
            if (24 <=? length values)%nat
            then nth (length values - 24) values 0
            else lag_1 in
          let base_ts := on_the_hour now in
          Printed
            (rows (fold_left (loop_body m) (steps horizon base_ts)
                             (mkLoop rolling_mean rolling_std lag_1 lag_24 [])))
      end
  end.

End WithNumpy.

End PredictScript.

(** ** A parsed file to run [process_csv] on

    A frame whose cells are already typed, coercions that keep the cells
    of the right type, the normalisation of a label on ASCII text, and a
    reader that finds this frame in every file. *)

Module ReferenceCsv.

Inductive cell :=
| Stamp (t : Datetime.t)
| Number (q : Q)
| Text (s : string).

Definition to_datetime (column : list cell) : list (option Datetime.t) :=
  map (fun c => match c with Stamp t => Some t | _ => None end) column.

Definition to_numeric (column : list cell) : list (option Q) :=
  map (fun c => match c with Number q => Some q | _ => None end) column.

(** [str.lower()] *)
Fixpoint lower (s : string) : string :=
  match s with
  | EmptyString => EmptyString
  | String c rest =>
      let n := Ascii.nat_of_ascii c in
      String (if ((65 <=? n) && (n <=? 90))%nat
              then Ascii.ascii_of_nat (n + 32) else c)
             (lower rest)
  end.

(** What [str.isspace()] holds of: tab to carriage return, the four
    separators, and the blank. *)
Definition is_space (c : ascii) : bool :=
  let n := Ascii.nat_of_ascii c in
  (((9 <=? n) && (n <=? 13)) || ((28 <=? n) && (n <=? 32)))%nat.

Fixpoint lstrip (s : string) : string :=
  match s with
  | EmptyString => EmptyString
  | String c rest => if is_space c then lstrip rest else s
  end.

Fixpoint rstrip (s : string) : string :=
  match s with
  | EmptyString => EmptyString
  | String c rest =>
      match rstrip rest with
      | EmptyString => if is_space c then EmptyString else String c EmptyString
      | kept => String c kept
      end
  end.

(** [str.strip()] *)
Definition strip (s : string) : string := rstrip (lstrip s).

(** [str.replace(" ", "_")] *)
Fixpoint replace_blanks (s : string) : string :=
  match s with
  | EmptyString => EmptyString
  | String c rest =>
      String (if (Ascii.nat_of_ascii c =? 32)%nat then "_"%char else c)
             (replace_blanks rest)
  end.

(** [c.lower().strip().replace(" ", "_")] *)
Definition normalize (s : string) : string :=
  replace_blanks (strip (lower s)).

(** Four rows: a repeated timestamp, a negative value and a missing value
    among them; the time column comes second, its label padded with
    blanks. *)
Definition frame : list (string * list cell) :=
  [("Consumption kWh"%string,
    [Number 3; Number 5; Number (- (1)); Text "n/a"]);
   (" Timestamp "%string,
    [Stamp 7200000000%Z; Stamp 7200000000%Z; Stamp 3600000000%Z; Stamp 0%Z])].

Definition read_csv (file_content : list Byte.byte)
  : list (string * list cell) + string :=
  inl frame.

End ReferenceCsv.


(** ** The energy-data route

    [backend/app/api/v1/energy.py], [GET /energy-data].  FastAPI checks
    the two query parameters ([limit]: [ge=1, le=10000]; [offset]:
    [ge=0]) and answers 422 without calling the handler when one is out
    of range.  The [id] of a row is not part of the model. *)

Module EnergyApi.

Record Page := mkPage {
  total : Z;
  returned : Z;
  data : list EnergyData.t
}.

Inductive Response :=
| Ok (page : Page)
| UnprocessableEntity.

Definition get_energy_data (limit offset : Z) (db : Session) : Response :=
  if ((1 <=? limit) && (limit <=? 10000) && (0 <=? offset))%Z then
    let data := EnergyService.get_all_data db limit in
    let count := EnergyService.get_count db in
    Ok (mkPage count (Z.of_nat (length data)) data)
  else UnprocessableEntity.

End EnergyApi.

(** * Properties *)

(** ** Rounding and clamping *)

Module PyFacts.

Lemma Qlt_bool_iff (a b : Q) : Py.Qlt_bool a b = true <-> a < b.
Proof.
  unfold Py.Qlt_bool. rewrite negb_true_iff.
  split; intros H.
  - apply Qnot_le_lt. intros Hle. apply Qle_bool_iff in Hle. congruence.
  - destruct (Qle_bool b a) eqn:E; trivial.
    apply Qle_bool_iff in E. exfalso. exact (Qlt_not_le _ _ H E).
Qed.

Lemma max_lower (a b : Q) : a <= Py.max a b.
Proof.
  unfold Py.max. destruct (Py.Qlt_bool a b) eqn:E.
  - apply Qlt_le_weak. now apply Qlt_bool_iff.
  - apply Qle_refl.
Qed.


Lemma round_half_even_lower (q : Q) : (Qfloor q <= Py.round_half_even q)%Z.
Proof.
  unfold Py.round_half_even.
  destruct (Qcompare _ _); try destruct (Z.even _); lia.
Qed.

Lemma round_half_even_upper (q : Q) (n : Z) :
  q <= inject_Z n -> (Py.round_half_even q <= n)%Z.
Proof.
  intros H. unfold Py.round_half_even.
  assert (Hf : (Qfloor q <= n)%Z).
  { rewrite <- (Qfloor_Z n). now apply Qfloor_resp_le. }
  destruct (Z.eq_dec (Qfloor q) n) as [E | E].
  - assert (Hq : q - inject_Z (Qfloor q) <= 0).
    { rewrite E. unfold Qminus. rewrite <- (Qplus_opp_r (inject_Z n)).
      apply Qplus_le_l. exact H. }
    assert (Hlt : q - inject_Z (Qfloor q) < 1 # 2).
    { eapply Qle_lt_trans; [exact Hq | reflexivity]. }
    rewrite Qlt_alt in Hlt. rewrite Hlt. lia.
  - destruct (Qcompare _ _); try destruct (Z.even _); lia.
Qed.

Lemma pow10_pos (n : nat) : 0 < inject_Z (10 ^ Z.of_nat n).
Proof.
  replace 0 with (inject_Z 0) by reflexivity.
  rewrite <- Zlt_Qlt. apply Z.pow_pos_nonneg; lia.
Qed.

Lemma round_nonneg (q : Q) (n : nat) : 0 <= q -> 0 <= Py.round q n.
Proof.
  intros H. unfold Py.round. cbv zeta.
  pose proof (pow10_pos n) as Hp.
  apply Qle_shift_div_l; [exact Hp |].
  rewrite Qmult_0_l.
  replace 0 with (inject_Z 0) by reflexivity. rewrite <- Zle_Qle.
  etransitivity; [| apply round_half_even_lower].
  rewrite <- (Qfloor_Z 0). apply Qfloor_resp_le.
  apply Qmult_le_0_compat; [exact H | now apply Qlt_le_weak].
Qed.

(** Rounding to [n] decimals never crosses an integer bound. *)
Lemma round_upper (q : Q) (n : nat) (b : Z) :
  q <= inject_Z b -> Py.round q n <= inject_Z b.
Proof.
  intros H. unfold Py.round. cbv zeta.
  pose proof (pow10_pos n) as Hp.
  apply Qle_shift_div_r; [exact Hp |].
  rewrite <- inject_Z_mult, <- Zle_Qle.
  apply round_half_even_upper.
  rewrite inject_Z_mult.
  apply Qmult_le_compat_r; [exact H | now apply Qlt_le_weak].
Qed.

End PyFacts.

(** ** Rounding to the nearest double *)

Module FloatFacts.

Lemma pow2_pos (e : Z) : 0 < Float.pow2 e.
Proof.
  unfold Float.pow2. destruct (Z.leb_spec 0 e) as [H | H].
  - replace 0 with (inject_Z 0) by reflexivity. rewrite <- Zlt_Qlt.
    apply Z.pow_pos_nonneg; lia.
  - reflexivity.
Qed.

(** Below exponent 0, the power is the inverse of an integer. *)
Lemma pow2_inverse (e : Z) :
  (e <= 0)%Z -> Float.pow2 e * inject_Z (2 ^ (- e)) == 1.
Proof.
  intros H. unfold Float.pow2. destruct (Z.leb_spec 0 e) as [H0 | H0].
  - assert (e = 0%Z) by lia. subst e. reflexivity.
  - destruct e as [| p | p]; try lia.
    cbn [Z.opp Z.to_pos].
    unfold Qeq, Qmult, inject_Z. cbn [Qnum Qden].
    rewrite Pos2Z.inj_mul, Pos2Z.inj_pow. cbn [Z.pow]. lia.
Qed.

Lemma magnitude_upper (q : Q) (b : Z) :
  0 <= q -> q <= inject_Z b -> (b <= 2 ^ 51)%Z ->
  (Float.magnitude q <= 52)%Z.
Proof.
  intros H0 Hb Hsmall.
  assert (He : (Z.log2 (Z.abs (Qnum q)) - Z.log2 (Zpos (Qden q)) <= 52)%Z).
  { destruct q as [n d]. cbn [Qnum Qden].
    unfold Qle, inject_Z in H0, Hb. cbn [Qnum Qden] in H0, Hb.
    assert (Hn : (0 <= n)%Z) by lia.
    rewrite Z.abs_eq by exact Hn.
    assert (Hd : (0 <= Z.log2 (Zpos d))%Z) by apply Z.log2_nonneg.
    destruct (Z.eq_dec n 0) as [-> | Hnz];
      [change (Z.log2 0) with 0%Z; lia |].
    assert (Hbpos : (0 < b)%Z) by nia.
    assert (Hlog : (Z.log2 n <= Z.log2 (b * Zpos d))%Z)
      by (apply Z.log2_le_mono; lia).
    pose proof (Z.log2_mul_above b (Zpos d) ltac:(lia) ltac:(lia)) as Hmul.
    assert (Hlb : (Z.log2 b <= 51)%Z).
    { replace 51%Z with (Z.log2 (2 ^ 51)) by reflexivity.
      now apply Z.log2_le_mono. }
    lia. }
  unfold Float.magnitude. cbv zeta. destruct (Qle_bool _ _); lia.
Qed.

(** Rounding does not cross zero, nor an integer the doubles hold. *)
Lemma round_between (q : Q) (b : Z) :
  0 <= q -> q <= inject_Z b -> (b <= 2 ^ 51)%Z ->
  0 <= Float.round q /\ Float.round q <= inject_Z b.
Proof.
  intros H0 Hb Hsmall. unfold Float.round. rewrite Qred_correct.
  unfold Float.ulp.
  set (k := Z.max (Float.magnitude q - 52) (-1074)).
  assert (Hk : (k <= 0)%Z).
  { pose proof (magnitude_upper q b H0 Hb Hsmall). unfold k. lia. }
  pose proof (pow2_pos k) as Hu.
  pose proof (pow2_inverse k Hk) as Hinv.
  set (u := Float.pow2 k) in *.
  set (m := (2 ^ (- k))%Z) in *.
  assert (Hm : 0 < inject_Z m).
  { replace 0 with (inject_Z 0) by reflexivity. rewrite <- Zlt_Qlt.
    apply Z.pow_pos_nonneg; lia. }
  assert (Hu0 : ~ u == 0).
  { intros E. rewrite E in Hu. discriminate. }
  assert (Hinv' : / u == inject_Z m).
  { rewrite <- (Qmult_1_r (/ u)), <- Hinv. field. exact Hu0. }
  assert (Hq : q / u == q * inject_Z m).
  { unfold Qdiv. now rewrite Hinv'. }
  set (r := Py.round_half_even (q / u)).
  assert (Hr0 : (0 <= r)%Z).
  { etransitivity; [| apply PyFacts.round_half_even_lower].
    rewrite <- (Qfloor_Z 0). apply Qfloor_resp_le.
    rewrite Hq. apply Qmult_le_0_compat; [exact H0 | now apply Qlt_le_weak]. }
  assert (Hrb : (r <= b * m)%Z).
  { apply PyFacts.round_half_even_upper.
    rewrite Hq, inject_Z_mult.
    apply Qmult_le_compat_r; [exact Hb | now apply Qlt_le_weak]. }
  split.
  - apply Qmult_le_0_compat; [| now apply Qlt_le_weak].
    replace 0 with (inject_Z 0) by reflexivity. now rewrite <- Zle_Qle.
  - apply Qle_trans with (inject_Z (b * m) * u).
    + apply Qmult_le_compat_r; [| now apply Qlt_le_weak].
      now rewrite <- Zle_Qle.
    + rewrite inject_Z_mult, <- Qmult_assoc, (Qmult_comm (inject_Z m)), Hinv.
      rewrite Qmult_1_r. apply Qle_refl.
Qed.

(** The rate of [c] flagged among [t] records, in doubles: the quotient
    and the product by 100 stay within 0 and 100. *)
Lemma percentage_between (c t : Z) :
  (0 <= c <= t)%Z -> (0 < t)%Z ->
  0 <= Float.mul (Float.truediv c t) 100
  /\ Float.mul (Float.truediv c t) 100 <= 100.
Proof.
  intros [Hc Hct] Ht.
  assert (Hq : 0 < inject_Z t).
  { replace 0 with (inject_Z 0) by reflexivity. now rewrite <- Zlt_Qlt. }
  assert (Hx : 0 <= Float.truediv c t /\ Float.truediv c t <= inject_Z 1).
  { unfold Float.truediv. apply round_between; [| | lia].
    - apply Qle_shift_div_l; [exact Hq |]. rewrite Qmult_0_l.
      replace 0 with (inject_Z 0) by reflexivity. now rewrite <- Zle_Qle.
    - apply Qle_shift_div_r; [exact Hq |]. rewrite Qmult_1_l.
      now rewrite <- Zle_Qle. }
  destruct Hx as [Hx0 Hx1].
  destruct (round_between (Float.truediv c t) 1 Hx0 Hx1 ltac:(lia))
    as [Hy0 Hy1].
  destruct (round_between 100 100 ltac:(discriminate) (Qle_refl _) ltac:(lia))
    as [Hz0 Hz1].
  unfold Float.mul.
  apply (round_between _ 100); [| | lia].
  - now apply Qmult_le_0_compat.
  - apply Qle_trans with (1 * inject_Z 100).
    + apply Qle_trans with (inject_Z 1 * Float.round 100).
      * apply Qmult_le_compat_r; assumption.
      * rewrite !(Qmult_comm (inject_Z 1)).
        apply Qmult_le_compat_r; [exact Hz1 | discriminate].
    + rewrite Qmult_1_l. apply Qle_refl.
Qed.

(** The doubles at the ties the exact quotient would round the other way. *)
Lemma rate_of_double_arithmetic :
  Py.round (Float.mul (Float.truediv 1 4000) 100) 2 == 3 # 100
  /\ Py.round (Float.mul (Float.truediv 23 160) 100) 2 == 1437 # 100
  /\ Float.mul (19 # 10) (105 # 100) < 1995 # 1000
  /\ Float.mul (113 # 100) (11 # 10) < 1243 # 1000.
Proof. repeat split; vm_compute; reflexivity. Qed.

End FloatFacts.

(** ** The forecasting loop *)

Module PredictionFacts.
Import PredictionService.

Lemma lastn_length {A} (n : nat) (l : list A) :
  (length (Py.lastn n l) <= n)%nat.
Proof. unfold Py.lastn. rewrite length_skipn. lia. Qed.

Lemma lastn_all {A} (l : list A) : Py.lastn (length l) l = l.
Proof. unfold Py.lastn. now rewrite Nat.sub_diag. Qed.

Lemma append_pop_room (buf : list Q) (v : Q) :
  (length buf < 24)%nat -> append_pop buf v = buf ++ [v].
Proof.
  intros H. unfold append_pop. cbv zeta.
  destruct (Nat.ltb_spec 24 (length (buf ++ [v]))) as [L | L]; trivial.
  rewrite length_app in L. simpl in L. lia.
Qed.

(** First in, first out: at capacity the oldest value leaves and the new
    one joins at the end. *)
Lemma append_pop_full (buf : list Q) (v : Q) :
  length buf = 24%nat -> append_pop buf v = tl buf ++ [v].
Proof.
  intros H. unfold append_pop. cbv zeta.
  destruct (Nat.ltb_spec 24 (length (buf ++ [v]))) as [L | L].
  - destruct buf; [discriminate | reflexivity].
  - rewrite length_app in L. simpl in L. lia.
Qed.

Lemma append_pop_length (buf : list Q) (v : Q) :
  (length buf <= 24)%nat -> (length (append_pop buf v) <= 24)%nat.
Proof.
  intros H. destruct (Nat.eq_dec (length buf) 24) as [E | E].
  - rewrite append_pop_full by exact E.
    rewrite length_app. destruct buf; simpl in *; lia.
  - rewrite append_pop_room by lia.
    rewrite length_app. simpl. lia.
Qed.

Section Loop.

Variable np_sqrt : Q -> Q.
Variable np_sin : Q -> Q.
Variable rng : Type.
Variable random_normal : Q -> Q -> rng -> Q * rng.
Variable model : option Predictor.t.

Let body := loop_body np_sqrt np_sin random_normal model.
Let run := loop_run np_sqrt np_sin random_normal model.

(** What one iteration writes, field by field. *)
Lemma loop_body_fields (st : Loop rng) (ts : Datetime.t) :
  let v := fst (pred_val np_sin random_normal model st ts) in
  recent_values (body st ts) = append_pop (recent_values st) v
  /\ lag_24_buffer (body st ts) = append_pop (lag_24_buffer st) v
  /\ rolling_mean (body st ts) = Np.mean (recent_values (body st ts))
  /\ predictions (body st ts)
     = predictions st ++ [PredictionPoint.mk ts (Py.round v 3)].
Proof.
  unfold body, loop_body.
  destruct (pred_val np_sin random_normal model st ts) as [v g].
  simpl. repeat split.
Qed.

(** An invariant of the initial state that every iteration preserves
    holds in every state the loop goes through. *)
Lemma loop_run_invariant (P : Loop rng -> Prop) :
  (forall st ts, P st -> P (body st ts)) ->
  forall ts st, P st -> Forall P (run ts st).
Proof.
  intros Hstep ts. induction ts as [| t0 rest IH]; intros st H; simpl.
  - constructor; [exact H | constructor].
  - constructor; [exact H |]. apply IH. now apply Hstep.
Qed.

(** The state [predict] leaves its loop in is the last of the states
    listed. *)
Lemma loop_run_last (ts : list Datetime.t) (st dflt : Loop rng) :
  last (run ts st) dflt = fold_left body ts st.
Proof.
  revert st. induction ts as [| t0 rest IH]; intros st; [reflexivity |].
  change (run (t0 :: rest) st) with (st :: run rest (body st t0)).
  change (fold_left body (t0 :: rest) st) with (fold_left body rest (body st t0)).
  rewrite <- IH.
  destruct rest; reflexivity.
Qed.

Lemma loop_run_length (ts : list Datetime.t) (st : Loop rng) :
  length (run ts st) = S (length ts).
Proof.
  revert st. induction ts as [| t0 rest IH]; intros st; simpl; [reflexivity |].
  f_equal. apply IH.
Qed.

Lemma fold_in_run (ts : list Datetime.t) (st : Loop rng) :
  In (fold_left body ts st) (run ts st).
Proof.
  revert st. induction ts as [| t0 rest IH]; intros st; simpl.
  - now left.
  - right. apply IH.
Qed.

(** The loop emits one point per step, stamped with that step. *)
Lemma loop_timestamps (ts : list Datetime.t) (st : Loop rng) :
  map PredictionPoint.timestamp (predictions (fold_left body ts st))
  = map PredictionPoint.timestamp (predictions st) ++ ts.
Proof.
  revert st. induction ts as [| t0 rest IH]; intros st; simpl.
  - now rewrite app_nil_r.
  - rewrite IH.
    destruct (loop_body_fields st t0) as (_ & _ & _ & Hp).
    rewrite Hp, map_app, <- app_assoc. reflexivity.
Qed.

Lemma init_bounded (values : list Q) (g : rng) :
  bounded (init np_sqrt values g).
Proof.
  unfold bounded, init. cbv zeta. cbn [recent_values lag_24_buffer].
  destruct (Nat.leb_spec 24 (length values)).
  - split; apply lastn_length.
  - lia.
Qed.

Lemma body_bounded (st : Loop rng) (ts : Datetime.t) :
  bounded st -> bounded (body st ts).
Proof.
  intros [H1 H2].
  destruct (loop_body_fields st ts) as (Hr & Hl & _).
  unfold bounded. rewrite Hr, Hl.
  split; now apply append_pop_length.
Qed.

Lemma init_in_step (values : list Q) (g : rng) :
  in_step (init np_sqrt values g).
Proof.
  unfold in_step, init. cbv zeta.
  cbn [recent_values lag_24_buffer rolling_mean]. split; [reflexivity |].
  destruct (Nat.leb_spec 24 (length values)) as [L | L].
  - now rewrite Nat.min_l by exact L.
  - rewrite Nat.min_r by lia. now rewrite lastn_all.
Qed.

Lemma body_in_step (st : Loop rng) (ts : Datetime.t) :
  in_step st -> in_step (body st ts).
Proof.
  intros [H1 H2].
  destruct (loop_body_fields st ts) as (Hr & Hl & Hm & _).
  unfold in_step. rewrite Hr, Hl, H1. split; [reflexivity |].
  rewrite Hm, Hr. reflexivity.
Qed.



(** [predict] on a non-empty result set, as the loop it runs. *)
Lemma predict_nonempty (now : Datetime.t) (g : rng) (horizon : string)
    (db : Session) (d : EnergyData.t) (rest : list EnergyData.t) :
  EnergyRepository.get_all db 10000%Z = d :: rest ->
  let st := fold_left body
              (steps horizon (Datetime.max (last_ts d rest) now))
              (init np_sqrt (map EnergyData.consumption_kwh (d :: rest)) g) in
  predict np_sqrt np_sin random_normal model now g horizon db
  = (PredictionResponse.mk horizon (predictions st) (accuracy model),
     mkSession (energy_data db)
       (map (fun p => PredictionDataCreate.mk
                        (PredictionPoint.timestamp p)
                        (PredictionPoint.predicted_value p)
                        (prediction_horizon horizon))
            (predictions st))
       (anomaly_data db)).
Proof.
  intros E. unfold predict. rewrite E. reflexivity.
Qed.

Lemma predict_empty (now : Datetime.t) (g : rng) (horizon : string)
    (db : Session) :
  EnergyRepository.get_all db 10000%Z = [] ->
  predict np_sqrt np_sin random_normal model now g horizon db
  = (PredictionResponse.mk horizon [] None, db).
Proof.
  intros E. unfold predict. rewrite E. reflexivity.
Qed.

End Loop.

End PredictionFacts.

(** ** Forecast engine: the claims *)

Section ForecastClaims.

Import PredictionService PredictionFacts.

Variable np_sqrt : Q -> Q.
Variable np_sin : Q -> Q.
Variable rng : Type.
Variable random_normal : Q -> Q -> rng -> Q * rng.

(** C1, as amended.  In every state the loop goes through, for every
    history, list of steps and model, [lag_24h] is the oldest value of the
    lag-24 buffer when that buffer holds 24 entries, and otherwise the mean
    of the rolling window as it then stands, the window and the buffer
    holding the same values.  The rolling mean the first iteration reads is
    the seed rolling mean; later iterations read the mean recomputed after
    each appended prediction. *)
Theorem lag_24h_oldest_or_current_mean
    (model : option Predictor.t) (values : list Q) (g : rng)
    (ts : list Datetime.t) :
  Forall
    (fun st =>
       lag_24h st
       = (if (24 <=? length (lag_24_buffer st))%nat
          then hd 0 (lag_24_buffer st)
          else Np.mean (recent_values st))
       /\ lag_24_buffer st = recent_values st)
    (loop_run np_sqrt np_sin random_normal model ts (init np_sqrt values g))
  /\ rolling_mean (init np_sqrt values g) = Spec.seed_rolling_mean values.
Proof.
  split; [| reflexivity].
  eapply Forall_impl;
    [| apply (loop_run_invariant np_sqrt np_sin rng random_normal model in_step)].
  - intros st [Hb Hm]. split; [| exact Hb].
    unfold lag_24h. now rewrite Hm.
  - intros st t0. apply body_in_step.
  - apply init_in_step.
Qed.

(** C4.  For every history, horizon and base timestamp, the rolling window
    and the lag-24 buffer hold at most 24 values in every state the loop
    goes through; and an iteration that finds a buffer at capacity drops
    its oldest value and appends the new prediction at the end. *)
Theorem rolling_buffers_bounded_fifo
    (model : option Predictor.t) (values : list Q) (g : rng)
    (horizon : string) (base_ts : Datetime.t) :
  Forall
    (fun st =>
       (length (recent_values st) <= 24)%nat
       /\ (length (lag_24_buffer st) <= 24)%nat)
    (loop_run np_sqrt np_sin random_normal model (steps horizon base_ts)
              (init np_sqrt values g))
  /\ (forall (st : Loop rng) (t0 : Datetime.t),
        let v := fst (pred_val np_sin random_normal model st t0) in
        let st' := loop_body np_sqrt np_sin random_normal model st t0 in
        (length (recent_values st) = 24%nat ->
         recent_values st' = tl (recent_values st) ++ [v])
        /\ (length (lag_24_buffer st) = 24%nat ->
            lag_24_buffer st' = tl (lag_24_buffer st) ++ [v])).
Proof.
  split.
  - apply (loop_run_invariant np_sqrt np_sin rng random_normal model bounded).
    + intros st t0. apply body_bounded.
    + apply init_bounded.
  - intros st t0.
    destruct (loop_body_fields np_sqrt np_sin rng random_normal model st t0)
      as (Hr & Hl & _).
    cbv zeta. rewrite Hr, Hl.
    split; intros H; now apply append_pop_full.
Qed.

(** C5.  For every non-empty history, with [base] the later of the last
    historical timestamp and the current time, the forecast for
    "next_hour" is one point at base+1h, for "next_day" 24 points at
    base+1h, ..., base+24h in order, and for "next_7_days" 42 points at
    base+1h, base+5h, ..., base+165h in order. *)
Theorem horizon_cardinality
    (model : option Predictor.t) (now : Datetime.t) (g : rng) (db : Session)
    (d : EnergyData.t) (rest : list EnergyData.t) :
  EnergyRepository.get_all db 10000%Z = d :: rest ->
  let base := Datetime.max (last_ts d rest) now in
  let stamps horizon :=
    map PredictionPoint.timestamp
        (PredictionResponse.predictions
           (fst (predict np_sqrt np_sin random_normal model now g horizon db))) in
  let at_hours hours :=
    map (fun i => Datetime.add base (Datetime.timedelta_hours i)) hours in
  (stamps "next_hour"%string = at_hours [1%Z]
   /\ length (stamps "next_hour"%string) = 1%nat)
  /\ (stamps "next_day"%string = at_hours Spec.next_day_hours
      /\ length (stamps "next_day"%string) = 24%nat)
  /\ (stamps "next_7_days"%string = at_hours Spec.next_7_days_hours
      /\ length (stamps "next_7_days"%string) = 42%nat).
Proof.
  intros E base stamps at_hours.
  assert (H : forall horizon, stamps horizon = steps horizon base).
  { intros horizon. unfold stamps.
    rewrite (predict_nonempty _ _ _ _ _ _ _ _ _ _ _ E).
    cbn [fst PredictionResponse.predictions].
    rewrite loop_timestamps. reflexivity. }
  rewrite !H.
  repeat split; unfold at_hours; rewrite ?length_map; reflexivity.
Qed.


End ForecastClaims.

(** C1, refuted as stated.  History: one reading of 1.0; the regressor
    always answers 3; horizon "next_day".  On entry to the second
    iteration the lag-24 buffer holds two values, fewer than 24, and
    [lag_24h] is 2, the mean of the window [1; 3], while the seed rolling
    mean is 1. *)
Lemma lag_24h_is_not_the_seed_mean :
  let values :=
    map EnergyData.consumption_kwh
        (EnergyRepository.get_all Reference.one_reading 10000%Z) in
  let st0 := PredictionService.init Reference.sqrt values 0%Z in
  let st :=
    nth 1 (PredictionService.loop_run Reference.sqrt Reference.sin
             Reference.random_normal (Some Reference.plain_model)
             (PredictionService.steps "next_day" 0%Z) st0) st0 in
  length (PredictionService.lag_24_buffer st) = 2%nat
  /\ PredictionService.lag_24h st == 2
  /\ Spec.seed_rolling_mean values == 1
  /\ ~ PredictionService.lag_24h st == Spec.seed_rolling_mean values.
Proof.
  cbv zeta. repeat split; try (vm_compute; congruence).
Qed.

(** C3, the code at the failing input.  A regressor that has a [score]
    attribute reporting 0.75 is loaded; the forecast over a one-reading
    history reports 0.92 as the model accuracy. *)
Lemma model_accuracy_is_a_constant :
  PredictionResponse.model_accuracy
    (fst (PredictionService.predict Reference.sqrt Reference.sin
            Reference.random_normal (Some Reference.scored_model)
            0%Z 0%Z "next_hour" Reference.one_reading))
  = Some (92 # 100)
  /\ Predictor.score Reference.scored_model = Some (3 # 4).
Proof. split; reflexivity. Qed.

(** C5 at a one-reading history: 1, 24 and 42 points. *)
Lemma horizon_cardinality_one_reading :
  let stamps horizon :=
    map PredictionPoint.timestamp
        (PredictionResponse.predictions
           (fst (PredictionService.predict Reference.sqrt Reference.sin
                   Reference.random_normal (Some Reference.plain_model)
                   0%Z 0%Z horizon Reference.one_reading))) in
  length (stamps "next_hour"%string) = 1%nat
  /\ length (stamps "next_day"%string) = 24%nat
  /\ length (stamps "next_7_days"%string) = 42%nat.
Proof.
  destruct (horizon_cardinality Reference.sqrt Reference.sin Reference.rng
              Reference.random_normal (Some Reference.plain_model) 0%Z 0%Z
              Reference.one_reading
              (EnergyData.mk 0%Z 1 0%Z 3%Z 1%Z false) [] eq_refl)
    as ((_ & H1) & (_ & H2) & (_ & H3)).
  cbv zeta. repeat split; assumption.
Defined.

(** ** The anomaly scorer *)

Module AnomalyFacts.
Import AnomalyService.

Lemma combine_map_both {A B C} (f : A -> B) (g : A -> C) (l : list A) :
combine (map f l) (map g l) = map (fun x => (f x, g x)) l.
Proof. induction l as [| x l IH]; simpl; [| rewrite IH]; reflexivity. Qed.

Lemma combine_with_map {A B} (f : A -> B) (l : list A) :
combine l (map f l) = map (fun x => (x, f x)) l.
Proof. induction l as [| x l IH]; simpl; [| rewrite IH]; reflexivity. Qed.

Lemma filter_id_map {A} (f : A -> bool) (l : list A) :
length (filter (fun b => b) (map f l)) = length (filter f l).
Proof.
induction l as [| x l IH]; simpl; [reflexivity |].
destruct (f x); simpl; now rewrite IH.
Qed.

Lemma filter_length_le {A} (f : A -> bool) (l : list A) :
(length (filter f l) <= length l)%nat.
Proof.
induction l as [| x l IH]; simpl; [lia |].
destruct (f x); simpl; lia.
Qed.

Lemma filter_flag_length (v : EnergyData.t -> bool * Q)
    (l : list EnergyData.t) :
  length (filter AnomalyDataCreate.is_anomaly
            (map (fun d => AnomalyDataCreate.mk
                             (EnergyData.timestamp d)
                             (EnergyData.consumption_kwh d)
                             (fst (v d)) (Some (snd (v d)))) l))
  = length (filter (fun d => fst (v d)) l).
Proof.
  induction l as [| d l IH]; [reflexivity |].
  cbn [map filter AnomalyDataCreate.is_anomaly].
  destruct (fst (v d)); cbn [length]; now rewrite IH.
Qed.

Lemma responses_from_length (i : Z) (l : list AnomalyDataCreate.t) :
length (responses_from i l) = length l.
Proof.
revert i. induction l as [| r l IH]; intros i; simpl; [| rewrite IH]; reflexivity.
Qed.

(** A response carries the columns of the record it was built from. *)
Lemma responses_from_columns (i : Z) (l : list AnomalyDataCreate.t) :
map (fun a => AnomalyDataCreate.mk
                (AnomalyDataResponse.timestamp a)
                (AnomalyDataResponse.consumption a)
                (AnomalyDataResponse.is_anomaly a)
                (AnomalyDataResponse.anomaly_score a))
    (responses_from i l) = l.
Proof.
revert i. induction l as [| r l IH]; intros i; simpl; [reflexivity |].
rewrite IH. destruct r; reflexivity.
Qed.

Lemma responses_from_flags (i : Z) (l : list AnomalyDataCreate.t) :
  Forall (fun r => AnomalyDataCreate.is_anomaly r = true) l ->
  Forall (fun a => AnomalyDataResponse.is_anomaly a = true) (responses_from i l).
Proof.
  intros H. revert i. induction H as [| r l Hr _ IH]; intros i; simpl.
  - constructor.
  - constructor; [exact Hr | apply IH].
Qed.

Lemma responses_from_ids (i : Z) (l : list AnomalyDataCreate.t) :
map AnomalyDataResponse.id (responses_from i l)
= map (fun k => (i + Z.of_nat k)%Z) (seq 0 (length l)).
Proof.
revert i. induction l as [| r l IH]; intros i; [reflexivity |].
cbn [responses_from map length seq]. rewrite IH, Z.add_0_r. f_equal.
rewrite <- seq_shift, map_map. apply map_ext. intros k. lia.
Qed.

Section Scorer.

Variable np_mean : list Q -> Q.
Variable np_std : list Q -> Q.

Lemma score_rows_pointwise (model : option Classifier.t)
(all_data : list EnergyData.t) :
  score_rows np_mean np_std model all_data
  = (map (fun d => fst (verdict np_mean np_std model all_data d)) all_data,
 map (fun d => snd (verdict np_mean np_std model all_data d)) all_data).
Proof.
  unfold score_rows, verdict. destruct model as [m |].
  - cbv zeta. now rewrite !map_map.
  - cbv zeta. unfold z_scores. cbv zeta.
rewrite !map_map. cbn [features_row hd fst snd]. reflexivity.
Qed.

Lemma records_pointwise (model : option Classifier.t)
(all_data : list EnergyData.t) :
  records np_mean np_std model all_data
  = map (fun d => AnomalyDataCreate.mk
                (EnergyData.timestamp d)
                (EnergyData.consumption_kwh d)
                (fst (verdict np_mean np_std model all_data d))
                (Some (snd (verdict np_mean np_std model all_data d))))
    all_data.
Proof.
  unfold records. rewrite score_rows_pointwise.
  rewrite combine_map_both, combine_with_map, map_map. reflexivity.
Qed.

Lemma records_length (model : option Classifier.t)
(all_data : list EnergyData.t) :
  length (records np_mean np_std model all_data) = length all_data.
Proof. rewrite records_pointwise. apply length_map. Qed.

(** The flags counted are the flags written into the records. *)
Lemma count_true_records (model : option Classifier.t)
(all_data : list EnergyData.t) :
  count_true (fst (score_rows np_mean np_std model all_data))
  = Z.of_nat (length (filter AnomalyDataCreate.is_anomaly
                         (records np_mean np_std model all_data))).
Proof.
  unfold count_true. f_equal.
  rewrite score_rows_pointwise, records_pointwise. cbn [fst].
  rewrite filter_id_map. symmetry. apply filter_flag_length.
Qed.

Lemma detect_nonempty (model : option Classifier.t) (db : Session)
(d : EnergyData.t) (rest : list EnergyData.t) :
  EnergyRepository.get_all db 10000%Z = d :: rest ->
  let recs := records np_mean np_std model (d :: rest) in
  let n := Z.of_nat (length (filter AnomalyDataCreate.is_anomaly recs)) in
  detect_and_store np_mean np_std model db
  = (AnomalyListResponse.mk
   (Z.of_nat (length (d :: rest))) n
   (rate n (Z.of_nat (length (d :: rest))))
   (responses_from 1 (filter AnomalyDataCreate.is_anomaly recs)),
 mkSession (energy_data db) (prediction_data db) recs).
Proof.
  intros E. unfold detect_and_store. rewrite E. cbv zeta.
  rewrite count_true_records, records_length. reflexivity.
Qed.

Lemma detect_empty (model : option Classifier.t) (db : Session) :
  EnergyRepository.get_all db 10000%Z = [] ->
  detect_and_store np_mean np_std model db = (AnomalyListResponse.mk 0 0 0 [], db).
Proof. intros E. unfold detect_and_store. now rewrite E. Qed.

End Scorer.

Lemma rate_bounds (c t : Z) :
  (0 <= c <= t)%Z -> 0 <= rate c t /\ rate c t <= 100.
Proof.
  intros Hc. unfold rate.
  destruct (Z.ltb_spec 0 t) as [Hpos | Hz].
  - destruct (FloatFacts.percentage_between c t Hc Hpos) as [H0 H1].
    split.
    + now apply PyFacts.round_nonneg.
    + now apply (PyFacts.round_upper _ 2 100).
  - split; discriminate.
Qed.

End AnomalyFacts.

(** ** Anomaly scorer: the claims *)

Section AnomalyClaims.

Import AnomalyService AnomalyFacts.

Variable np_mean : list Q -> Q.
Variable np_std : list Q -> Q.

(** C2, as amended.  With no classifier and a non-empty result set, the
    record of each reading carries the reading's timestamp and
    consumption, the flag [3 < z] and the score [-z], where [z] is the
    absolute value of the double (consumption - mean) / divisor, mean and
    standard deviation being what numpy computes of the whole sample, and
    the divisor being the standard deviation itself unless that is
    exactly zero, in which case it is 1.0.  A standard deviation strictly
    between 0 and 1 is divided by as it is. *)
Theorem zscore_fallback
    (db : Session) (d : EnergyData.t) (rest : list EnergyData.t) :
  EnergyRepository.get_all db 10000%Z = d :: rest ->
  let column := map EnergyData.consumption_kwh (d :: rest) in
  let mean := np_mean column in
  let std := np_std column in
  let divisor := if Qeq_bool std 0 then 1 else std in
  let z x := Qabs (Float.div (Float.sub x mean) divisor) in
  anomaly_data (snd (detect_and_store np_mean np_std None db))
  = map (fun r => AnomalyDataCreate.mk
                    (EnergyData.timestamp r)
                    (EnergyData.consumption_kwh r)
                    (Py.Qlt_bool 3 (z (EnergyData.consumption_kwh r)))
                    (Some (- z (EnergyData.consumption_kwh r))))
        (d :: rest)
  /\ (forall x, Py.Qlt_bool 3 (z x) = true <-> 3 < z x).
Proof.
  intros E column mean std divisor z. split.
  - rewrite (detect_nonempty np_mean np_std None db d rest E).
    cbn [snd anomaly_data]. rewrite records_pointwise. reflexivity.
  - intros x. apply PyFacts.Qlt_bool_iff.
Qed.

(** C8.  For every classifier (or none) and every store: the record count
    of the response is the number of records the run persisted and the
    anomaly count the number of those whose flag is set, which is also
    the number of anomalies listed; the reported rate is
    [round(total_anomalies / total_records * 100, 2)], quotient and
    product being those of doubles, when there are records and 0.0 when
    there are none; it lies between 0 and 100; and on an empty result set
    the response has zero counts, a zero rate and an empty list, and the
    store is left as it was. *)
Theorem anomaly_rate_bounds (model : option Classifier.t) (db : Session) :
  let out := detect_and_store np_mean np_std model db in
  let r := fst out in
  let total := AnomalyListResponse.total_records r in
  let count := AnomalyListResponse.total_anomalies r in
  (EnergyRepository.get_all db 10000%Z <> [] ->
   total = Z.of_nat (length (anomaly_data (snd out)))
   /\ count
      = Z.of_nat (length (filter AnomalyDataCreate.is_anomaly
                                 (anomaly_data (snd out)))))
  /\ count = Z.of_nat (length (AnomalyListResponse.anomalies r))
  /\ (0 <= count <= total)%Z
  /\ AnomalyListResponse.anomaly_rate r
     = (if (0 <? total)%Z
        then Py.round (Float.mul (Float.truediv count total) 100) 2
        else 0)
  /\ (0 <= AnomalyListResponse.anomaly_rate r
      /\ AnomalyListResponse.anomaly_rate r <= 100)
  /\ (total = 0%Z -> AnomalyListResponse.anomaly_rate r = 0)
  /\ (EnergyRepository.get_all db 10000%Z = [] ->
      r = AnomalyListResponse.mk 0 0 0 [] /\ snd out = db).
Proof.
  destruct (EnergyRepository.get_all db 10000%Z) as [| d rest] eqn:E.
  - rewrite (detect_empty np_mean np_std model db E). cbn.
    split; [intros Hne; now contradiction Hne |].
    repeat split; try discriminate; lia.
  - rewrite (detect_nonempty np_mean np_std model db d rest E).
    cbn [fst snd anomaly_data AnomalyListResponse.total_records
         AnomalyListResponse.total_anomalies AnomalyListResponse.anomaly_rate
         AnomalyListResponse.anomalies].
    set (recs := records np_mean np_std model (d :: rest)).
    set (n := Z.of_nat (length (filter AnomalyDataCreate.is_anomaly recs))).
    set (t := Z.of_nat (length (d :: rest))).
    assert (Hlen : length recs = length (d :: rest))
      by apply records_length.
    assert (Hn : (0 <= n <= t)%Z).
    { unfold n, t.
      pose proof (filter_length_le AnomalyDataCreate.is_anomaly recs). lia. }
    assert (Ht : (0 < t)%Z) by (unfold t; cbn [length]; lia).
    split; [intros _; split; [unfold t; now rewrite Hlen | reflexivity] |].
    split; [now rewrite responses_from_length |].
    split; [exact Hn |].
    split; [reflexivity |].
    split; [apply (rate_bounds n t Hn) |].
    split; [intros Hz; lia | discriminate].
Qed.

(** C10.  On a non-empty result set, every reading is counted in
    [total_records] and persisted, in input order; the returned list holds
    exactly the persisted records whose flag is set, in that order and
    numbered from 1, so its length is [total_anomalies] and no record
    scored as normal is in it. *)
Theorem anomalies_are_the_flagged_records
    (model : option Classifier.t) (db : Session)
    (d : EnergyData.t) (rest : list EnergyData.t) :
  EnergyRepository.get_all db 10000%Z = d :: rest ->
  let out := detect_and_store np_mean np_std model db in
  let r := fst out in
  let persisted := anomaly_data (snd out) in
  AnomalyListResponse.total_records r = Z.of_nat (length (d :: rest))
  /\ map (fun x => (AnomalyDataCreate.timestamp x, AnomalyDataCreate.consumption x))
         persisted
     = map (fun e => (EnergyData.timestamp e, EnergyData.consumption_kwh e))
           (d :: rest)
  /\ map (fun a => AnomalyDataCreate.mk
                     (AnomalyDataResponse.timestamp a)
                     (AnomalyDataResponse.consumption a)
                     (AnomalyDataResponse.is_anomaly a)
                     (AnomalyDataResponse.anomaly_score a))
         (AnomalyListResponse.anomalies r)
     = filter AnomalyDataCreate.is_anomaly persisted
  /\ map AnomalyDataResponse.id (AnomalyListResponse.anomalies r)
     = map (fun k => (1 + Z.of_nat k)%Z)
           (seq 0 (length (AnomalyListResponse.anomalies r)))
  /\ Z.of_nat (length (AnomalyListResponse.anomalies r))
     = AnomalyListResponse.total_anomalies r
  /\ Forall (fun a => AnomalyDataResponse.is_anomaly a = true)
            (AnomalyListResponse.anomalies r).
Proof.
  intros E out r persisted. unfold r, persisted, out.
  rewrite (detect_nonempty np_mean np_std model db d rest E).
  cbn [fst snd anomaly_data AnomalyListResponse.total_records
       AnomalyListResponse.total_anomalies AnomalyListResponse.anomalies].
  set (recs := records np_mean np_std model (d :: rest)).
  repeat split.
  - unfold recs. rewrite records_pointwise, map_map. reflexivity.
  - apply responses_from_columns.
  - rewrite responses_from_ids, responses_from_length. reflexivity.
  - now rewrite responses_from_length.
  - apply responses_from_flags.
    apply Forall_forall. intros x Hx. now apply filter_In in Hx.
Qed.

End AnomalyClaims.

(** C2, refuted as stated.  Two readings, 0.0 and 1.0, no classifier: the
    standard deviation is 0.5.  Floored at 1.0 it would give both readings
    a z-score of 0.5 and a score of -0.5; the records carry a score of -1,
    the deviation 0.5 divided by the standard deviation 0.5. *)
Lemma zscore_divides_by_a_std_below_one :
  let column :=
    map EnergyData.consumption_kwh
        (EnergyRepository.get_all Reference.two_readings 10000%Z) in
  let stored :=
    anomaly_data
      (snd (AnomalyService.detect_and_store Reference.mean
              Reference.std None Reference.two_readings)) in
  Reference.std column == 1 # 2
  /\ forallb (fun z => Qeq_bool z (1 # 2))
             (Spec.z_scores_floored Reference.mean Reference.std column)
     = true
  /\ forallb (fun r => match AnomalyDataCreate.anomaly_score r with
                       | Some s => Qeq_bool s (- (1))
                       | None => false
                       end) stored = true
  /\ length stored = 2%nat.
Proof. cbv zeta. repeat split; vm_compute; reflexivity. Qed.

(** C2 at the readings 0.0 and 1.0: z is 1 for both, neither is flagged. *)
Lemma zscore_fallback_two_readings :
  map AnomalyDataCreate.is_anomaly
      (anomaly_data
         (snd (AnomalyService.detect_and_store Reference.mean
                 Reference.std None Reference.two_readings)))
  = [false; false].
Proof.
  destruct (zscore_fallback Reference.mean Reference.std
              Reference.two_readings
              (EnergyData.mk 0%Z 0 0%Z 3%Z 1%Z false)
              [EnergyData.mk 3600000000%Z 1 1%Z 3%Z 1%Z false] eq_refl)
    as [H _].
  rewrite H. reflexivity.
Defined.

(** C10 at the readings 0.0 and 1.0: two records counted, none flagged,
    none returned. *)
Lemma anomalies_are_the_flagged_records_two_readings :
  let out := AnomalyService.detect_and_store Reference.mean Reference.std None
               Reference.two_readings in
  AnomalyListResponse.total_records (fst out) = 2%Z
  /\ Z.of_nat (length (AnomalyListResponse.anomalies (fst out)))
     = AnomalyListResponse.total_anomalies (fst out).
Proof.
  destruct (anomalies_are_the_flagged_records Reference.mean Reference.std None
              Reference.two_readings
              (EnergyData.mk 0%Z 0 0%Z 3%Z 1%Z false)
              [EnergyData.mk 3600000000%Z 1 1%Z 3%Z 1%Z false] eq_refl)
    as (H1 & _ & _ & _ & H5 & _).
  cbv zeta. split; [exact H1 | exact H5].
Defined.

(** ** Daily sums and the trend *)

Module EnergyFacts.
Import EnergyService.

Lemma add_to_group_keys (key : Z) (v : Q) (l : list (Z * list Q)) (k : Z) :
  In k (map fst (add_to_group key v l)) <-> k = key \/ In k (map fst l).
Proof.
  induction l as [| [d s] rest IH]; simpl.
  - intuition.
  - destruct (Z.ltb_spec key d); [| destruct (Z.eqb_spec key d)]; simpl.
    + intuition.
    + subst. intuition.
    + rewrite IH. intuition.
Qed.

Lemma add_to_group_sorted (key : Z) (v : Q) (l : list (Z * list Q)) :
  StronglySorted Z.lt (map fst l) ->
  StronglySorted Z.lt (map fst (add_to_group key v l)).
Proof.
  induction l as [| [d s] rest IH]; simpl; intros H.
  - repeat constructor.
  - inversion H as [| ? ? Hs Hall]; subst.
    destruct (Z.ltb_spec key d); [| destruct (Z.eqb_spec key d)]; simpl.
    + constructor; [exact H |]. constructor; [assumption |].
      eapply Forall_impl; [| exact Hall]. simpl. intros; lia.
    + exact H.
    + constructor; [now apply IH |].
      apply Forall_forall. intros k Hk.
      apply add_to_group_keys in Hk. destruct Hk as [-> | Hk]; [lia |].
      rewrite Forall_forall in Hall. now apply Hall.
Qed.

Lemma sorted_keys_nodup (l : list Z) : StronglySorted Z.lt l -> NoDup l.
Proof.
  induction 1 as [| a l Hs IH Hall]; constructor; [| exact IH].
  intros Hin. rewrite Forall_forall in Hall. specialize (Hall a Hin). lia.
Qed.

(** Beyond a key smaller than all its keys a frame holds no group. *)
Lemma values_on_absent (k : Z) (l : list (Z * list Q)) :
  Forall (fun d => (k < d)%Z) (map fst l) -> values_on k l = [].
Proof.
  intros Hall. unfold values_on.
  destruct (find _ l) as [p |] eqn:F; [| reflexivity].
  apply find_some in F. destruct F as [Hin Heq]. apply Z.eqb_eq in Heq.
  rewrite Forall_forall in Hall.
  specialize (Hall (fst p) (in_map fst _ _ Hin)). lia.
Qed.

Lemma values_on_add (key : Z) (v : Q) (l : list (Z * list Q)) (k : Z) :
  StronglySorted Z.lt (map fst l) ->
  values_on k (add_to_group key v l)
  = values_on k l ++ (if (k =? key)%Z then [v] else []).
Proof.
  induction l as [| [d s] rest IH]; intros H.
  - unfold values_on. simpl. rewrite (Z.eqb_sym key k).
    destruct (k =? key)%Z; reflexivity.
  - inversion H as [| ? ? Hs Hall]; subst.
    cbn [add_to_group].
    destruct (Z.ltb_spec key d); [| destruct (Z.eqb_spec key d)].
    + destruct (Z.eqb_spec k key) as [E | Hne].
      * rewrite E. rewrite (values_on_absent key ((d, s) :: rest)).
        -- unfold values_on. simpl. now rewrite Z.eqb_refl.
        -- cbn [map fst]. constructor; [exact H0 |].
           eapply Forall_impl; [| exact Hall]. simpl. intros; lia.
      * unfold values_on. cbn [find fst].
        destruct (Z.eqb_spec key k); [lia |]. now rewrite app_nil_r.
    + subst d. unfold values_on. cbn [find fst snd].
      rewrite (Z.eqb_sym key k).
      destruct (Z.eqb_spec k key); [reflexivity | now rewrite app_nil_r].
    + unfold values_on in *. cbn [find fst snd].
      destruct (Z.eqb_spec d k) as [E | Hd].
      * destruct (Z.eqb_spec k key); [lia | now rewrite app_nil_r].
      * now apply IH.
Qed.

Lemma values_on_member (l : list (Z * list Q)) (p : Z * list Q) :
  StronglySorted Z.lt (map fst l) -> In p l -> values_on (fst p) l = snd p.
Proof.
  unfold values_on.
  induction l as [| [d s] rest IH]; simpl; intros H Hin; [contradiction |].
  inversion H as [| ? ? Hs Hall]; subst.
  destruct Hin as [<- | Hin]; simpl.
  - now rewrite Z.eqb_refl.
  - destruct (Z.eqb_spec d (fst p)).
    + rewrite Forall_forall in Hall.
      specialize (Hall (fst p) (in_map fst _ _ Hin)). lia.
    + now apply IH.
Qed.

Lemma fold_Qplus_compat (l : list Q) (a b : Q) :
  a == b -> fold_left Qplus l a == fold_left Qplus l b.
Proof.
  revert a b. induction l as [| y l IH]; intros a b H; simpl; [exact H |].
  apply IH. now rewrite H.
Qed.

Lemma fold_Qplus_shift (l : list Q) (a b : Q) :
  fold_left Qplus l (a + b) == a + fold_left Qplus l b.
Proof.
  revert b. induction l as [| y l IH]; intros b; simpl; [reflexivity |].
  rewrite <- IH. apply fold_Qplus_compat. ring.
Qed.

Lemma sum_cons (x : Q) (l : list Q) : Np.sum (x :: l) == x + Np.sum l.
Proof.
  unfold Np.sum. simpl. rewrite <- fold_Qplus_shift.
  apply fold_Qplus_compat. ring.
Qed.

(** The frame built so far, after more rows are grouped into it. *)
Lemma grouped (key : EnergyData.t -> Z) (rows : list EnergyData.t)
    (acc : list (Z * list Q)) :
  StronglySorted Z.lt (map fst acc) ->
  let out :=
    fold_left
      (fun acc d => add_to_group (key d) (EnergyData.consumption_kwh d) acc)
      rows acc in
  StronglySorted Z.lt (map fst out)
  /\ (forall k, In k (map fst out) <-> In k (map key rows) \/ In k (map fst acc))
  /\ (forall k, values_on k out
                = values_on k acc
                  ++ map EnergyData.consumption_kwh
                         (filter (fun d => (key d =? k)%Z) rows)).
Proof.
  revert acc. induction rows as [| r rows IH]; intros acc Hs; cbn [fold_left].
  - cbv zeta. repeat split; trivial.
    + intros H; now right.
    + intros [[] | H]; exact H.
    + intros k. simpl. now rewrite app_nil_r.
  - pose proof (add_to_group_sorted (key r) (EnergyData.consumption_kwh r)
                  acc Hs) as Hs'.
    destruct (IH _ Hs') as (S1 & S2 & S3). cbv zeta.
    split; [exact S1 |]. split.
    + intros k. rewrite S2, add_to_group_keys. simpl. intuition.
    + intros k. rewrite S3, values_on_add by exact Hs.
      cbn [filter]. rewrite (Z.eqb_sym k).
      destruct (key r =? k)%Z; cbn [map]; rewrite <- app_assoc; reflexivity.
Qed.

(** The groups are in key order, one per key present, each holding the
    consumption of the rows of its key, in the order of the rows. *)
Lemma groupby_spec (key : EnergyData.t -> Z) (all_data : list EnergyData.t) :
  let groups := groupby key all_data in
  StronglySorted Z.lt (map fst groups)
  /\ (forall k, In k (map fst groups) <-> In k (map key all_data))
  /\ Forall (fun g =>
               snd g
               = map EnergyData.consumption_kwh
                     (filter (fun d => (key d =? fst g)%Z) all_data))
            groups.
Proof.
  destruct (grouped key all_data [] (SSorted_nil _)) as (S1 & S2 & S3).
  fold (groupby key all_data) in S1, S2, S3. cbv zeta.
  split; [exact S1 |]. split.
  - intros k. rewrite S2. simpl. intuition.
  - apply Forall_forall. intros g Hg.
    rewrite <- (values_on_member _ g S1 Hg). now rewrite S3.
Qed.

Lemma reduced_keys (f : list Q -> Q) (groups : list (Z * list Q)) :
  map fst (map (fun g => (fst g, f (snd g))) groups) = map fst groups.
Proof. rewrite map_map. reflexivity. Qed.

(** The daily sums are in date order, one row per distinct calendar day,
    each holding what [groupby(...).sum()] makes of the readings of that
    day. *)
Lemma daily_sums_spec (groupby_sum : list Q -> Q)
    (all_data : list EnergyData.t) :
  let frame := daily_sums groupby_sum all_data in
  StronglySorted Z.lt (map fst frame)
  /\ length frame = Spec.distinct_days all_data
  /\ Forall (fun p =>
               snd p
               = groupby_sum
                   (map EnergyData.consumption_kwh
                        (filter (fun d =>
                                   (Datetime.date (EnergyData.timestamp d)
                                    =? fst p)%Z) all_data)))
            frame.
Proof.
  cbv zeta. unfold daily_sums.
  destruct (groupby_spec (fun d => Datetime.date (EnergyData.timestamp d))
              all_data) as (S1 & S2 & S3).
  cbv zeta in S1, S2, S3.
  set (groups := groupby _ all_data) in *.
  rewrite reduced_keys. split; [exact S1 |]. split.
  - rewrite length_map. unfold Spec.distinct_days.
    rewrite <- (length_map fst groups).
    apply Nat.le_antisymm; apply NoDup_incl_length.
    + now apply sorted_keys_nodup.
    + intros k Hk. apply nodup_In. now apply S2.
    + apply NoDup_nodup.
    + intros k Hk. apply nodup_In in Hk. now apply S2.
  - apply Forall_map. eapply Forall_impl; [| exact S3].
    intros g Hg. cbn [fst snd]. now rewrite Hg.
Qed.

End EnergyFacts.

(** C7.  For a non-empty result set, with [n] the number of distinct
    calendar days and the daily sums taken in date order (one per day,
    each the [groupby] sum of the readings of its day), the trend of the
    analysis is "Insufficient data" when [n < 3]; otherwise, the first
    half being the first [n / 2] days, it is "Increasing" when the mean of
    the second half exceeds the mean of the first half times 1.05, else
    "Decreasing" when it is below the mean of the first half times 0.95,
    else "Stable"; the two products are products of doubles. *)
Theorem trend_classification
    (groupby_sum groupby_mean series_mean : list Q -> Q)
    (db : Session) (d : EnergyData.t) (rest : list EnergyData.t) :
  EnergyRepository.get_all db 10000%Z = d :: rest ->
  let frame := EnergyService.daily_sums groupby_sum (d :: rest) in
  let sums := map snd frame in
  let n := Spec.distinct_days (d :: rest) in
  let first_half := series_mean (firstn (n / 2) sums) in
  let second_half := series_mean (skipn (n / 2) sums) in
  AnalysisResponse.trend
    (EnergyService.get_analysis groupby_sum groupby_mean series_mean db)
  = (if (n <? 3)%nat then "Insufficient data"
     else if Py.Qlt_bool (Float.mul first_half (105 # 100)) second_half
          then "Increasing ↑"
     else if Py.Qlt_bool second_half (Float.mul first_half (95 # 100))
          then "Decreasing ↓"
     else "Stable →")%string
  /\ length sums = n
  /\ StronglySorted Z.lt (map fst frame)
  /\ Forall (fun p =>
               snd p
               = groupby_sum
                   (map EnergyData.consumption_kwh
                        (filter (fun r =>
                                   (Datetime.date (EnergyData.timestamp r)
                                    =? fst p)%Z) (d :: rest))))
            frame
  /\ (forall a b, Py.Qlt_bool a b = true <-> a < b).
Proof.
  intros E frame sums n first_half second_half.
  destruct (EnergyFacts.daily_sums_spec groupby_sum (d :: rest))
    as (S1 & S2 & S3).
  assert (Hn : length sums = n).
  { unfold sums. rewrite length_map. exact S2. }
  split; [| split; [exact Hn | split; [exact S1 | split; [exact S3 |]]]].
  - unfold EnergyService.get_analysis. rewrite E.
    cbv zeta. cbn [AnalysisResponse.trend].
    unfold EnergyService.trend_of. cbv zeta.
    fold frame. fold sums. rewrite Hn.
    fold first_half. fold second_half.
    destruct (Nat.leb_spec 3 n), (Nat.ltb_spec n 3); try lia; reflexivity.
  - intros a b. apply PyFacts.Qlt_bool_iff.
Qed.

(** C7 at daily sums 1, 1, 2: the first half is [1], the second [1; 2]
    with mean 1.5, above 1.05. *)
Lemma trend_classification_three_days :
  AnalysisResponse.trend
    (EnergyService.get_analysis Reference.sum Reference.mean Reference.mean
       Reference.three_days)
  = "Increasing ↑"%string.
Proof.
  destruct (trend_classification Reference.sum Reference.mean Reference.mean
              Reference.three_days
              (EnergyData.mk 0%Z 1 0%Z 3%Z 1%Z false)
              [EnergyData.mk 86400000000%Z 1 0%Z 4%Z 1%Z false;
               EnergyData.mk 172800000000%Z 2 0%Z 5%Z 1%Z true] eq_refl)
    as [H _].
  rewrite H. vm_compute. reflexivity.
Defined.

(** ** Persistence: results replace, they do not accumulate *)

(** C9, as amended.  A run of prediction, or of anomaly detection, over a
    non-empty result set leaves in its table exactly the records of that
    run, whatever the table held before, and leaves the other tables as
    they were.  A run that finds no stored reading returns before the
    delete and leaves the whole store as it was. *)
Theorem runs_replace_stored_results
    (np_sqrt np_sin : Q -> Q) (np_mean np_std : list Q -> Q) (rng : Type)
    (random_normal : Q -> Q -> rng -> Q * rng)
    (regressor : option Predictor.t) (classifier : option Classifier.t)
    (now : Datetime.t) (g : rng) (horizon : string) (db : Session) :
  let p := PredictionService.predict np_sqrt np_sin random_normal
             regressor now g horizon db in
  let a := AnomalyService.detect_and_store np_mean np_std classifier db in
  (EnergyRepository.get_all db 10000%Z <> [] ->
   (prediction_data (snd p)
    = map (fun pt => PredictionDataCreate.mk
                       (PredictionPoint.timestamp pt)
                       (PredictionPoint.predicted_value pt)
                       (PredictionService.prediction_horizon horizon))
          (PredictionResponse.predictions (fst p))
    /\ energy_data (snd p) = energy_data db
    /\ anomaly_data (snd p) = anomaly_data db)
   /\ (anomaly_data (snd a)
       = AnomalyService.records np_mean np_std classifier
           (EnergyRepository.get_all db 10000%Z)
       /\ energy_data (snd a) = energy_data db
       /\ prediction_data (snd a) = prediction_data db))
  /\ (EnergyRepository.get_all db 10000%Z = [] -> snd p = db /\ snd a = db).
Proof.
  cbv zeta.
  destruct (EnergyRepository.get_all db 10000%Z) as [| d rest] eqn:E.
  - split; [intros H; now contradiction H |]. intros _.
    rewrite (PredictionFacts.predict_empty _ _ _ _ _ _ _ _ _ E).
    rewrite (AnomalyFacts.detect_empty _ _ _ _ E). split; reflexivity.
  - split; [intros _ | discriminate].
    rewrite (PredictionFacts.predict_nonempty _ _ _ _ _ _ _ _ _ _ _ E).
    rewrite (AnomalyFacts.detect_nonempty _ _ _ _ _ _ E).
    repeat split.
Qed.

(** C9, refuted as stated.  The readings table is empty while the
    prediction and anomaly tables hold one record each from earlier runs.
    Both runs succeed with an empty batch, and afterwards each table still
    holds the earlier record, which the run did not produce. *)
Lemma stale_results_survive_an_empty_run :
  let p := PredictionService.predict Reference.sqrt Reference.sin
             Reference.random_normal None 0%Z 0%Z "next_hour"
             Reference.stale_store in
  let a := AnomalyService.detect_and_store Reference.mean Reference.std
             None
             Reference.stale_store in
  (PredictionResponse.predictions (fst p) = []
   /\ prediction_data (snd p) = [Reference.stale_prediction])
  /\ (AnomalyListResponse.total_records (fst a) = 0%Z
      /\ AnomalyListResponse.anomalies (fst a) = []
      /\ anomaly_data (snd a) = [Reference.stale_anomaly]).
Proof. cbv zeta. repeat split. Qed.

(** C9 at a one-reading history over a store holding earlier results: the
    prediction table ends with the one record of the run, the anomaly
    table is untouched. *)
Lemma runs_replace_stored_results_one_reading :
  let p := PredictionService.predict Reference.sqrt Reference.sin
             Reference.random_normal (Some Reference.plain_model)
             0%Z 0%Z "next_hour"
             (mkSession (energy_data Reference.one_reading)
                        [Reference.stale_prediction] [Reference.stale_anomaly]) in
  length (prediction_data (snd p)) = 1%nat
  /\ anomaly_data (snd p) = [Reference.stale_anomaly].
Proof.
  destruct (runs_replace_stored_results Reference.sqrt Reference.sin
              Reference.mean Reference.std
              Reference.rng Reference.random_normal
              (Some Reference.plain_model) None 0%Z 0%Z "next_hour"
              (mkSession (energy_data Reference.one_reading)
                         [Reference.stale_prediction] [Reference.stale_anomaly]))
    as [H _].
  destruct H as [(H1 & _ & H3) _]; [discriminate |].
  cbv zeta. split; [rewrite H1; reflexivity | exact H3].
Defined.

(** * Beyond the claims *)

(** ** Ordered queries *)

Module SqlFacts.

Section OrderBy.
Context {A : Type}.
Variable key : A -> Z.

Lemma insert_perm (r : A) (l : list A) :
  Permutation (Sql.insert key r l) (r :: l).
Proof.
  induction l as [| x l IH]; simpl; [reflexivity |].
  destruct (key r <=? key x)%Z; [reflexivity |].
  rewrite IH. apply perm_swap.
Qed.

Lemma order_by_perm (l : list A) : Permutation (Sql.order_by key l) l.
Proof.
  induction l as [| x l IH]; simpl; [reflexivity |].
  rewrite insert_perm. now constructor.
Qed.

Lemma insert_sorted (r : A) (l : list A) :
  StronglySorted Z.le (map key l) ->
  StronglySorted Z.le (map key (Sql.insert key r l)).
Proof.
  induction l as [| x l IH]; simpl; intros H.
  - repeat constructor.
  - inversion H as [| ? ? Hs Hall]; subst.
    destruct (Z.leb_spec (key r) (key x)); simpl.
    + constructor; [exact H |]. constructor; [assumption |].
      eapply Forall_impl; [| exact Hall]. simpl. intros; lia.
    + constructor; [now apply IH |].
      apply Forall_forall. intros k Hk.
      apply in_map_iff in Hk. destruct Hk as (y & <- & Hy).
      apply (Permutation_in _ (insert_perm r l)) in Hy.
      destruct Hy as [<- | Hy]; [lia |].
      rewrite Forall_forall in Hall. apply Hall. now apply in_map.
Qed.

Lemma order_by_sorted (l : list A) :
  StronglySorted Z.le (map key (Sql.order_by key l)).
Proof.
  induction l as [| x l IH]; simpl; [constructor | now apply insert_sorted].
Qed.

(** Rows that are already in key order come back as they are. *)
Lemma order_by_fixed (l : list A) :
  StronglySorted Z.le (map key l) -> Sql.order_by key l = l.
Proof.
  induction l as [| x l IH]; simpl; intros H; [reflexivity |].
  inversion H as [| ? ? Hs Hall]; subst.
  rewrite (IH Hs). destruct l as [| y l']; [reflexivity |].
  simpl. inversion Hall; subst.
  destruct (Z.leb_spec (key x) (key y)); [reflexivity | lia].
Qed.

End OrderBy.

Lemma firstn_in {A} (n : nat) (l : list A) (x : A) :
  In x (firstn n l) -> In x l.
Proof.
  intros H. rewrite <- (firstn_skipn n l). apply in_or_app. now left.
Qed.

Lemma firstn_sorted (n : nat) (l : list Z) :
  StronglySorted Z.le l -> StronglySorted Z.le (firstn n l).
Proof.
  revert n. induction l as [| x l IH]; intros [| n] H; simpl; try constructor.
  - inversion H; subst. now apply IH.
  - inversion H as [| ? ? Hs Hall]; subst.
    apply Forall_forall. intros k Hk. apply firstn_in in Hk.
    rewrite Forall_forall in Hall. now apply Hall.
Qed.

Lemma filter_keys_sorted {A} (key : A -> Z) (f : A -> bool) (l : list A) :
  StronglySorted Z.le (map key l) ->
  StronglySorted Z.le (map key (filter f l)).
Proof.
  induction l as [| x l IH]; simpl; intros H; [constructor |].
  inversion H as [| ? ? Hs Hall]; subst.
  destruct (f x); simpl; [| now apply IH].
  constructor; [now apply IH |].
  apply Forall_forall. intros k Hk.
  apply in_map_iff in Hk. destruct Hk as (y & <- & Hy).
  apply filter_In in Hy. rewrite Forall_forall in Hall.
  apply Hall. now apply in_map.
Qed.

Lemma filter_firstn_le {A} (f : A -> bool) (n : nat) (l : list A) :
  (length (filter f (firstn n l)) <= length (filter f l))%nat.
Proof.
  revert n. induction l as [| x l IH]; intros [| n]; simpl; try lia.
  specialize (IH n). destruct (f x); simpl; lia.
Qed.

Lemma filter_perm_length {A} (f : A -> bool) (l l' : list A) :
  Permutation l l' -> length (filter f l) = length (filter f l').
Proof.
  induction 1; simpl; try congruence.
  - destruct (f x); simpl; congruence.
  - destruct (f x), (f y); reflexivity.
Qed.

(** The readings query is the generic ordering on the timestamp. *)
Lemma energy_order_by (l : list EnergyData.t) :
  EnergyRepository.order_by_timestamp l = Sql.order_by EnergyData.timestamp l.
Proof.
  unfold EnergyRepository.order_by_timestamp, Sql.order_by.
  induction l as [| x l IH]; simpl; [reflexivity |]. rewrite IH.
  generalize (fold_right (Sql.insert EnergyData.timestamp) [] l).
  intros m. induction m as [| y m IHm]; simpl; [reflexivity |].
  now rewrite IHm.
Qed.

(** What the services read is in timestamp order. *)
Lemma get_all_sorted (db : Session) (limit : Z) :
  StronglySorted Z.le
    (map EnergyData.timestamp (EnergyRepository.get_all db limit)).
Proof.
  unfold EnergyRepository.get_all. rewrite <- firstn_map.
  apply firstn_sorted. rewrite energy_order_by. apply order_by_sorted.
Qed.

End SqlFacts.

(** ** Stored results: what the read side returns *)

Module StoredFacts.
Import AnomalyRepository.

Section Rows.
Variable primary_key : nat -> Z.

Lemma rows_from_columns (pos : nat) (l : list AnomalyDataCreate.t) :
  map columns (rows_from primary_key pos l) = l.
Proof.
  revert pos. induction l as [| r l IH]; intros pos; simpl; [reflexivity |].
  rewrite IH. destruct r; reflexivity.
Qed.

Lemma rows_from_length (pos : nat) (l : list AnomalyDataCreate.t) :
  length (rows_from primary_key pos l) = length l.
Proof.
  revert pos. induction l as [| r l IH]; intros pos; simpl; [| rewrite IH];
    reflexivity.
Qed.

Lemma rows_from_timestamps (pos : nat) (l : list AnomalyDataCreate.t) :
  map AnomalyData.timestamp (rows_from primary_key pos l)
  = map AnomalyDataCreate.timestamp l.
Proof.
  revert pos. induction l as [| r l IH]; intros pos; simpl; [| rewrite IH];
    reflexivity.
Qed.

Lemma rows_from_firstn (n pos : nat) (l : list AnomalyDataCreate.t) :
  firstn n (rows_from primary_key pos l)
  = rows_from primary_key pos (firstn n l).
Proof.
  revert n pos. induction l as [| r l IH]; intros [| n] pos; simpl;
    try reflexivity.
  now rewrite IH.
Qed.

Lemma rows_from_flagged (pos : nat) (l : list AnomalyDataCreate.t) :
  map columns (filter AnomalyData.is_anomaly (rows_from primary_key pos l))
  = filter AnomalyDataCreate.is_anomaly l.
Proof.
  revert pos. induction l as [| [ts kwh flag score] l IH]; intros pos; simpl;
    [reflexivity |].
  destruct flag; simpl; now rewrite IH.
Qed.

Lemma rows_from_flagged_length (pos : nat) (l : list AnomalyDataCreate.t) :
  length (filter AnomalyData.is_anomaly (rows_from primary_key pos l))
  = length (filter AnomalyDataCreate.is_anomaly l).
Proof.
  rewrite <- (rows_from_flagged pos l). now rewrite length_map.
Qed.

End Rows.

Lemma response_columns (l : list AnomalyData.t) :
  map (fun a => AnomalyDataCreate.mk
                  (AnomalyDataResponse.timestamp a)
                  (AnomalyDataResponse.consumption a)
                  (AnomalyDataResponse.is_anomaly a)
                  (AnomalyDataResponse.anomaly_score a))
      (map (fun r => AnomalyDataResponse.mk
                       (AnomalyData.id r) (AnomalyData.timestamp r)
                       (AnomalyData.consumption r) (AnomalyData.is_anomaly r)
                       (AnomalyData.anomaly_score r)) l)
  = map columns l.
Proof. rewrite map_map. reflexivity. Qed.

End StoredFacts.

(** X1.  After a detection run over a non-empty result set, reading the
    stored anomalies back reports the same record count, anomaly count and
    anomaly rate as the run did, and lists the flagged records among the
    first 1000 records of the run, in the order of the run. *)
Theorem stored_anomalies_after_detection
    (np_mean np_std : list Q -> Q) (model : option Classifier.t)
    (primary_key : nat -> Z)
    (db : Session) (d : EnergyData.t) (rest : list EnergyData.t) :
  EnergyRepository.get_all db 10000%Z = d :: rest ->
  let out := AnomalyService.detect_and_store np_mean np_std model db in
  let s := AnomalyService.get_stored_anomalies primary_key (snd out) in
  AnomalyListResponse.total_records s
  = AnomalyListResponse.total_records (fst out)
  /\ AnomalyListResponse.total_anomalies s
     = AnomalyListResponse.total_anomalies (fst out)
  /\ AnomalyListResponse.anomaly_rate s
     = AnomalyListResponse.anomaly_rate (fst out)
  /\ map (fun a => AnomalyDataCreate.mk
                     (AnomalyDataResponse.timestamp a)
                     (AnomalyDataResponse.consumption a)
                     (AnomalyDataResponse.is_anomaly a)
                     (AnomalyDataResponse.anomaly_score a))
         (AnomalyListResponse.anomalies s)
     = filter AnomalyDataCreate.is_anomaly
              (firstn 1000 (anomaly_data (snd out))).
Proof.
  intros E out s. unfold s, out.
  rewrite (AnomalyFacts.detect_nonempty np_mean np_std model db d rest E).
  cbn [fst snd AnomalyListResponse.total_records
       AnomalyListResponse.total_anomalies AnomalyListResponse.anomaly_rate].
  set (recs := AnomalyService.records np_mean np_std model (d :: rest)).
  unfold AnomalyService.get_stored_anomalies, AnomalyRepository.get_counts,
    AnomalyRepository.get_all, AnomalyRepository.table.
  cbn [anomaly_data AnomalyListResponse.total_records
       AnomalyListResponse.total_anomalies AnomalyListResponse.anomaly_rate
       AnomalyListResponse.anomalies].
  rewrite StoredFacts.rows_from_length, StoredFacts.rows_from_flagged_length.
  assert (Hlen : length recs = length (d :: rest))
    by apply AnomalyFacts.records_length.
  rewrite Hlen. repeat split.
  rewrite StoredFacts.response_columns.
  rewrite SqlFacts.order_by_fixed.
  - rewrite StoredFacts.rows_from_firstn. apply StoredFacts.rows_from_flagged.
  - rewrite StoredFacts.rows_from_timestamps.
    unfold recs. rewrite AnomalyFacts.records_pointwise, map_map.
    cbn [AnomalyDataCreate.timestamp]. rewrite <- E.
    apply SqlFacts.get_all_sorted.
Qed.

(** X1 at the readings 0.0 and 1.0. *)
Lemma stored_anomalies_after_detection_two_readings :
  AnomalyListResponse.total_records
    (AnomalyService.get_stored_anomalies Z.of_nat
       (snd (AnomalyService.detect_and_store Reference.mean Reference.std None
               Reference.two_readings)))
  = 2%Z.
Proof.
  destruct (stored_anomalies_after_detection Reference.mean Reference.std None Z.of_nat
              Reference.two_readings
              (EnergyData.mk 0%Z 0 0%Z 3%Z 1%Z false)
              [EnergyData.mk 3600000000%Z 1 1%Z 3%Z 1%Z false] eq_refl)
    as (H & _).
  rewrite H. reflexivity.
Defined.

(** X2.  Whatever the anomaly table holds, reading it back gives an
    anomaly count that does not exceed the record count, a rate between 0
    and 100, and a list, in timestamp order, of flagged records only; the
    list is never longer than the anomaly count, and it has that length
    when the table holds at most 1000 records (beyond the first 1000 in
    timestamp order, anomalies are counted but not listed). *)
Theorem stored_anomalies_bounds (primary_key : nat -> Z) (db : Session) :
  let s := AnomalyService.get_stored_anomalies primary_key db in
  (0 <= AnomalyListResponse.total_anomalies s
        <= AnomalyListResponse.total_records s)%Z
  /\ (0 <= AnomalyListResponse.anomaly_rate s
      /\ AnomalyListResponse.anomaly_rate s <= 100)
  /\ Forall (fun a => AnomalyDataResponse.is_anomaly a = true)
            (AnomalyListResponse.anomalies s)
  /\ StronglySorted Z.le
       (map AnomalyDataResponse.timestamp (AnomalyListResponse.anomalies s))
  /\ (Z.of_nat (length (AnomalyListResponse.anomalies s))
      <= AnomalyListResponse.total_anomalies s)%Z
  /\ ((AnomalyListResponse.total_records s <= 1000)%Z ->
      Z.of_nat (length (AnomalyListResponse.anomalies s))
      = AnomalyListResponse.total_anomalies s).
Proof.
  unfold AnomalyService.get_stored_anomalies, AnomalyRepository.get_counts,
    AnomalyRepository.get_all.
  set (rows := AnomalyRepository.table primary_key db).
  set (sorted := Sql.order_by AnomalyData.timestamp rows).
  cbn [AnomalyListResponse.total_records AnomalyListResponse.total_anomalies
       AnomalyListResponse.anomaly_rate AnomalyListResponse.anomalies].
  pose proof (AnomalyFacts.filter_length_le AnomalyData.is_anomaly rows) as Hle.
  assert (Hperm : length (filter AnomalyData.is_anomaly sorted)
                  = length (filter AnomalyData.is_anomaly rows)).
  { apply SqlFacts.filter_perm_length. apply SqlFacts.order_by_perm. }
  split; [lia |]. split; [apply AnomalyFacts.rate_bounds; lia |].
  split; [| split; [| split]].
  - apply Forall_map. apply Forall_forall. intros r Hr.
    now apply filter_In in Hr.
  - rewrite map_map. cbn [AnomalyDataResponse.timestamp].
    apply SqlFacts.filter_keys_sorted. rewrite <- firstn_map.
    apply SqlFacts.firstn_sorted. apply SqlFacts.order_by_sorted.
  - rewrite length_map.
    pose proof (SqlFacts.filter_firstn_le AnomalyData.is_anomaly
                  (Z.to_nat 1000) sorted). lia.
  - intros Hsmall. rewrite length_map.
    rewrite firstn_all2; [lia |].
    unfold sorted.
    rewrite (Permutation_length (SqlFacts.order_by_perm AnomalyData.timestamp rows)).
    lia.
Qed.

(** ** Stored predictions *)

Module StepsFacts.

Lemma range_from_lower (fuel : nat) (start stop step : Z) :
  (0 <= step)%Z ->
  Forall (fun i => (start <= i)%Z) (Py.range_from fuel start stop step).
Proof.
  intros Hstep. revert start.
  induction fuel as [| k IH]; intros start; simpl; [constructor |].
  destruct (start <? stop)%Z; [| constructor].
  constructor; [lia |].
  eapply Forall_impl; [| apply IH]. simpl. intros; lia.
Qed.

Lemma range_from_increasing (fuel : nat) (start stop step : Z) :
  (0 < step)%Z -> StronglySorted Z.lt (Py.range_from fuel start stop step).
Proof.
  intros Hstep. revert start.
  induction fuel as [| k IH]; intros start; simpl; [constructor |].
  destruct (start <? stop)%Z; [| constructor].
  constructor; [apply IH |].
  eapply Forall_impl; [| apply (range_from_lower k (start + step) stop step); lia].
  simpl. intros; lia.
Qed.

Lemma at_hours_sorted (base : Datetime.t) (hours : list Z) :
  StronglySorted Z.lt hours ->
  StronglySorted Z.le
    (map (fun i => Datetime.add base (Datetime.timedelta_hours i)) hours).
Proof.
  induction 1 as [| i l Hs IH Hall]; simpl; constructor; [exact IH |].
  apply Forall_map. eapply Forall_impl; [| exact Hall].
  simpl. unfold Datetime.add, Datetime.timedelta_hours, Datetime.us_per_hour.
  intros; lia.
Qed.

(** The steps of every horizon are in increasing order, and there are at
    most 42 of them. *)
Lemma steps_sorted (horizon : string) (base : Datetime.t) :
  StronglySorted Z.le (PredictionService.steps horizon base)
  /\ (length (PredictionService.steps horizon base) <= 42)%nat.
Proof.
  unfold PredictionService.steps.
  destruct (String.eqb horizon "next_hour");
    [| destruct (String.eqb horizon "next_day")].
  - split; [repeat constructor | simpl; lia].
  - split; [| rewrite length_map; vm_compute; lia].
    apply at_hours_sorted. apply range_from_increasing. lia.
  - split; [| rewrite length_map; vm_compute; lia].
    apply at_hours_sorted. apply range_from_increasing. lia.
Qed.

Lemma filter_by_code (code k : Z) (l : list PredictionPoint.t) :
  let recs :=
    map (fun p => PredictionDataCreate.mk (PredictionPoint.timestamp p)
                    (PredictionPoint.predicted_value p) code) l in
  filter (fun r => (PredictionDataCreate.prediction_horizon r =? k)%Z) recs
  = if (code =? k)%Z then recs else [].
Proof.
  cbv zeta. induction l as [| p l IH]; simpl.
  - now destruct (code =? k)%Z.
  - rewrite IH. now destruct (code =? k)%Z.
Qed.

End StepsFacts.

(** X3.  After a forecast over a non-empty result set, the stored
    predictions queried by the horizon code of the run (1, 24 or 168) are
    exactly the records of the run, in step order; queried by any other
    horizon code there are none; and the unfiltered query returns the same
    records. *)
Theorem stored_predictions_by_horizon
    (np_sqrt np_sin : Q -> Q) (rng : Type)
    (random_normal : Q -> Q -> rng -> Q * rng)
    (model : option Predictor.t) (now : Datetime.t) (g : rng)
    (horizon : string) (db : Session)
    (d : EnergyData.t) (rest : list EnergyData.t) :
  EnergyRepository.get_all db 10000%Z = d :: rest ->
  let db' := snd (PredictionService.predict np_sqrt np_sin random_normal
                    model now g horizon db) in
  PredictionRepository.get_by_horizon db'
    (PredictionService.prediction_horizon horizon) 500%Z
  = prediction_data db'
  /\ (forall k, k <> PredictionService.prediction_horizon horizon ->
                PredictionRepository.get_by_horizon db' k 500%Z = [])
  /\ PredictionRepository.get_all db' 500%Z = prediction_data db'.
Proof.
  intros E db'. unfold db'.
  rewrite (PredictionFacts.predict_nonempty _ _ _ _ _ _ _ _ _ _ _ E).
  cbn [snd]. cbv zeta.
  set (st := fold_left _ _ _).
  set (code := PredictionService.prediction_horizon horizon).
  set (recs := map _ (PredictionService.predictions st)).
  unfold PredictionRepository.get_by_horizon, PredictionRepository.get_all.
  cbn [prediction_data].
  assert (Hts : map PredictionDataCreate.timestamp recs
                = PredictionService.steps horizon
                    (Datetime.max (PredictionService.last_ts d rest) now)).
  { unfold recs. rewrite map_map. cbn [PredictionDataCreate.timestamp].
    unfold st. rewrite PredictionFacts.loop_timestamps. reflexivity. }
  destruct (StepsFacts.steps_sorted horizon
              (Datetime.max (PredictionService.last_ts d rest) now))
    as [Hsorted Hlen].
  assert (Hsort : Sql.order_by PredictionDataCreate.timestamp recs = recs).
  { apply SqlFacts.order_by_fixed.
    change (StronglySorted Z.le (map PredictionDataCreate.timestamp recs)).
    rewrite Hts. exact Hsorted. }
  assert (Hshort : (length recs <= Z.to_nat 500)%nat).
  { rewrite <- (length_map PredictionDataCreate.timestamp recs), Hts. lia. }
  assert (Hall : forall k,
             filter (fun r => (PredictionDataCreate.prediction_horizon r =? k)%Z) recs
             = if (code =? k)%Z then recs else []).
  { intros k. apply StepsFacts.filter_by_code. }
  repeat split.
  - rewrite Hall, Z.eqb_refl, Hsort. now apply firstn_all2.
  - intros k Hk. rewrite Hall.
    destruct (Z.eqb_spec code k); [congruence |]. now destruct (Z.to_nat 500).
  - rewrite Hsort. now apply firstn_all2.
Qed.

(** X3 at a one-reading history and the horizon "next_day". *)
Lemma stored_predictions_by_horizon_one_reading :
  length
    (PredictionRepository.get_by_horizon
       (snd (PredictionService.predict Reference.sqrt Reference.sin
               Reference.random_normal (Some Reference.plain_model)
               0%Z 0%Z "next_day" Reference.one_reading))
       24%Z 500%Z)
  = 24%nat.
Proof.
  destruct (stored_predictions_by_horizon Reference.sqrt Reference.sin
              Reference.rng Reference.random_normal
              (Some Reference.plain_model) 0%Z 0%Z "next_day"
              Reference.one_reading
              (EnergyData.mk 0%Z 1 0%Z 3%Z 1%Z false) [] eq_refl)
    as (H & _).
  change 24%Z with (PredictionService.prediction_horizon "next_day").
  rewrite H. reflexivity.
Defined.

(** ** Training features *)

Module PipelineFacts.
Import Pipeline.

Lemma nth_map_lt {A B} (f : A -> B) (l : list A) (i : nat) (d : A) (e : B) :
  (i < length l)%nat -> nth i (map f l) e = f (nth i l d).
Proof.
  intros H. rewrite (nth_indep (map f l) e (f d)) by now rewrite length_map.
  apply map_nth.
Qed.

Lemma nth_map_seq {B} (f : nat -> B) (n i : nat) (e : B) :
  (i < n)%nat -> nth i (map f (seq 0 n)) e = f i.
Proof.
  intros H. rewrite (nth_map_lt f (seq 0 n) i 0%nat) by now rewrite length_seq.
  now rewrite seq_nth.
Qed.

(** A shifted and filled column, place by place. *)
Lemma shift_fillna_nth (n : nat) (d : Q) (l : list Q) (i : nat) :
  (i < length l)%nat ->
  nth i (fillna d (shift n l)) 0
  = if (i <? n)%nat then d else nth (i - n) l 0.
Proof.
  intros H. unfold fillna, shift.
  rewrite (nth_map_lt _ _ i None).
  - rewrite nth_firstn.
    destruct (Nat.ltb_spec i (length l)); [| lia].
    destruct (Nat.ltb_spec i n) as [L | L].
    + rewrite app_nth1 by now rewrite repeat_length.
      now rewrite nth_repeat_lt.
    + rewrite app_nth2 by (rewrite repeat_length; lia).
      rewrite repeat_length.
      rewrite (nth_map_lt Some l (i - n) 0) by lia. reflexivity.
  - rewrite length_firstn, length_app, repeat_length, length_map. lia.
Qed.

Lemma rolling_window_length (w : nat) (l : list Q) (i : nat) :
  (i < length l)%nat -> length (rolling_window w l i) = Nat.min (S i) w.
Proof.
  intros H. unfold rolling_window. rewrite length_skipn, length_firstn. lia.
Qed.

Lemma rolling_window_nth (w : nat) (l : list Q) (i j : nat) :
  (i < length l)%nat -> (j < Nat.min (S i) w)%nat ->
  nth j (rolling_window w l i) 0 = nth (S i - Nat.min (S i) w + j) l 0.
Proof.
  intros H Hj. unfold rolling_window. rewrite nth_skipn, nth_firstn.
  destruct (Nat.ltb_spec (S i - w + j) (S i)); [| lia].
  f_equal. lia.
Qed.

(** Two lists in order that hold the same numbers are the same list. *)
Lemma sorted_unique (l1 l2 : list Z) :
  StronglySorted Z.le l1 -> StronglySorted Z.le l2 -> Permutation l1 l2 ->
  l1 = l2.
Proof.
  intros H1. revert l2. induction H1 as [| a l1 Hs IH Ha]; intros l2 H2 Hp.
  - now apply Permutation_nil in Hp.
  - destruct H2 as [| b l2 Hs2 Hb].
    + apply Permutation_sym, Permutation_nil in Hp. discriminate.
    + assert (E : a = b).
      { assert (Hab : In a (b :: l2))
          by (apply (Permutation_in _ Hp); now left).
        assert (Hba : In b (a :: l1))
          by (apply (Permutation_in _ (Permutation_sym Hp)); now left).
        rewrite Forall_forall in Ha, Hb.
        destruct Hab as [-> | Hab]; [reflexivity |].
        destruct Hba as [-> | Hba]; [reflexivity |].
        specialize (Ha _ Hba). specialize (Hb _ Hab). lia. }
      subst b. f_equal. apply IH; [exact Hs2 |].
      now apply Permutation_cons_inv in Hp.
Qed.

(** Two frames in timestamp order that hold the same rows are the same
    frame, when no timestamp repeats. *)
Lemma sorted_rows_unique (l1 l2 : list Row) :
  NoDup (map timestamp l1) ->
  StronglySorted Z.le (map timestamp l1) ->
  StronglySorted Z.le (map timestamp l2) ->
  Permutation l1 l2 -> l1 = l2.
Proof.
  revert l2. induction l1 as [| a l1 IH]; intros l2 Hnd H1 H2 Hp.
  - now apply Permutation_nil in Hp.
  - destruct l2 as [| b l2].
    + apply Permutation_sym, Permutation_nil in Hp. discriminate.
    + cbn [map] in *.
      inversion H1 as [| ? ? Hs1 Ha]; subst.
      inversion H2 as [| ? ? Hs2 Hb]; subst.
      inversion Hnd as [| ? ? Hnot Hnd']; subst.
      assert (E : a = b).
      { assert (Hab : In a (b :: l2))
          by (apply (Permutation_in _ Hp); now left).
        assert (Hba : In b (a :: l1))
          by (apply (Permutation_in _ (Permutation_sym Hp)); now left).
        rewrite Forall_forall in Ha, Hb.
        destruct Hab as [-> | Hab]; [reflexivity |].
        destruct Hba as [-> | Hba]; [reflexivity |].
        pose proof (Ha _ (in_map timestamp _ _ Hba)) as L1.
        pose proof (Hb _ (in_map timestamp _ _ Hab)) as L2.
        exfalso. apply Hnot.
        replace (timestamp a) with (timestamp b) by lia.
        now apply in_map. }
      subst b. f_equal. apply IH; trivial.
      now apply Permutation_cons_inv in Hp.
Qed.

Lemma combine_snd {A B} (a : list A) (b : list B) :
  length a = length b -> map snd (combine a b) = b.
Proof.
  revert b. induction a as [| x a IH]; intros [| y b] H; simpl in *;
    try discriminate; [reflexivity |].
  f_equal. apply IH. lia.
Qed.

Section Sorting.

Variable tie : list Row -> nat -> Z.

(** Sorting loses no row and adds none. *)
Lemma sort_values_perm (df : list Row) : Permutation (sort_values tie df) df.
Proof.
  unfold sort_values. cbv zeta.
  set (ranked := combine _ df).
  rewrite <- (combine_snd (map (tie df) (seq 0 (length df))) df)
    by now rewrite length_map, length_seq.
  fold ranked. apply Permutation_map.
  etransitivity; apply SqlFacts.order_by_perm.
Qed.

Lemma sort_values_sorted (df : list Row) :
  StronglySorted Z.le (map timestamp (sort_values tie df)).
Proof.
  unfold sort_values. cbv zeta. rewrite map_map.
  apply (SqlFacts.order_by_sorted (fun p : Z * Row => timestamp (snd p))).
Qed.

(** Whatever the order among rows of one timestamp, the timestamps come
    out as a stable sort leaves them. *)
Lemma sort_values_timestamps (df : list Row) :
  map timestamp (sort_values tie df)
  = map timestamp (Sql.order_by timestamp df).
Proof.
  apply sorted_unique.
  - apply sort_values_sorted.
  - apply SqlFacts.order_by_sorted.
  - apply Permutation_map. etransitivity; [apply sort_values_perm |].
    symmetry. apply SqlFacts.order_by_perm.
Qed.

Variable np_sqrt : Q -> Q.

(** The training matrix, row by row and column by column. *)
Lemma build_features_rows (df : list Row) :
  let out := build_features np_sqrt tie df in
  let X := fst out in
  let y := snd out in
  let ts := map timestamp (sort_values tie df) in
  let day := map Datetime.weekday ts in
  length X = length df
  /\ length y = length df
  /\ (forall i, (i < length df)%nat ->
        nth i X []
        = [inject_Z (nth i (map Datetime.hour ts) 0%Z);
           inject_Z (nth i day 0%Z);
           inject_Z (nth i (map Datetime.month ts) 0%Z);
           inject_Z (nth i (map (fun d => if (5 <=? d)%Z then 1%Z else 0%Z)
                                day) 0%Z);
           nth i (rolling_mean 24 y) 0;
           nth i (fillna 0 (rolling_std np_sqrt 24 y)) 0;
           nth i (fillna (Np.mean y) (shift 1 y)) 0;
           nth i (fillna (Np.mean y) (shift 24 y)) 0]).
Proof.
  cbv zeta. unfold build_features. cbv zeta. cbn [fst snd].
  assert (Hlen : length (sort_values tie df) = length df).
  { apply Permutation_length. apply sort_values_perm. }
  rewrite length_map, length_seq, length_map, Hlen.
  repeat split.
  intros i Hi. now rewrite nth_map_seq by exact Hi.
Qed.

End Sorting.

End PipelineFacts.

(** X4.  The training matrix has one row of 8 features per reading and a
    target per reading, and row [i] is exactly the vector the prediction
    service builds at inference for the timestamp of reading [i] from the
    rolling mean, rolling deviation and lags of that reading: the same
    features in the same order. *)
Theorem training_matches_inference_features
    (np_sqrt : Q -> Q) (tie : list Pipeline.Row -> nat -> Z)
    (df : list Pipeline.Row) :
  let out := Pipeline.build_features np_sqrt tie df in
  let X := fst out in
  let y := snd out in
  let ts := map Pipeline.timestamp (Sql.order_by Pipeline.timestamp df) in
  length X = length df
  /\ length y = length df
  /\ Forall (fun x => length x = 8%nat) X
  /\ (forall i, (i < length df)%nat ->
        nth i X []
        = PredictionService._build_features (nth i ts 0%Z)
            (nth i (Pipeline.rolling_mean 24 y) 0)
            (nth i (Pipeline.fillna 0 (Pipeline.rolling_std np_sqrt 24 y)) 0)
            (nth i (Pipeline.fillna (Np.mean y) (Pipeline.shift 1 y)) 0)
            (nth i (Pipeline.fillna (Np.mean y) (Pipeline.shift 24 y)) 0)).
Proof.
  destruct (PipelineFacts.build_features_rows tie np_sqrt df)
    as (HX & Hy & Hrow).
  cbv zeta in *.
  split; [exact HX |]. split; [exact Hy |]. split.
  - apply Forall_forall. intros x Hx.
    destruct (In_nth _ _ [] Hx) as (i & Hi & <-).
    rewrite HX in Hi. now rewrite (Hrow i Hi).
  - intros i Hi. rewrite (Hrow i Hi).
    rewrite <- (PipelineFacts.sort_values_timestamps tie df).
    unfold PredictionService._build_features. cbv zeta.
    assert (Hts : (i < length (map Pipeline.timestamp
                                   (Pipeline.sort_values tie df)))%nat).
    { rewrite length_map.
      rewrite (Permutation_length (PipelineFacts.sort_values_perm tie df)).
      exact Hi. }
    rewrite (PipelineFacts.nth_map_lt Datetime.hour _ i 0%Z) by exact Hts.
    rewrite (PipelineFacts.nth_map_lt Datetime.month _ i 0%Z) by exact Hts.
    rewrite (PipelineFacts.nth_map_lt _ (map Datetime.weekday _) i 0%Z)
      by (rewrite length_map; exact Hts).
    rewrite (PipelineFacts.nth_map_lt Datetime.weekday _ i 0%Z) by exact Hts.
    reflexivity.
Qed.

(** X5.  In the training matrix, the 1-hour lag of a reading is the target
    of the reading before it and the 24-hour lag the target 24 readings
    before it; where there is no such reading (the first one; the first
    24) the lag is the mean of the whole series. *)
Theorem training_lags
    (np_sqrt : Q -> Q) (tie : list Pipeline.Row -> nat -> Z)
    (df : list Pipeline.Row) (i : nat) :
  (i < length df)%nat ->
  let out := Pipeline.build_features np_sqrt tie df in
  let y := snd out in
  let row := nth i (fst out) [] in
  nth 6 row 0 = (if (i <? 1)%nat then Np.mean y else nth (i - 1) y 0)
  /\ nth 7 row 0 = (if (i <? 24)%nat then Np.mean y else nth (i - 24) y 0).
Proof.
  intros Hi out y row.
  destruct (PipelineFacts.build_features_rows tie np_sqrt df)
    as (_ & Hy & Hrow).
  cbv zeta in Hy, Hrow.
  unfold row, out. rewrite (Hrow i Hi). cbn [nth].
  fold out. fold y.
  split; apply PipelineFacts.shift_fillna_nth; unfold y, out; rewrite Hy;
    exact Hi.
Qed.

(** X5 at two readings: the second one lags the first by one place. *)
Lemma training_lags_two_readings :
  nth 6 (nth 1 (fst (Pipeline.build_features Reference.sqrt
                       (fun _ => Z.of_nat)
                       [Pipeline.mkRow 0%Z 1; Pipeline.mkRow 3600000000%Z 3]))
               []) 0
  = 1.
Proof.
  destruct (training_lags Reference.sqrt (fun _ => Z.of_nat)
              [Pipeline.mkRow 0%Z 1; Pipeline.mkRow 3600000000%Z 3] 1)
    as [H _]; [simpl; lia |].
  rewrite H. reflexivity.
Defined.

(** X6.  The rolling window of reading [i] holds the [min (i + 1) 24]
    targets that end with reading [i]; for the first reading the rolling
    deviation is 0 (a window of one has none) and the rolling mean is the
    reading itself. *)
Theorem training_rolling_window
    (np_sqrt : Q -> Q) (tie : list Pipeline.Row -> nat -> Z)
    (df : list Pipeline.Row) (i : nat) :
  (i < length df)%nat ->
  let out := Pipeline.build_features np_sqrt tie df in
  let y := snd out in
  let row := nth i (fst out) [] in
  let win := Pipeline.rolling_window 24 y i in
  nth 4 row 0 = Np.mean win
  /\ length win = Nat.min (S i) 24
  /\ (forall j, (j < length win)%nat ->
                nth j win 0 = nth (S i - length win + j) y 0)
  /\ nth 5 row 0
     = match Pipeline.sample_std np_sqrt win with
       | Some s => s
       | None => 0
       end
  /\ (i = 0%nat -> nth 5 row 0 = 0 /\ nth 4 row 0 == nth 0 y 0).
Proof.
  intros Hi out y row win.
  destruct (PipelineFacts.build_features_rows tie np_sqrt df)
    as (_ & Hy & Hrow).
  cbv zeta in Hy, Hrow. fold out in Hy, Hrow. fold y in Hy, Hrow.
  assert (Hiy : (i < length y)%nat) by now rewrite Hy.
  assert (Hlen : length win = Nat.min (S i) 24)
    by now apply PipelineFacts.rolling_window_length.
  assert (H4 : nth 4 row 0 = Np.mean win).
  { unfold row. rewrite (Hrow i Hi). cbn [nth].
    unfold Pipeline.rolling_mean. now rewrite PipelineFacts.nth_map_seq. }
  assert (H5 : nth 5 row 0
               = match Pipeline.sample_std np_sqrt win with
                 | Some s => s
                 | None => 0
                 end).
  { unfold row. rewrite (Hrow i Hi). cbn [nth].
    unfold Pipeline.fillna, Pipeline.rolling_std.
    rewrite (PipelineFacts.nth_map_lt _ _ i None)
      by now rewrite length_map, length_seq.
    now rewrite PipelineFacts.nth_map_seq. }
  split; [exact H4 |]. split; [exact Hlen |]. split; [| split; [exact H5 |]].
  - intros j Hj. rewrite Hlen in *.
    now apply PipelineFacts.rolling_window_nth.
  - intros ->. rewrite H5, H4.
    unfold win, Pipeline.rolling_window in *. cbn [Nat.sub skipn] in *.
    destruct y as [| v y']; [simpl in Hiy; lia |].
    cbn. split; [reflexivity |].
    unfold Np.mean, Np.sum. simpl. field.
Qed.

(** X6 at two readings: the second window holds both. *)
Lemma training_rolling_window_two_readings :
  length (Pipeline.rolling_window 24
            (snd (Pipeline.build_features Reference.sqrt (fun _ => Z.of_nat)
                    [Pipeline.mkRow 0%Z 1; Pipeline.mkRow 3600000000%Z 3])) 1)
  = 2%nat.
Proof.
  destruct (training_rolling_window Reference.sqrt (fun _ => Z.of_nat)
              [Pipeline.mkRow 0%Z 1; Pipeline.mkRow 3600000000%Z 3] 1)
    as (_ & H & _); [simpl; lia |].
  rewrite H. reflexivity.
Defined.

(** X7.  When no timestamp repeats, the training matrix and the targets
    do not depend on the order of the rows in the frame handed in: a
    frame holding the same rows in another order gives the same features
    and the same targets, whatever order the sort leaves equal
    timestamps in. *)
Theorem training_ignores_row_order
    (np_sqrt : Q -> Q) (tie tie' : list Pipeline.Row -> nat -> Z)
    (df df' : list Pipeline.Row) :
  NoDup (map Pipeline.timestamp df) ->
  Permutation df df' ->
  Pipeline.build_features np_sqrt tie' df'
  = Pipeline.build_features np_sqrt tie df
  /\ snd (Pipeline.build_features np_sqrt tie df)
     = map Pipeline.consumption_kwh (Sql.order_by Pipeline.timestamp df).
Proof.
  intros Hnd Hp.
  assert (Hsame : forall t (l : list Pipeline.Row),
             Permutation df l ->
             Pipeline.sort_values t l = Sql.order_by Pipeline.timestamp df).
  { intros t l Hl. apply PipelineFacts.sorted_rows_unique.
    - apply (Permutation_NoDup (l := map Pipeline.timestamp df)); [| exact Hnd].
      apply Permutation_map. symmetry.
      etransitivity; [apply PipelineFacts.sort_values_perm |].
      now symmetry.
    - apply PipelineFacts.sort_values_sorted.
    - apply SqlFacts.order_by_sorted.
    - etransitivity; [apply PipelineFacts.sort_values_perm |].
      etransitivity; [symmetry; exact Hl |].
      symmetry. apply SqlFacts.order_by_perm. }
  unfold Pipeline.build_features. cbv zeta.
  rewrite (Hsame tie' df' Hp), (Hsame tie df (Permutation_refl _)).
  split; reflexivity.
Qed.

(** X7 at two readings handed in latest first. *)
Lemma training_ignores_row_order_two_readings :
  snd (Pipeline.build_features Reference.sqrt (fun _ => Z.of_nat)
         [Pipeline.mkRow 3600000000%Z 3; Pipeline.mkRow 0%Z 1])
  = [1; 3].
Proof.
  destruct (training_ignores_row_order Reference.sqrt
              (fun _ => Z.of_nat) (fun _ => Z.of_nat)
              [Pipeline.mkRow 0%Z 1; Pipeline.mkRow 3600000000%Z 3]
              [Pipeline.mkRow 3600000000%Z 3; Pipeline.mkRow 0%Z 1])
    as [H1 H2].
  - repeat constructor; simpl; intuition discriminate.
  - apply perm_swap.
  - rewrite H1, H2. reflexivity.
Defined.

(** ** The command-line forecast *)

Module ScriptFacts.
Import PredictScript.

(** The script and the service build their steps alike. *)
Lemma steps_alike (horizon : string) (base : Datetime.t) :
  steps horizon base = PredictionService.steps horizon base.
Proof. reflexivity. Qed.

(** What the loop adds to the table, and what it leaves alone. *)
Lemma loop_rows (m : Predictor.t) (ts : list Datetime.t) (st : Loop) :
  let st' := fold_left (loop_body m) ts st in
  exists added,
    rows st' = rows st ++ added
    /\ map ts_of added = ts
    /\ Forall (fun r => 0 <= pred_of r) added
    /\ Forall (fun r => nth 5 (features_of r) 0 = rolling_std st
                        /\ nth 7 (features_of r) 0 = lag_24 st) added
    /\ map (fun r => nth 6 (features_of r) 0) added
       = firstn (length ts) (lag_1 st :: map pred_of added).
Proof.
  revert st. induction ts as [| t0 rest IH]; intros st; cbn [fold_left].
  - exists []. rewrite app_nil_r. repeat split; constructor.
  - destruct (IH (loop_body m st t0)) as (added & Hr & Hts & Hnn & Hfix & Hlag).
    cbv zeta. rewrite Hr. cbn [loop_body rows rolling_std lag_24 lag_1] in *.
    eexists (_ :: added). rewrite <- app_assoc. split; [reflexivity |].
    split; [cbn; now rewrite Hts |].
    split; [constructor; [apply PyFacts.max_lower | exact Hnn] |].
    split; [constructor; [split; reflexivity | exact Hfix] |].
    cbn [map length firstn features_of pred_of fst snd nth].
    f_equal. exact Hlag.
Qed.

Lemma on_the_hour_whole (now : Datetime.t) :
  (on_the_hour now mod Datetime.us_per_hour = 0)%Z
  /\ (on_the_hour now <= now < on_the_hour now + Datetime.us_per_hour)%Z.
Proof.
  unfold on_the_hour, Datetime.us_per_hour.
  pose proof (Z.mod_pos_bound now 3600000000 ltac:(lia)).
  split; [| lia].
  rewrite Zminus_mod, Zmod_mod, Z.sub_diag. reflexivity.
Qed.

Lemma steps_whole (horizon : string) (base : Datetime.t) :
  (base mod Datetime.us_per_hour = 0)%Z ->
  Forall (fun ts => (ts mod Datetime.us_per_hour = 0)%Z) (steps horizon base).
Proof.
  intros Hb.
  assert (H : forall l,
             Forall (fun ts => (ts mod Datetime.us_per_hour = 0)%Z)
                    (map (fun i => Datetime.add base (Datetime.timedelta_hours i)) l)).
  { intros l. apply Forall_map. apply Forall_forall. intros i _.
    unfold Datetime.add, Datetime.timedelta_hours.
    rewrite Z.add_mod, Z.mod_mul, Hb by (unfold Datetime.us_per_hour; lia).
    reflexivity. }
  unfold steps.
  destruct (String.eqb horizon "next_hour");
    [| destruct (String.eqb horizon "next_day")].
  - apply (H [1%Z]).
  - apply H.
  - apply H.
Qed.

End ScriptFacts.

(** X8.  Without a trained model the script prints no forecast, whatever
    the data; with a model and an empty consumption series it stops on the
    [IndexError] of [values[-1]]; with a model and a non-empty series (the
    data file's, or the 48 values of 2.5 it falls back to when there is no
    data file) it prints one row per step of the horizon - 1, 24 or 42
    rows - each stamped on a whole hour after the current hour, with a
    value that is never negative. *)
Theorem script_table
    (np_sqrt : Q -> Q) (m : Predictor.t) (now : Datetime.t) (horizon : string) :
  (forall data,
      PredictScript.predict np_sqrt None data now horizon
      = PredictScript.NotTrained)
  /\ PredictScript.predict np_sqrt (Some m) (Some []) now horizon
     = PredictScript.IndexError
  /\ (forall data,
        data <> Some [] ->
        exists rows,
          PredictScript.predict np_sqrt (Some m) data now horizon
          = PredictScript.Printed rows
          /\ map PredictScript.ts_of rows
             = PredictScript.steps horizon (PredictScript.on_the_hour now)
          /\ Forall (fun r => (now < PredictScript.ts_of r)%Z
                              /\ (PredictScript.ts_of r
                                    mod Datetime.us_per_hour = 0)%Z) rows
          /\ Forall (fun r => 0 <= PredictScript.pred_of r) rows
          /\ length rows
             = (if String.eqb horizon "next_hour" then 1
                else if String.eqb horizon "next_day" then 24 else 42)%nat).
Proof.
  split; [reflexivity |]. split; [reflexivity |].
  intros data Hdata. unfold PredictScript.predict.
  set (values := match data with Some c => c | None => repeat (25 # 10) 48 end).
  assert (Hv : values <> []).
  { unfold values. destruct data as [c |]; [congruence | discriminate]. }
  destruct values as [| v0 vs] eqn:Ev; [congruence |]. rewrite <- Ev.
  cbv zeta.
  set (st0 := PredictScript.mkLoop _ _ _ _ _).
  destruct (ScriptFacts.loop_rows m
              (PredictScript.steps horizon (PredictScript.on_the_hour now)) st0)
    as (added & Hr & Hts & Hnn & _ & _).
  cbv zeta in Hr. exists added.
  change (PredictScript.rows st0) with (@nil (Datetime.t * list Q * Q)) in Hr.
  rewrite Hr. split; [reflexivity |]. split; [exact Hts |].
  destruct (ScriptFacts.on_the_hour_whole now) as [Hwhole Hnear].
  split; [| split; [exact Hnn |]].
  - pose proof (ScriptFacts.steps_whole horizon _ Hwhole) as Hw.
    rewrite <- Hts in Hw. rewrite Forall_map in Hw.
    assert (Hafter : Forall (fun ts => (now < ts)%Z)
                       (PredictScript.steps horizon (PredictScript.on_the_hour now))).
    { assert (Hpos : forall l, Forall (fun i => (1 <= i)%Z) l ->
                Forall (fun ts => (now < ts)%Z)
                  (map (fun i => Datetime.add (PredictScript.on_the_hour now)
                                   (Datetime.timedelta_hours i)) l)).
      { intros l Hl. apply Forall_map. eapply Forall_impl; [| exact Hl].
        simpl. unfold Datetime.add, Datetime.timedelta_hours,
          Datetime.us_per_hour in *. intros; nia. }
      unfold PredictScript.steps.
      destruct (String.eqb horizon "next_hour");
        [| destruct (String.eqb horizon "next_day")].
      - apply (Hpos [1%Z]). repeat constructor. lia.
      - apply Hpos. apply StepsFacts.range_from_lower. lia.
      - apply Hpos. apply StepsFacts.range_from_lower. lia. }
    rewrite <- Hts in Hafter. rewrite Forall_map in Hafter.
    apply Forall_forall. intros r Hr'.
    rewrite Forall_forall in Hw, Hafter. split; [now apply Hafter | now apply Hw].
  - rewrite <- (length_map PredictScript.ts_of added), Hts.
    unfold PredictScript.steps.
    destruct (String.eqb horizon "next_hour");
      [| destruct (String.eqb horizon "next_day")];
      rewrite ?length_map; reflexivity.
Qed.

(** X9.  Across the printed rows the script hands the model the same
    rolling deviation and the same 24-hour lag at every step, those
    computed from the data before the loop; the 1-hour lag of the first
    row is the last value of the data and, from then on, the value printed
    in the row before. *)
Theorem script_lags
    (np_sqrt : Q -> Q) (m : Predictor.t) (now : Datetime.t) (horizon : string)
    (values : list Q) (rows : list (Datetime.t * list Q * Q)) :
  PredictScript.predict np_sqrt (Some m) (Some values) now horizon
  = PredictScript.Printed rows ->
  let tail := Py.lastn (Nat.min 24 (length values)) values in
  let lag_24 :=
    if (24 <=? length values)%nat
    then nth (length values - 24) values 0
    else last values 0 in
  Forall (fun r =>
            nth 5 (PredictScript.features_of r) 0
            = Py.or (Np.std np_sqrt tail) (5 # 10)
            /\ nth 7 (PredictScript.features_of r) 0 = lag_24) rows
  /\ map (fun r => nth 6 (PredictScript.features_of r) 0) rows
     = firstn (length rows)
              (last values 0 :: map PredictScript.pred_of rows).
Proof.
  unfold PredictScript.predict.
  destruct values as [| v0 vs] eqn:Ev; [discriminate |]. rewrite <- Ev.
  cbv zeta. set (st0 := PredictScript.mkLoop _ _ _ _ _).
  destruct (ScriptFacts.loop_rows m
              (PredictScript.steps horizon (PredictScript.on_the_hour now)) st0)
    as (added & Hr & Hts & _ & Hfix & Hlag).
  cbv zeta in Hr.
  change (PredictScript.rows st0) with (@nil (Datetime.t * list Q * Q)) in Hr.
  rewrite Hr. cbn [app]. intros [= <-].
  split; [exact Hfix |].
  rewrite Hlag. f_equal.
  now rewrite <- Hts, length_map.
Qed.

(** X9 at a two-value series and the horizon "next_day". *)
Lemma script_lags_two_values :
  forallb (fun r => Qeq_bool (nth 7 (PredictScript.features_of r) 0) 3)
          match PredictScript.predict Reference.sqrt
                  (Some Reference.plain_model) (Some [1; 3]) 0%Z "next_day" with
          | PredictScript.Printed rows => rows
          | _ => []
          end
  = true.
Proof.
  destruct (PredictScript.predict Reference.sqrt (Some Reference.plain_model)
              (Some [1; 3]) 0%Z "next_day") as [| | rows] eqn:E;
    try reflexivity.
  destruct (script_lags Reference.sqrt Reference.plain_model 0%Z "next_day"
              [1; 3] rows E) as [H _].
  cbv zeta in H. apply forallb_forall. intros r Hr.
  rewrite Forall_forall in H. destruct (H r Hr) as [_ H7]. rewrite H7.
  reflexivity.
Defined.

(** ** The analysis: usage figures, peak hours, recommendations *)

Module AnalysisFacts.
Import EnergyService.

(** The grouped means: one row per key present, in key order, each what
    [groupby(...).mean()] makes of the consumption of the readings with
    that key. *)
Lemma group_mean_spec (groupby_mean : list Q -> Q)
    (key : EnergyData.t -> Z) (rows : list EnergyData.t) :
  let series := group_mean groupby_mean key rows in
  StronglySorted Z.lt (map fst series)
  /\ (forall k, In k (map fst series) <-> In k (map key rows))
  /\ Forall (fun p =>
               snd p
               = groupby_mean
                   (map EnergyData.consumption_kwh
                        (filter (fun d => (key d =? fst p)%Z) rows)))
            series.
Proof.
  unfold group_mean. cbv zeta.
  destruct (EnergyFacts.groupby_spec key rows) as (S1 & S2 & S3).
  cbv zeta in S1, S2, S3.
  rewrite EnergyFacts.reduced_keys.
  split; [exact S1 |]. split; [exact S2 |].
  apply Forall_map. eapply Forall_impl; [| exact S3].
  intros g Hg. cbn [fst snd]. now rewrite Hg.
Qed.

Section Ordered.

Variable before : Z * Q -> Z * Q -> bool.
Hypothesis before_total : forall a b, before a b = false -> before b a = true.
Hypothesis before_trans :
  forall a b c, before a b = true -> before b c = true -> before a c = true.

Let sort := fold_right (insert_by before) [].

Lemma insert_by_perm (r : Z * Q) (l : list (Z * Q)) :
  Permutation (insert_by before r l) (r :: l).
Proof.
  induction l as [| x l IH]; simpl; [reflexivity |].
  destruct (before r x); [reflexivity |].
  rewrite IH. apply perm_swap.
Qed.

Lemma sort_perm (l : list (Z * Q)) : Permutation (sort l) l.
Proof.
  induction l as [| x l IH]; simpl; [reflexivity |].
  rewrite insert_by_perm. now constructor.
Qed.

Lemma insert_by_sorted (r : Z * Q) (l : list (Z * Q)) :
  StronglySorted (fun a b => before a b = true) l ->
  StronglySorted (fun a b => before a b = true) (insert_by before r l).
Proof.
  induction l as [| x l IH]; simpl; intros H.
  - repeat constructor.
  - inversion H as [| ? ? Hs Hall]; subst.
    destruct (before r x) eqn:E.
    + constructor; [exact H |]. constructor; [exact E |].
      eapply Forall_impl; [| exact Hall]. simpl. intros c Hc.
      now apply (before_trans r x c).
    + constructor; [now apply IH |].
      apply Forall_forall. intros c Hc.
      apply (Permutation_in _ (insert_by_perm r l)) in Hc.
      destruct Hc as [<- | Hc]; [now apply before_total |].
      rewrite Forall_forall in Hall. now apply Hall.
Qed.

Lemma sort_sorted (l : list (Z * Q)) :
  StronglySorted (fun a b => before a b = true) (sort l).
Proof.
  induction l as [| x l IH]; simpl; [constructor | now apply insert_by_sorted].
Qed.

(** Whatever is taken first may stand before whatever is left. *)
Lemma taken_before_left (n : nat) (l : list (Z * Q)) (a b : Z * Q) :
  StronglySorted (fun a b => before a b = true) l ->
  In a (firstn n l) -> In b (skipn n l) -> before a b = true.
Proof.
  revert n. induction l as [| x l IH]; intros [| n] H Ha Hb; simpl in *;
    try contradiction.
  inversion H as [| ? ? Hs Hall]; subst.
  destruct Ha as [<- | Ha].
  - rewrite Forall_forall in Hall. apply Hall.
    rewrite <- (firstn_skipn n l). apply in_or_app. now right.
  - now apply (IH n).
Qed.

End Ordered.

Lemma largest_first_total (a b : Z * Q) :
  largest_first a b = false -> largest_first b a = true.
Proof.
  unfold largest_first. intros H. apply Qle_bool_iff.
  destruct (Qlt_le_dec (snd a) (snd b)) as [L | L].
  - now apply Qlt_le_weak.
  - apply Qle_bool_iff in L. congruence.
Qed.

Lemma largest_first_trans (a b c : Z * Q) :
  largest_first a b = true -> largest_first b c = true ->
  largest_first a c = true.
Proof.
  unfold largest_first. rewrite !Qle_bool_iff. intros H1 H2.
  now apply (Qle_trans _ (snd b)).
Qed.

Lemma smallest_first_total (a b : Z * Q) :
  smallest_first a b = false -> smallest_first b a = true.
Proof.
  unfold smallest_first. intros H. apply Qle_bool_iff.
  destruct (Qlt_le_dec (snd b) (snd a)) as [L | L].
  - now apply Qlt_le_weak.
  - apply Qle_bool_iff in L. congruence.
Qed.

Lemma smallest_first_trans (a b c : Z * Q) :
  smallest_first a b = true -> smallest_first b c = true ->
  smallest_first a c = true.
Proof.
  unfold smallest_first. rewrite !Qle_bool_iff. intros H1 H2.
  now apply (Qle_trans _ (snd b)).
Qed.

(** The [n] rows selected from a series with distinct keys: as many as
    asked for when the series has them, each a row of the series, no key
    twice, and each one allowed to stand before every row not selected. *)
Lemma selected (before : Z * Q -> Z * Q -> bool) (n : nat)
    (series : list (Z * Q)) :
  (forall a b, before a b = false -> before b a = true) ->
  (forall a b c, before a b = true -> before b c = true -> before a c = true) ->
  NoDup (map fst series) ->
  let chosen := map fst (firstn n (fold_right (insert_by before) [] series)) in
  length chosen = Nat.min n (length series)
  /\ NoDup chosen
  /\ incl chosen (map fst series)
  /\ (forall a b, In a series -> In b series ->
                  In (fst a) chosen -> ~ In (fst b) chosen ->
                  before a b = true).
Proof.
  intros Htot Htrans Hnd. cbv zeta.
  set (sorted := fold_right (insert_by before) [] series).
  pose proof (sort_perm before series) as Hperm. fold sorted in Hperm.
  pose proof (sort_sorted before Htot Htrans series) as Hsorted.
  fold sorted in Hsorted.
  assert (Hnd' : NoDup (map fst sorted)).
  { eapply Permutation_NoDup; [| exact Hnd].
    apply Permutation_map. now symmetry. }
  assert (Hsplit : map fst sorted
                   = map fst (firstn n sorted) ++ map fst (skipn n sorted)).
  { now rewrite <- map_app, firstn_skipn. }
  rewrite Hsplit in Hnd'.
  split; [| split; [| split]].
  - rewrite length_map, length_firstn, (Permutation_length Hperm). reflexivity.
  - now apply NoDup_app_remove_r in Hnd'.
  - intros k Hk. apply in_map_iff in Hk. destruct Hk as (p & <- & Hp).
    apply in_map. apply (Permutation_in _ Hperm).
    now apply (SqlFacts.firstn_in n).
  - intros a b Ha Hb Hin Hout.
    apply (taken_before_left before n sorted a b Hsorted).
    + apply (Permutation_in _ (Permutation_sym Hperm)) in Ha.
      rewrite <- (firstn_skipn n sorted) in Ha.
      apply in_app_or in Ha. destruct Ha as [Ha | Ha]; [exact Ha |].
      exfalso. apply in_map_iff in Hin. destruct Hin as (a' & Heq & Ha').
      assert (H1 : In (fst a) (map fst (firstn n sorted)))
        by (rewrite <- Heq; now apply in_map).
      assert (H2 : In (fst a) (map fst (skipn n sorted))) by now apply in_map.
      clear - Hnd' H1 H2.
      induction (map fst (firstn n sorted)) as [| k l IH]; [contradiction |].
      simpl in Hnd'. inversion Hnd' as [| ? ? Hk Hrest]; subst.
      destruct H1 as [-> | H1]; [| now apply IH].
      apply Hk. apply in_or_app. now right.
    + apply (Permutation_in _ (Permutation_sym Hperm)) in Hb.
      rewrite <- (firstn_skipn n sorted) in Hb.
      apply in_app_or in Hb. destruct Hb as [Hb | Hb]; [| exact Hb].
      exfalso. apply Hout. now apply in_map.
Qed.

End AnalysisFacts.

Module UsageFacts.

Lemma round_half_even_mono (x y : Q) :
  x <= y -> (Py.round_half_even x <= Py.round_half_even y)%Z.
Proof.
  intros H. pose proof (Qfloor_resp_le _ _ H) as Hf.
  destruct (Z.eq_dec (Qfloor x) (Qfloor y)) as [E | E].
  - unfold Py.round_half_even. rewrite E.
    assert (Hfrac : x - inject_Z (Qfloor y) <= y - inject_Z (Qfloor y)).
    { unfold Qminus. now apply Qplus_le_l. }
    destruct (Qcompare_spec (x - inject_Z (Qfloor y)) (1 # 2));
      destruct (Qcompare_spec (y - inject_Z (Qfloor y)) (1 # 2));
      try destruct (Z.even (Qfloor y)); try lia; exfalso; lra.
  - pose proof (PyFacts.round_half_even_lower y).
    assert (Py.round_half_even x <= Qfloor x + 1)%Z.
    { unfold Py.round_half_even.
      destruct (Qcompare _ _); try destruct (Z.even _); lia. }
    lia.
Qed.

(** Rounding to a number of decimals keeps order. *)
Lemma round_mono (x y : Q) (n : nat) :
  x <= y -> Py.round x n <= Py.round y n.
Proof.
  intros H. unfold Py.round. cbv zeta.
  pose proof (PyFacts.pow10_pos n) as Hp.
  apply Qmult_le_compat_r.
  - rewrite <- Zle_Qle. apply round_half_even_mono.
    apply Qmult_le_compat_r; [exact H | now apply Qlt_le_weak].
  - apply Qlt_le_weak. now apply Qinv_lt_0_compat.
Qed.

Lemma sum_nonneg (l : list Q) : Forall (fun x => 0 <= x) l -> 0 <= Np.sum l.
Proof.
  induction 1 as [| x l Hx _ IH]; [discriminate |].
  rewrite EnergyFacts.sum_cons.
  replace 0 with (0 + 0) by reflexivity. now apply Qplus_le_compat.
Qed.

End UsageFacts.

(** X10.  When no stored reading is negative, the usage figures of the
    analysis are ordered: 0 <= daily <= weekly <= monthly <= yearly. *)
Theorem usage_projections_ordered
    (groupby_sum groupby_mean series_mean : list Q -> Q) (db : Session) :
  Forall (fun d => 0 <= EnergyData.consumption_kwh d)
         (EnergyRepository.get_all db 10000%Z) ->
  let r :=
    EnergyService.get_analysis groupby_sum groupby_mean series_mean db in
  0 <= AnalysisResponse.daily_usage r
  /\ AnalysisResponse.daily_usage r <= AnalysisResponse.weekly_usage r
  /\ AnalysisResponse.weekly_usage r <= AnalysisResponse.monthly_usage r
  /\ AnalysisResponse.monthly_usage r <= AnalysisResponse.yearly_usage r.
Proof.
  intros Hnn. unfold EnergyService.get_analysis.
  destruct (EnergyRepository.get_all db 10000%Z) as [| d rest] eqn:E.
  - cbn. repeat split; discriminate.
  - cbv zeta.
    cbn [AnalysisResponse.daily_usage AnalysisResponse.weekly_usage
         AnalysisResponse.monthly_usage AnalysisResponse.yearly_usage].
    set (days := inject_Z (Z.of_nat (Nat.max _ 1))).
    set (daily := Np.sum _ / days).
    assert (Hdays : 0 < days).
    { unfold days. replace 0 with (inject_Z 0) by reflexivity.
      rewrite <- Zlt_Qlt. lia. }
    assert (Hdaily : 0 <= daily).
    { unfold daily. apply Qle_shift_div_l; [exact Hdays |].
      rewrite Qmult_0_l. apply UsageFacts.sum_nonneg.
      apply Forall_map. exact Hnn. }
    assert (Hscale : forall a b : Q, a <= b -> daily * a <= daily * b).
    { intros a b Hab. rewrite !(Qmult_comm daily).
      now apply Qmult_le_compat_r. }
    repeat split.
    + now apply PyFacts.round_nonneg.
    + apply UsageFacts.round_mono.
      rewrite <- (Qmult_1_r daily) at 1. apply Hscale. discriminate.
    + apply UsageFacts.round_mono. apply Hscale. discriminate.
    + apply UsageFacts.round_mono. apply Hscale. discriminate.
Qed.

(** X10 at three days of readings 1.0, 1.0 and 2.0. *)
Lemma usage_projections_ordered_three_days :
  let r := EnergyService.get_analysis Reference.sum Reference.mean
             Reference.mean Reference.three_days in
  AnalysisResponse.daily_usage r <= AnalysisResponse.weekly_usage r.
Proof.
  destruct (usage_projections_ordered Reference.sum Reference.mean
              Reference.mean Reference.three_days) as (_ & H & _).
  - repeat constructor; discriminate.
  - exact H.
Defined.

(** X11.  For a non-empty result set, the hourly profile has one mean per
    stored hour value, in hour order, each the mean consumption of the
    readings of that hour.  The peak hours are the hours of min(3, number
    of hours) rows of the profile, without repetition, and no hour left
    out has a higher mean than a peak hour; the low-usage hours likewise,
    and no hour left out has a lower mean than a low-usage hour. *)
Theorem peak_and_low_hours
    (groupby_sum groupby_mean series_mean : list Q -> Q)
    (db : Session) (d : EnergyData.t) (rest : list EnergyData.t) :
  EnergyRepository.get_all db 10000%Z = d :: rest ->
  let r :=
    EnergyService.get_analysis groupby_sum groupby_mean series_mean db in
  let hourly :=
    EnergyService.group_mean groupby_mean EnergyData.hour (d :: rest) in
  let peak := AnalysisResponse.peak_hours r in
  let low := AnalysisResponse.low_usage_hours r in
  (StronglySorted Z.lt (map fst hourly)
   /\ (forall h, In h (map fst hourly)
                 <-> In h (map EnergyData.hour (d :: rest)))
   /\ Forall (fun p =>
                snd p
                = groupby_mean
                     (map EnergyData.consumption_kwh
                          (filter (fun x => (EnergyData.hour x =? fst p)%Z)
                                  (d :: rest))))
             hourly)
  /\ (length peak = Nat.min 3 (length hourly)
      /\ (1 <= length peak)%nat
      /\ NoDup peak
      /\ incl peak (map fst hourly)
      /\ (forall a b, In a hourly -> In b hourly ->
                      In (fst a) peak -> ~ In (fst b) peak -> snd b <= snd a))
  /\ (length low = Nat.min 3 (length hourly)
      /\ NoDup low
      /\ incl low (map fst hourly)
      /\ (forall a b, In a hourly -> In b hourly ->
                      In (fst a) low -> ~ In (fst b) low -> snd a <= snd b)).
Proof.
  intros E r hourly peak low.
  destruct (AnalysisFacts.group_mean_spec groupby_mean EnergyData.hour
              (d :: rest))
    as (S1 & S2 & S3).
  fold hourly in S1, S2, S3.
  assert (Hnd : NoDup (map fst hourly)) by now apply EnergyFacts.sorted_keys_nodup.
  assert (Hne : (1 <= length hourly)%nat).
  { rewrite <- (length_map fst hourly).
    assert (Hin : In (EnergyData.hour d) (map fst hourly))
      by (apply S2; now left).
    destruct (map fst hourly); [contradiction | simpl; lia]. }
  assert (Hpeak : peak = EnergyService.nlargest 3 hourly).
  { unfold peak, r, EnergyService.get_analysis. rewrite E. reflexivity. }
  assert (Hlow : low = EnergyService.nsmallest 3 hourly).
  { unfold low, r, EnergyService.get_analysis. rewrite E. reflexivity. }
  destruct (AnalysisFacts.selected EnergyService.largest_first 3 hourly
              AnalysisFacts.largest_first_total
              AnalysisFacts.largest_first_trans Hnd) as (P1 & P2 & P3 & P4).
  destruct (AnalysisFacts.selected EnergyService.smallest_first 3 hourly
              AnalysisFacts.smallest_first_total
              AnalysisFacts.smallest_first_trans Hnd) as (L1 & L2 & L3 & L4).
  fold (EnergyService.nlargest 3 hourly) in P1, P2, P3, P4.
  fold (EnergyService.nsmallest 3 hourly) in L1, L2, L3, L4.
  rewrite <- Hpeak in P1, P2, P3, P4. rewrite <- Hlow in L1, L2, L3, L4.
  split; [split; [exact S1 | split; [exact S2 | exact S3]] |]. split.
  - split; [exact P1 |]. split; [lia |]. split; [exact P2 |].
    split; [exact P3 |].
    intros a b Ha Hb Hin Hout. apply Qle_bool_iff.
    exact (P4 a b Ha Hb Hin Hout).
  - split; [exact L1 |]. split; [exact L2 |]. split; [exact L3 |].
    intros a b Ha Hb Hin Hout. apply Qle_bool_iff.
    exact (L4 a b Ha Hb Hin Hout).
Qed.

(** X11 at three days of readings, all in hour 0. *)
Lemma peak_and_low_hours_three_days :
  AnalysisResponse.peak_hours
    (EnergyService.get_analysis Reference.sum Reference.mean Reference.mean
       Reference.three_days)
  = [0%Z].
Proof.
  destruct (peak_and_low_hours Reference.sum Reference.mean Reference.mean
              Reference.three_days
              (EnergyData.mk 0%Z 1 0%Z 3%Z 1%Z false)
              [EnergyData.mk 86400000000%Z 1 0%Z 4%Z 1%Z false;
               EnergyData.mk 172800000000%Z 2 0%Z 5%Z 1%Z true] eq_refl)
    as (_ & (H & _) & _).
  cbv zeta in H.
  destruct (AnalysisResponse.peak_hours
              (EnergyService.get_analysis Reference.sum Reference.mean
                 Reference.mean Reference.three_days))
    as [| h [| h' l]] eqn:Ep; try discriminate H.
  vm_compute in Ep. exact (eq_sym Ep).
Defined.

(** X12.  For a non-empty result set the recommendations are, in order:
    the peak-hours notice naming the peak hours returned; the weekend
    notice, present exactly when the weekend mean exceeds the weekday mean
    times 1.1; the unevenness notice, present exactly when the highest
    hourly mean exceeds the mean of the hourly means times 2; the notice
    naming the month with the highest mean; and the two fixed tips - so
    between 4 and 6 entries, always ending with the two tips.  The means
    are those pandas computes, the two products are products of doubles. *)
Theorem recommendations_shape
    (groupby_sum groupby_mean series_mean : list Q -> Q)
    (db : Session) (d : EnergyData.t) (rest : list EnergyData.t) :
  EnergyRepository.get_all db 10000%Z = d :: rest ->
  let r :=
    EnergyService.get_analysis groupby_sum groupby_mean series_mean db in
  let recs := AnalysisResponse.recommendations r in
  let hourly :=
    EnergyService.group_mean groupby_mean EnergyData.hour (d :: rest) in
  let monthly :=
    EnergyService.group_mean groupby_mean EnergyData.month (d :: rest) in
  let peak_notice :=
    ("⚡ High usage detected at "
     ++ String.concat ", "
          (map (fun h => EnergyService.str h ++ ":00")
               (AnalysisResponse.peak_hours r))
     ++ ". Shift heavy loads to off-peak hours.")%string in
  let weekend_notice :=
    "🏠 Weekend usage is significantly higher. Review home appliance usage on weekends."%string in
  let uneven_notice :=
    "📊 Energy usage is uneven across hours. Consider spreading load more evenly."%string in
  let month_notice :=
    ("📅 Month " ++ EnergyService.str (fst (EnergyService.series_max monthly))
     ++ " has the highest consumption. Check heating/cooling systems.")%string in
  let tips :=
    ["💡 Consider switching to LED lighting and smart power strips to reduce standby power."%string;
     "🔋 Installing a smart meter can help track real-time consumption and reduce waste."%string] in
  let avg_weekday := EnergyService.avg_where series_mean false (d :: rest) in
  let avg_weekend := EnergyService.avg_where series_mean true (d :: rest) in
  let weekend := Py.Qlt_bool (Float.mul avg_weekday (11 # 10)) avg_weekend in
  let uneven :=
    Py.Qlt_bool (Float.mul (series_mean (map snd hourly)) 2)
                (snd (EnergyService.series_max hourly)) in
  recs
  = [peak_notice]
    ++ (if weekend then [weekend_notice] else [])
    ++ (if uneven then [uneven_notice] else [])
    ++ [month_notice] ++ tips
  /\ (4 <= length recs <= 6)%nat
  /\ skipn (length recs - 2) recs = tips
  /\ (weekend = true <-> Float.mul avg_weekday (11 # 10) < avg_weekend)
  /\ (uneven = true
      <-> Float.mul (series_mean (map snd hourly)) 2
          < snd (EnergyService.series_max hourly)).
Proof.
  intros E r recs hourly monthly peak_notice weekend_notice uneven_notice
    month_notice tips avg_weekday avg_weekend weekend uneven.
  destruct (AnalysisFacts.group_mean_spec groupby_mean EnergyData.hour
              (d :: rest)) as (H1 & H2 & _).
  fold hourly in H1, H2.
  assert (Hne : (1 <= length hourly)%nat).
  { rewrite <- (length_map fst hourly).
    assert (Hin : In (EnergyData.hour d) (map fst hourly))
      by (apply H2; now left).
    destruct (map fst hourly); [contradiction | simpl; lia]. }
  destruct (AnalysisFacts.selected EnergyService.largest_first 3 hourly
              AnalysisFacts.largest_first_total
              AnalysisFacts.largest_first_trans
              (EnergyFacts.sorted_keys_nodup _ H1)) as (P1 & _).
  fold (EnergyService.nlargest 3 hourly) in P1.
  assert (Hp : AnalysisResponse.peak_hours r
               = EnergyService.nlargest 3 hourly).
  { unfold r, EnergyService.get_analysis. rewrite E. reflexivity. }
  destruct (AnalysisFacts.group_mean_spec groupby_mean EnergyData.month
              (d :: rest)) as (_ & M2 & _).
  fold monthly in M2.
  assert (Hm : monthly <> []).
  { intros Hnil. rewrite Hnil in M2.
    apply (proj2 (M2 (EnergyData.month d))). now left. }
  assert (Hrecs : recs
                  = EnergyService._generate_recommendations
                      groupby_mean series_mean
                      (AnalysisResponse.peak_hours r) hourly (d :: rest)).
  { unfold recs, r, EnergyService.get_analysis. rewrite E. reflexivity. }
  assert (Heq : recs
                = [peak_notice]
                  ++ (if weekend then [weekend_notice] else [])
                  ++ (if uneven then [uneven_notice] else [])
                  ++ [month_notice] ++ tips).
  { rewrite Hrecs. unfold EnergyService._generate_recommendations. cbv zeta.
    fold monthly. fold avg_weekday. fold avg_weekend.
    fold weekend. fold uneven.
    unfold peak_notice.
    destruct (AnalysisResponse.peak_hours r) as [| h t];
      [rewrite <- Hp in P1; cbn [length] in P1; lia |].
    destruct monthly as [| m0 ms]; [congruence |].
    fold month_notice. destruct weekend, uneven; reflexivity. }
  split; [exact Heq |].
  assert (Hshape : (4 <= length recs <= 6)%nat
                   /\ skipn (length recs - 2) recs = tips).
  { rewrite Heq. destruct weekend, uneven; repeat split; cbn; lia. }
  destruct Hshape as [Hlen Htips].
  split; [exact Hlen |]. split; [exact Htips |].
  split; apply PyFacts.Qlt_bool_iff.
Qed.

(** X12 at three days of readings in hour 0 of month 1. *)
Lemma recommendations_shape_three_days :
  length (AnalysisResponse.recommendations
            (EnergyService.get_analysis Reference.sum Reference.mean
               Reference.mean Reference.three_days))
  = 5%nat.
Proof.
  destruct (recommendations_shape Reference.sum Reference.mean Reference.mean
              Reference.three_days
              (EnergyData.mk 0%Z 1 0%Z 3%Z 1%Z false)
              [EnergyData.mk 86400000000%Z 1 0%Z 4%Z 1%Z false;
               EnergyData.mk 172800000000%Z 2 0%Z 5%Z 1%Z true] eq_refl)
    as (H & _).
  cbv zeta in H. rewrite H. vm_compute. reflexivity.
Defined.

(** ** Uploading a CSV file *)

Module UploadFacts.
Import EnergyService.

Lemma drop_duplicates_spec {C} (seen : list Z) (l : list (Z * C)) :
  NoDup (map fst (drop_duplicates seen l))
  /\ (forall r, In r (drop_duplicates seen l) -> In r l /\ ~ In (fst r) seen).
Proof.
  revert seen. induction l as [| r l IH]; intros seen; simpl.
  - split; [constructor | contradiction].
  - destruct (existsb (Z.eqb (fst r)) seen) eqn:E.
    + destruct (IH seen) as [H1 H2]. split; [exact H1 |].
      intros x Hx. destruct (H2 x Hx). now split; [right |].
    + destruct (IH (fst r :: seen)) as [H1 H2]. split.
      * simpl. constructor; [| exact H1].
        intros Hin. apply in_map_iff in Hin. destruct Hin as (x & Hfx & Hx).
        destruct (H2 x Hx) as [_ Hns]. apply Hns. left. now symmetry.
      * intros x [<- | Hx].
        -- split; [now left |]. intros Hin.
           assert (T : existsb (Z.eqb (fst r)) seen = true).
           { apply existsb_exists. exists (fst r). split; [exact Hin |].
             apply Z.eqb_refl. }
           congruence.
        -- destruct (H2 x Hx) as [Hl Hns]. split; [now right |].
           intros Hin. apply Hns. now right.
Qed.

Lemma combine_keys_nodup {B} (a : list Z) (b : list B) :
  NoDup a -> NoDup (map fst (combine a b)).
Proof.
  revert b. induction a as [| x a IH]; intros b H; [constructor |].
  destruct b as [| y b]; [constructor |]. simpl.
  inversion H as [| ? ? Hx Ha]; subst. constructor; [| now apply IH].
  intros Hin. apply Hx. apply in_map_iff in Hin.
  destruct Hin as ([k v] & <- & Hkv). now apply in_combine_l in Hkv.
Qed.

(** Keeping the rows that have a non-negative value. *)
Lemma valued_spec (l : list (Z * option Q)) :
  let valued :=
    fold_right (fun r acc => match snd r with
                             | Some x => if Qle_bool 0 x then (fst r, x) :: acc
                                         else acc
                             | None => acc
                             end) [] l in
  (NoDup (map fst l) -> NoDup (map fst valued))
  /\ (forall t x, In (t, x) valued <-> In (t, Some x) l /\ 0 <= x)
  /\ (length valued <= length l)%nat.
Proof.
  cbv zeta. induction l as [| [t o] l (IH1 & IH2 & IH3)]; simpl.
  - split; [trivial |]. split; [| lia]. intros t x. intuition.
  - assert (Hkeys : forall k x, In (k, x)
                      (fold_right (fun r acc => match snd r with
                         | Some x => if Qle_bool 0 x then (fst r, x) :: acc
                                     else acc
                         | None => acc end) [] l) -> In k (map fst l)).
    { intros k x Hk. apply IH2 in Hk. destruct Hk as [Hk _].
      apply in_map_iff. now exists (k, Some x). }
    destruct o as [x |]; [destruct (Qle_bool 0 x) eqn:E |].
    + split; [| split; [| simpl; lia]].
      * intros H. inversion H as [| ? ? Ht Hl]; subst. simpl.
        constructor; [| now apply IH1].
        intros Hin. apply in_map_iff in Hin.
        destruct Hin as ([k v] & Hk & Hkv). simpl in Hk. subst k.
        apply Ht. now apply (Hkeys t v).
      * intros k v. simpl. rewrite IH2. split.
        -- intros [[= <- <-] | [H1 H2]].
           ++ split; [now left | now apply Qle_bool_iff].
           ++ split; [now right | exact H2].
        -- intros [[[= <- <-] | H1] H2]; [now left | right; now split].
    + split; [| split; [| lia]].
      * intros H. inversion H; subst. now apply IH1.
      * intros k v. rewrite IH2. split.
        -- intros [H1 H2]. split; [now right | exact H2].
        -- intros [[[= <- <-] | H1] H2]; [| now split].
           apply Qle_bool_iff in H2. congruence.
    + split; [| split; [| lia]].
      * intros H. inversion H; subst. now apply IH1.
      * intros k v. rewrite IH2. split.
        -- intros [H1 H2]. split; [now right | exact H2].
        -- intros [[[=] | H1] H2]. now split.
Qed.

Lemma sorted_nodup_strict (l : list Z) :
  StronglySorted Z.le l -> NoDup l -> StronglySorted Z.lt l.
Proof.
  induction 1 as [| x l Hs IH Hall]; intros Hnd; constructor.
  - apply IH. now inversion Hnd.
  - inversion Hnd as [| ? ? Hx _]; subst.
    apply Forall_forall. intros y Hy.
    rewrite Forall_forall in Hall. specialize (Hall y Hy).
    assert (x <> y) by (intros ->; contradiction). lia.
Qed.

Lemma record_of_timestamps (l : list (Z * Q)) :
  map EnergyData.timestamp (map record_of l) = map fst l.
Proof. rewrite map_map. reflexivity. Qed.

Section Clean.

Variable cell : Type.
Variable to_datetime : list cell -> list (option Datetime.t).
Variable to_numeric : list cell -> list (option Q).

(** The cleaned batch: in strictly increasing timestamp order and without
    a negative value. *)
Lemma clean_spec (ts_cells kw_cells : list cell) :
  let batch := clean cell to_datetime to_numeric ts_cells kw_cells in
  StronglySorted Z.lt (map EnergyData.timestamp batch)
  /\ Forall (fun r => 0 <= EnergyData.consumption_kwh r) batch
  /\ (length batch <= length kw_cells)%nat.
Proof.
  unfold clean, unique_rows. cbv zeta.
  set (dated := fold_right _ [] (combine (to_datetime ts_cells) kw_cells)).
  set (unique := drop_duplicates [] dated).
  set (kwh := to_numeric (map snd unique)).
  set (filled := match median kwh with Some m => _ | None => kwh end).
  destruct (valued_spec (combine (map fst unique) filled)) as (V1 & V2 & V3).
  cbv zeta in V1, V2, V3.
  set (valued := fold_right _ [] (combine (map fst unique) filled)) in *.
  destruct (drop_duplicates_spec [] dated) as [U1 U2]. fold unique in U1, U2.
  pose proof (SqlFacts.order_by_perm fst valued) as Hperm.
  split; [| split].
  - rewrite record_of_timestamps. apply sorted_nodup_strict.
    + apply SqlFacts.order_by_sorted.
    + eapply Permutation_NoDup;
        [apply Permutation_map; symmetry; exact Hperm |].
      apply V1. now apply combine_keys_nodup.
  - apply Forall_map. apply Forall_forall. intros [t x] Hr.
    apply (Permutation_in _ Hperm) in Hr. simpl. now apply V2 in Hr.
  - rewrite length_map, (Permutation_length Hperm).
    assert (Hd : (length dated <= length kw_cells)%nat).
    { unfold dated.
      assert (G : forall l : list (option Datetime.t * cell),
                 (length (fold_right (fun r acc => match fst r with
                    | Some t => (t, snd r) :: acc | None => acc end) [] l)
                  <= length l)%nat).
      { induction l as [| [[t |] c] l IHl]; simpl; lia. }
      etransitivity; [apply G |]. rewrite length_combine. lia. }
    assert (Hu : (length unique <= length dated)%nat).
    { apply NoDup_incl_length.
      - apply (NoDup_map_inv fst). exact U1.
      - intros r Hr. now apply U2 in Hr. }
    rewrite length_combine, length_map in V3. lia.
Qed.

End Clean.

End UploadFacts.

Section UploadClaims.

Import EnergyService.

Variable cell : Type.
Variable read_csv : list Byte.byte -> list (string * list cell) + string.
Variable normalize : string -> string.
Variable to_datetime : list cell -> list (option Datetime.t).
Variable to_numeric : list cell -> list (option Q).

Let upload := process_csv cell read_csv normalize to_datetime to_numeric.

(** What an upload answers and appends depends on the file alone: it
    raises and appends nothing, or appends the cleaned batch of two columns
    of the file and reports its size. *)
Lemma process_csv_uniform (file : list Byte.byte) :
  exists res batch,
    (forall db,
        upload file db
        = (res, mkSession (energy_data db ++ batch) (prediction_data db)
                          (anomaly_data db)))
    /\ match res with
       | inl (saved, message) =>
           saved = Z.of_nat (length batch)
           /\ message
              = ("Successfully processed and stored " ++ str saved
                 ++ " records")%string
           /\ exists ts_cells kw_cells,
                batch = clean cell to_datetime to_numeric ts_cells kw_cells
       | inr _ => batch = []
       end.
Proof.
  assert (Hsame : forall db,
             db = mkSession (energy_data db ++ []) (prediction_data db)
                            (anomaly_data db)).
  { intros [e p a]. cbn. now rewrite app_nil_r. }
  unfold upload, process_csv.
  destruct (read_csv file) as [frame | e].
  2: { exists (inr (CannotParse e)), []. split; [| reflexivity].
       intros db. now rewrite <- Hsame. }
  cbv zeta.
  destruct (find_column timestamp_candidates _) as [ts_col |].
  2: { exists (inr NoTimestampColumn), []. split; [| reflexivity].
       intros db. now rewrite <- Hsame. }
  destruct (find_column consumption_candidates _) as [kw_col |].
  2: { exists (inr NoConsumptionColumn), []. split; [| reflexivity].
       intros db. now rewrite <- Hsame. }
  destruct (filter _ frame) as [| ts_column [| ? ?]];
    try (exists (inr LengthMismatch), []; split; [| reflexivity];
         intros db; now rewrite <- Hsame).
  destruct (filter _ frame) as [| kw_column [| ? ?]];
    try (exists (inr LengthMismatch), []; split; [| reflexivity];
         intros db; now rewrite <- Hsame).
  eexists (inl (_, _)), _. split; [intros db; reflexivity |].
  split; [reflexivity |]. split; [reflexivity |].
  now exists (snd ts_column), (snd kw_column).
Qed.

(** X13.  Whatever the file holds, an upload leaves the prediction and
    anomaly tables untouched and the stored readings in place, and appends
    to them a batch (empty when the upload raises) in which no consumption
    is negative, the timestamps strictly increase (none repeats), and the
    calendar columns agree with the timestamp: hour in 0..23, day in 0..6
    with Monday 0, and [is_weekend] set exactly on days 5 and 6.  On
    success it reports the size of the batch. *)
Theorem upload_appends_a_clean_batch (file : list Byte.byte) (db : Session) :
  let out := upload file db in
  prediction_data (snd out) = prediction_data db
  /\ anomaly_data (snd out) = anomaly_data db
  /\ exists batch,
       energy_data (snd out) = energy_data db ++ batch
       /\ StronglySorted Z.lt (map EnergyData.timestamp batch)
       /\ Forall (fun r => 0 <= EnergyData.consumption_kwh r) batch
       /\ Forall (fun r =>
                    EnergyData.hour r = Datetime.hour (EnergyData.timestamp r)
                    /\ (0 <= EnergyData.hour r <= 23)%Z
                    /\ EnergyData.day r = Datetime.weekday (EnergyData.timestamp r)
                    /\ (0 <= EnergyData.day r <= 6)%Z
                    /\ EnergyData.month r = Datetime.month (EnergyData.timestamp r)
                    /\ EnergyData.is_weekend r = (5 <=? EnergyData.day r)%Z)
                 batch
       /\ match fst out with
          | inl (saved, message) =>
              saved = Z.of_nat (length batch)
              /\ message
                 = ("Successfully processed and stored " ++ str saved
                    ++ " records")%string
          | inr _ => batch = []
          end.
Proof.
  cbv zeta.
  destruct (process_csv_uniform file) as (res & batch & H & Hres).
  rewrite (H db). cbn [fst snd prediction_data anomaly_data energy_data].
  split; [reflexivity |]. split; [reflexivity |].
  exists batch. split; [reflexivity |].
  destruct res as [[saved message] | e].
  - destruct Hres as (Hsaved & Hmsg & ts & kw & ->).
    destruct (UploadFacts.clean_spec cell to_datetime to_numeric ts kw)
      as (C1 & C2 & _).
    split; [exact C1 |]. split; [exact C2 |]. split; [| now split].
    unfold clean. cbv zeta. apply Forall_map. apply Forall_forall.
    intros [t x] _. unfold record_of. cbn.
    assert (Hh : (0 <= Datetime.hour t <= 23)%Z).
    { unfold Datetime.hour.
      pose proof (Z.mod_pos_bound (t / Datetime.us_per_hour) 24 ltac:(lia)).
      lia. }
    assert (Hd : (0 <= Datetime.weekday t <= 6)%Z).
    { unfold Datetime.weekday.
      pose proof (Z.mod_pos_bound (Datetime.date t + 3) 7 ltac:(lia)). lia. }
    repeat split; lia.
  - subst batch. repeat split; constructor.
Qed.

(** X14.  An upload never looks at what is stored: uploading the same file
    a second time gives the same answer as the first time and appends the
    same batch again, so every reading of the file is then stored twice. *)
Theorem upload_twice_stores_twice (file : list Byte.byte) (db : Session) :
  let first := upload file db in
  let second := upload file (snd first) in
  fst second = fst first
  /\ exists batch,
       energy_data (snd first) = energy_data db ++ batch
       /\ energy_data (snd second) = energy_data db ++ batch ++ batch.
Proof.
  cbv zeta.
  destruct (process_csv_uniform file) as (res & batch & H & _).
  rewrite (H db). cbn [fst snd]. rewrite H. cbn [fst snd energy_data].
  split; [reflexivity |]. exists batch.
  split; [reflexivity | now rewrite app_assoc].
Qed.

(** X15.  After an upload into a store without readings, what the
    services read back (up to their limit of 10000 rows) is the uploaded
    batch in its stored order: readings without a negative value and with
    strictly increasing timestamps. *)
Theorem upload_then_read (file : list Byte.byte) (db : Session) :
  energy_data db = [] ->
  let db' := snd (upload file db) in
  let all_data := EnergyRepository.get_all db' 10000%Z in
  all_data = firstn (Z.to_nat 10000) (energy_data db')
  /\ Forall (fun r => 0 <= EnergyData.consumption_kwh r) all_data
  /\ StronglySorted Z.lt (map EnergyData.timestamp all_data).
Proof.
  intros Hempty db' all_data.
  destruct (upload_appends_a_clean_batch file db)
    as (_ & _ & batch & Hb & Hsorted & Hnn & _).
  cbv zeta in Hb. fold db' in Hb. rewrite Hempty in Hb. cbn [app] in Hb.
  assert (Hle : StronglySorted Z.le (map EnergyData.timestamp batch)).
  { clear - Hsorted. induction Hsorted as [| x l Hs IH Hall]; constructor;
      [exact IH |].
    eapply Forall_impl; [| exact Hall]. simpl. intros; lia. }
  assert (Hall : all_data = firstn (Z.to_nat 10000) batch).
  { unfold all_data, EnergyRepository.get_all. rewrite Hb.
    rewrite SqlFacts.energy_order_by.
    now rewrite (SqlFacts.order_by_fixed EnergyData.timestamp batch Hle). }
  rewrite Hb. split; [exact Hall |]. rewrite Hall. split.
  - apply Forall_forall. intros r Hr. apply SqlFacts.firstn_in in Hr.
    rewrite Forall_forall in Hnn. now apply Hnn.
  - rewrite <- firstn_map.
    clear - Hsorted. revert Hsorted.
    generalize (map EnergyData.timestamp batch) (Z.to_nat 10000).
    intros l n. revert n.
    induction l as [| x l IH]; intros [| n] H; simpl; try constructor.
    + inversion H; subst. now apply IH.
    + inversion H as [| ? ? _ Hfa]; subst.
      apply Forall_forall. intros y Hy. apply SqlFacts.firstn_in in Hy.
      rewrite Forall_forall in Hfa. now apply Hfa.
Qed.

End UploadClaims.

(** X15 at the reference frame, uploaded into an empty store: the repeated
    timestamp and the negative value are gone, the row with the missing
    value stays, and the rows come back in time order. *)
Lemma upload_then_read_reference :
  map EnergyData.timestamp
      (EnergyRepository.get_all
         (snd (EnergyService.process_csv ReferenceCsv.cell
                 ReferenceCsv.read_csv ReferenceCsv.normalize
                 ReferenceCsv.to_datetime ReferenceCsv.to_numeric
                 [] (mkSession [] [] [])))
         10000%Z)
  = [0%Z; 7200000000%Z].
Proof.
  destruct (upload_then_read ReferenceCsv.cell ReferenceCsv.read_csv
              ReferenceCsv.normalize ReferenceCsv.to_datetime
              ReferenceCsv.to_numeric [] (mkSession [] [] []) eq_refl)
    as (H & _).
  cbv zeta in H. rewrite H. reflexivity.
Defined.

(** ** Choosing the columns, filling the gaps *)

Module ColumnFacts.
Import EnergyService.





Lemma insert_value_nonempty (x : Q) (l : list Q) : insert_value x l <> [].
Proof. destruct l as [| y l]; simpl; [| destruct (Qle_bool x y)]; discriminate. Qed.

(** A column has no median exactly when none of its cells has a value. *)
Lemma median_none (l : list (option Q)) :
  median l = None -> Forall (fun o => o = None) l.
Proof.
  unfold median. cbv zeta.
  set (present := fold_right _ [] l).
  destruct (fold_right insert_value [] present) as [| s0 s] eqn:Es.
  - intros _. assert (Hp : present = []).
    { destruct present as [| p ps]; [reflexivity |]. simpl in Es.
      now apply insert_value_nonempty in Es. }
    clear Es. unfold present in Hp. clear present.
    induction l as [| [x |] l IH]; simpl in *;
      [constructor | discriminate | constructor; [reflexivity | now apply IH]].
  - destruct (Nat.even _); discriminate.
Qed.

End ColumnFacts.

Section ColumnClaims.

Import EnergyService.

Variable cell : Type.
Variable read_csv : list Byte.byte -> list (string * list cell) + string.
Variable normalize : string -> string.
Variable to_datetime : list cell -> list (option Datetime.t).
Variable to_numeric : list cell -> list (option Q).

Let upload := process_csv cell read_csv normalize to_datetime to_numeric.


End ColumnClaims.


(** ** Missing consumption values *)

Module MedianFacts.
Import EnergyService.

Lemma insert_value_in (x y : Q) (l : list Q) :
  In y (insert_value x l) <-> y = x \/ In y l.
Proof.
  induction l as [| z l IH]; simpl; [intuition |].
  destruct (Qle_bool x z); simpl; [intuition |].
  rewrite IH. intuition.
Qed.

Lemma sorted_values_in (y : Q) (l : list Q) :
  In y (fold_right insert_value [] l) <-> In y l.
Proof.
  induction l as [| x l IH]; simpl; [reflexivity |].
  rewrite insert_value_in, IH. intuition.
Qed.

Lemma present_in (y : Q) (l : list (option Q)) :
  In y (fold_right (fun o acc => match o with
                                 | Some x => x :: acc
                                 | None => acc
                                 end) [] l)
  <-> In (Some y) l.
Proof.
  induction l as [| [x |] l IH]; simpl; [reflexivity | |].
  - rewrite IH. split; intros [H | H]; auto; left; congruence.
  - rewrite IH. split; [auto | intros [H | H]; [discriminate | exact H]].
Qed.

(** The median lies between two values of the column. *)
Lemma median_between (l : list (option Q)) (m : Q) :
  median l = Some m ->
  exists a b, In (Some a) l /\ In (Some b) l /\ a <= m /\ m <= b.
Proof.
  unfold median. cbv zeta.
  remember (fold_right insert_value []
              (fold_right (fun o acc => match o with
                                        | Some x => x :: acc
                                        | None => acc
                                        end) [] l)) as s eqn:Es.
  assert (Hin : forall i, (i < length s)%nat -> In (Some (nth i s 0)) l).
  { intros i Hi. apply present_in, sorted_values_in.
    rewrite <- Es. now apply nth_In. }
  clear Es.
  destruct s as [| s0 s']; [discriminate |].
  remember (s0 :: s') as s eqn:Es.
  assert (Hn : (0 < length s)%nat) by (subst s; simpl; lia).
  clear Es. remember (length s) as n eqn:En. clear En.
  assert (Hhalf : (n / 2 < n)%nat) by (apply Nat.div_lt; lia).
  assert (Hmid : forall u v : Q, u <= v ->
                   u <= (u + v) / 2 /\ (u + v) / 2 <= v).
  { intros u v Huv. split.
    - apply Qle_shift_div_l; lra.
    - apply Qle_shift_div_r; lra. }
  assert (Hprev : (n / 2 - 1 < n)%nat) by lia.
  pose proof (Hin _ Hhalf) as Hb. pose proof (Hin _ Hprev) as Ha.
  remember (nth (n / 2 - 1) s 0) as a eqn:Ea.
  remember (nth (n / 2) s 0) as b eqn:Eb. clear Ea Eb.
  destruct (Nat.even n); intros [= <-].
  - destruct (Qlt_le_dec a b) as [Hlt | Hle].
    + exists a, b. destruct (Hmid a b) as [H1 H2]; [lra |].
      repeat split; assumption.
    + exists b, a. destruct (Hmid b a) as [H1 H2]; [exact Hle |].
      assert (E : (a + b) / 2 == (b + a) / 2)
        by (unfold Qdiv; now rewrite (Qplus_comm a b)).
      rewrite E. repeat split; assumption.
  - exists b, b. repeat split; trivial; apply Qle_refl.
Qed.

Lemma combine_filled {K} (f : option Q -> option Q)
    (keys : list K) (l : list (option Q)) (k : K) (v : option Q) :
  In (k, v) (combine keys (map f l))
  <-> exists o, In (k, o) (combine keys l) /\ v = f o.
Proof.
  revert l. induction keys as [| k0 keys IH]; intros [| o0 l]; simpl;
    try (split; [contradiction | intros (o & [] & _)]).
  rewrite IH. split.
  - intros [[= <- <-] | (o & Ho & ->)]; [exists o0 | exists o]; auto.
  - intros (o & [[= <- <-] | Ho] & ->); [now left | right; now exists o].
Qed.

End MedianFacts.

Section MedianClaims.

Import EnergyService.

Variable cell : Type.
Variable to_datetime : list cell -> list (option Datetime.t).
Variable to_numeric : list cell -> list (option Q).

(** X17.  What an upload stores of the rows left after the timestamps
    are parsed and de-duplicated: a row whose consumption parses is stored
    with that value when it is not negative; a row whose consumption does
    not parse is stored with the median of the column's parsed values when
    that median is not negative; nothing else is stored.  The median lies
    between two parsed values of the column, and when no value of the
    column parses nothing at all is stored. *)
Theorem missing_consumption_gets_the_median (ts_cells kw_cells : list cell) :
  let unique := unique_rows cell to_datetime ts_cells kw_cells in
  let kwh := to_numeric (map snd unique) in
  let batch := clean cell to_datetime to_numeric ts_cells kw_cells in
  (forall r,
      In r batch <->
      exists t o x,
        In (t, o) (combine (map fst unique) kwh)
        /\ r = record_of (t, x)
        /\ 0 <= x
        /\ (o = Some x \/ (o = None /\ median kwh = Some x)))
  /\ (forall m, median kwh = Some m ->
        exists a b, In (Some a) kwh /\ In (Some b) kwh /\ a <= m /\ m <= b)
  /\ (Forall (fun o => o = None) kwh -> batch = []).
Proof.
  intros unique kwh batch.
  assert (Hbatch : batch =
    map record_of (Sql.order_by fst
      (fold_right (fun r acc => match snd r with
                     | Some x => if Qle_bool 0 x then (fst r, x) :: acc else acc
                     | None => acc
                     end) []
         (combine (map fst unique)
            match median kwh with
            | Some m => map (fun o => match o with
                                      | Some x => Some x
                                      | None => Some m
                                      end) kwh
            | None => kwh
            end)))) by reflexivity.
  set (filled := match median kwh with Some m => _ | None => kwh end) in Hbatch.
  destruct (UploadFacts.valued_spec (combine (map fst unique) filled))
    as (_ & V & _). cbv zeta in V.
  set (valued := fold_right _ [] (combine (map fst unique) filled)) in *.
  pose proof (SqlFacts.order_by_perm fst valued) as Hperm.
  assert (Hfilled : forall t x,
             In (t, Some x) (combine (map fst unique) filled) <->
             exists o, In (t, o) (combine (map fst unique) kwh)
                       /\ (o = Some x \/ (o = None /\ median kwh = Some x))).
  { intros t x. unfold filled. destruct (median kwh) as [m |] eqn:Em.
    - rewrite MedianFacts.combine_filled. split.
      + intros (o & Ho & E). exists o. split; [exact Ho |].
        destruct o as [y |]; injection E as <-; auto.
      + intros (o & Ho & [-> | [-> [= <-]]]); eexists; split; eauto.
    - split.
      + intros H. exists (Some x). auto.
      + intros (o & Ho & [-> | [_ H]]); [exact Ho | discriminate]. }
  split; [| split].
  - intros r. rewrite Hbatch, in_map_iff. split.
    + intros ([t x] & <- & Hr).
      apply (Permutation_in _ Hperm), V in Hr. destruct Hr as [Hr Hx].
      apply Hfilled in Hr. destruct Hr as (o & Ho & Hcase).
      exists t, o, x. auto.
    + intros (t & o & x & Ho & -> & Hx & Hcase).
      exists (t, x). split; [reflexivity |].
      apply (Permutation_in _ (Permutation_sym Hperm)), V.
      split; [| exact Hx]. apply Hfilled. now exists o.
  - intros m. apply MedianFacts.median_between.
  - intros Hnone. rewrite Hbatch.
    assert (Hv : valued = []).
    { destruct valued as [| [t x] rest]; [reflexivity |].
      destruct (proj1 (V t x) (or_introl eq_refl)) as [Hin _].
      apply Hfilled in Hin. destruct Hin as (o & Ho & Hcase).
      apply in_combine_r in Ho.
      rewrite Forall_forall in Hnone. pose proof (Hnone _ Ho) as ->.
      destruct Hcase as [E | [_ Em]]; [discriminate |].
      apply MedianFacts.median_between in Em.
      destruct Em as (a & _ & Ha & _). apply Hnone in Ha. discriminate. }
    now rewrite Hv.
Qed.

End MedianClaims.

(** X17 at the reference frame: the row stamped 0 has no number, and is
    stored with the median of 3 and -1. *)
Lemma missing_consumption_gets_the_median_reference :
  exists r,
    In r (EnergyService.clean ReferenceCsv.cell ReferenceCsv.to_datetime
            ReferenceCsv.to_numeric
            [ReferenceCsv.Stamp 7200000000%Z; ReferenceCsv.Stamp 7200000000%Z;
             ReferenceCsv.Stamp 3600000000%Z; ReferenceCsv.Stamp 0%Z]
            [ReferenceCsv.Number 3; ReferenceCsv.Number 5;
             ReferenceCsv.Number (-1); ReferenceCsv.Text "n/a"])
    /\ EnergyData.timestamp r = 0%Z
    /\ EnergyData.consumption_kwh r == 1.
Proof.
  destruct (missing_consumption_gets_the_median ReferenceCsv.cell
              ReferenceCsv.to_datetime ReferenceCsv.to_numeric
              [ReferenceCsv.Stamp 7200000000%Z; ReferenceCsv.Stamp 7200000000%Z;
               ReferenceCsv.Stamp 3600000000%Z; ReferenceCsv.Stamp 0%Z]
              [ReferenceCsv.Number 3; ReferenceCsv.Number 5;
               ReferenceCsv.Number (-1); ReferenceCsv.Text "n/a"])
    as (H & _).
  exists (EnergyService.record_of (0%Z, (-1 + 3) / 2)).
  split; [| split; [reflexivity | reflexivity]].
  apply H. exists 0%Z, None, ((-1 + 3) / 2).
  split; [vm_compute; auto |].
  split; [reflexivity |].
  split; [vm_compute; discriminate |].
  right. split; reflexivity.
Defined.

(** ** The energy-data route *)

(** X18.  The route accepts an [offset] and never uses it: for every
    admissible [limit] and [offset] it answers with the page of offset 0,
    that is the [limit] earliest readings in timestamp order, [returned]
    being the smaller of [limit] and [total].  No request therefore gets
    past the 10000 earliest readings. *)
Theorem energy_data_route_ignores_offset (limit offset : Z) (db : Session) :
  (1 <= limit <= 10000)%Z ->
  (0 <= offset)%Z ->
  exists page,
    EnergyApi.get_energy_data limit offset db = EnergyApi.Ok page
    /\ EnergyApi.get_energy_data limit 0 db = EnergyApi.Ok page
    /\ EnergyApi.data page = EnergyRepository.get_all_from db limit 0
    /\ EnergyApi.data page
       = firstn (Z.to_nat limit) (EnergyRepository.get_all db 10000)
    /\ StronglySorted Z.le (map EnergyData.timestamp (EnergyApi.data page))
    /\ EnergyApi.total page = Z.of_nat (length (energy_data db))
    /\ EnergyApi.returned page = Z.min limit (EnergyApi.total page)
    /\ (EnergyApi.returned page <= 10000)%Z.
Proof.
  intros Hlimit Hoffset. unfold EnergyApi.get_energy_data.
  replace ((1 <=? limit) && (limit <=? 10000) && (0 <=? offset))%Z
    with true by lia.
  replace ((1 <=? limit) && (limit <=? 10000) && (0 <=? 0))%Z
    with true by lia.
  cbv zeta. eexists. split; [reflexivity |]. split; [reflexivity |].
  cbn [EnergyApi.data EnergyApi.total EnergyApi.returned].
  unfold EnergyService.get_all_data, EnergyService.get_count,
    EnergyRepository.get_count.
  assert (Hlen : length (EnergyRepository.get_all db limit)
                 = Nat.min (Z.to_nat limit) (length (energy_data db))).
  { unfold EnergyRepository.get_all. rewrite length_firstn.
    rewrite SqlFacts.energy_order_by.
    now rewrite (Permutation_length (SqlFacts.order_by_perm _ _)). }
  split; [reflexivity |]. split.
  { unfold EnergyRepository.get_all. rewrite firstn_firstn.
    f_equal. lia. }
  split; [apply SqlFacts.get_all_sorted |].
  split; [reflexivity |].
  rewrite Hlen. split; lia.
Qed.

(** X18 at two stored readings: the second page of size one is the first
    page again. *)
Lemma energy_data_route_ignores_offset_two_readings :
  exists page,
    EnergyApi.get_energy_data 1 1 Reference.two_readings = EnergyApi.Ok page
    /\ EnergyApi.data page
       = EnergyRepository.get_all_from Reference.two_readings 1 0
    /\ EnergyApi.total page = 2%Z.
Proof.
  destruct (energy_data_route_ignores_offset 1 1 Reference.two_readings)
    as (page & H1 & _ & H3 & _ & _ & H6 & _); [lia | lia |].
  exists page. split; [exact H1 |]. split; [exact H3 |]. exact H6.
Defined.
